(** * AlgoTradeX: the order lifecycle of the day trader

    A shallow embedding of [src/alpaca_utils/trade_manager.py] (class
    [TradeManager]) and of the trading loop of [main_day_trader.py]
    ([run_day_trader]), with the properties of the order lifecycle proved
    over it.

    Conventions of the embedding.
    - A Python float (a price, a quantity, a number of seconds) is a
      rational [Q]; [round(x, 2)] is rounding half to even on the exact
      value of [x], and its result is the decimal with two places that the
      float returned prints as.  The price arithmetic of the stop-loss leg
      (lines 71-75) is done in binary64, as the code does it: a rational
      there stands for the double nearest to it.
    - Python strings are [string]; [str.lower] is the ASCII lower-casing.
    - The broker, the SDK and the collaborators of the loop whose sources are
      not part of the modelled files ([account_manager],
      [market_data_manager], [trading_strategy], [risk_manager]) are the
      fields of an environment [Env].  A call whose answer the program reads
      is answered by the environment as a function of the number of answers
      read so far (the tick); the program is sequential and deterministic, so
      every behaviour of the outside world on a run is such a function.
      The calls of the SDK can raise.  Those of [account_manager],
      [market_data_manager] and [trading_strategy] return in the loop of
      section [DayTrader]; module [Fallible] gives the loop in which they
      can raise as well.
    - A computation maps the tick to its result (a value or a raised
      exception), the new tick, and the events it performed, in order:
      the calls made to the outside world, the sleeps and the printed lines. *)

From Stdlib Require Import ZArith QArith Qround Qminmax List String Ascii Bool Lia Lqa.
From Stdlib Require Floats.SpecFloat.
Import ListNotations.

Local Open Scope string_scope.
Local Open Scope list_scope.
Local Open Scope Q_scope.

(** ** Python values *)

Module Py.

Definition lower_ascii (c : ascii) : ascii :=
  let n := nat_of_ascii c in
  if (Nat.leb 65 n && Nat.leb n 90)%bool then ascii_of_nat (n + 32) else c.

Definition upper_ascii (c : ascii) : ascii :=
  let n := nat_of_ascii c in
  if (Nat.leb 97 n && Nat.leb n 122)%bool then ascii_of_nat (n - 32) else c.

(** [str.lower()] *)
Fixpoint lower (s : string) : string :=
  match s with
  | EmptyString => EmptyString
  | String c r => String (lower_ascii c) (lower r)
  end.

(** [str.upper()] *)
Fixpoint upper (s : string) : string :=
  match s with
  | EmptyString => EmptyString
  | String c r => String (upper_ascii c) (upper r)
  end.

(** [x < y] on floats *)
Definition ltb (x y : Q) : bool := negb (Qle_bool y x).

(** [x <= y] on floats *)
Definition leb (x y : Q) : bool := Qle_bool x y.

(** Truth value of a float: [0.0] is false. *)
Definition truthy (x : Q) : bool := negb (Qeq_bool x 0).

(** Truth value of an optional float: [None] and [0.0] are false. *)
Definition truthy_opt (x : option Q) : bool :=
  match x with
  | None => false
  | Some v => truthy v
  end.

(** [max(a, b)]: the first argument unless the second is greater. *)
Definition max (a b : Q) : Q := if ltb a b then b else a.

(** [min(a, b)]: the first argument unless the second is smaller. *)
Definition min (a b : Q) : Q := if ltb b a then b else a.

(** [int(x)]: truncation towards zero. *)
Definition int (x : Q) : Z := if Qle_bool 0 x then Qfloor x else Qceiling x.

(** Rounding to the nearest integer, ties to even. *)
Definition round_half_even (x : Q) : Z :=
  let f := Qfloor x in
  match Qcompare (x - inject_Z f) (1 # 2) with
  | Lt => f
  | Gt => (f + 1)%Z
  | Eq => if Z.even f then f else (f + 1)%Z
  end.

(** [round(x, 2)] *)
Definition round2 (x : Q) : Q := Qmake (round_half_even (x * 100)) 100.

End Py.

(** ** Binary64 arithmetic

    The doubles of IEEE 754 with rounding to nearest, ties to even, as the
    specification of the floats of Rocq gives them ([SpecFloat], with a
    mantissa of 53 bits). *)

Module Float64.

Definition double : Type := SpecFloat.spec_float.

Definition prec : Z := 53.

Definition emax : Z := 1024.

(** An integer, exactly, as the quotient of [of_Q] takes it. *)
Definition of_Z (n : Z) : double :=
  match n with
  | Z0 => SpecFloat.S754_zero false
  | Zpos p => SpecFloat.S754_finite false p 0
  | Zneg p => SpecFloat.S754_finite true p 0
  end.

(** The double nearest to a rational: what a literal such as [0.003] is,
    and the double that a decimal returned by [round] stands for. *)
Definition of_Q (q : Q) : double :=
  SpecFloat.SFdiv prec emax (of_Z (Qnum q)) (of_Z (Zpos (Qden q))).

(** The exact value of a finite double; an infinity or a NaN, which the
    prices of a rational magnitude below 1.7e308 never reach, reads as 0. *)
Definition to_Q (x : double) : Q :=
  match x with
  | SpecFloat.S754_finite s m e =>
      let n := if s then Zneg m else Zpos m in
      match e with
      | Z0 => inject_Z n
      | Zpos k => inject_Z (n * 2 ^ Zpos k)
      | Zneg k => Qmake n (2 ^ k)
      end
  | _ => 0
  end.

(** [x * y], [x + y] and [x - y] on floats *)
Definition mul : double -> double -> double := SpecFloat.SFmul prec emax.
Definition add : double -> double -> double := SpecFloat.SFadd prec emax.
Definition sub : double -> double -> double := SpecFloat.SFsub prec emax.

End Float64.

(** ** The SDK's enumerations and request models *)

Inductive OrderSide := BUY | SELL.

Inductive OrderClass := SIMPLE | BRACKET | OCO | OTO.

Inductive OrderType := MARKET | LIMIT | STOP | STOP_LIMIT | TRAILING_STOP.

Inductive TimeInForce := DAY | GTC | OPG | CLS | IOC | FOK.

Inductive OrderStatus :=
| NEW | PARTIALLY_FILLED | FILLED | DONE_FOR_DAY | CANCELED | EXPIRED
| REPLACED | PENDING_CANCEL | PENDING_REPLACE | PENDING_REVIEW | ACCEPTED
| PENDING_NEW | ACCEPTED_FOR_BIDDING | STOPPED | REJECTED | SUSPENDED
| CALCULATED | HELD.

Definition OrderStatus_eqb (a b : OrderStatus) : bool :=
  match a, b with
  | NEW, NEW | PARTIALLY_FILLED, PARTIALLY_FILLED | FILLED, FILLED
  | DONE_FOR_DAY, DONE_FOR_DAY | CANCELED, CANCELED | EXPIRED, EXPIRED
  | REPLACED, REPLACED | PENDING_CANCEL, PENDING_CANCEL
  | PENDING_REPLACE, PENDING_REPLACE | PENDING_REVIEW, PENDING_REVIEW
  | ACCEPTED, ACCEPTED | PENDING_NEW, PENDING_NEW
  | ACCEPTED_FOR_BIDDING, ACCEPTED_FOR_BIDDING | STOPPED, STOPPED
  | REJECTED, REJECTED | SUSPENDED, SUSPENDED | CALCULATED, CALCULATED
  | HELD, HELD => true
  | _, _ => false
  end.

Record TakeProfitRequest := { tp_limit_price : Q }.

Record StopLossRequest := { sl_stop_price : Q; sl_limit_price : Q }.

Record MarketOrderRequest := {
  mo_symbol : string;
  mo_qty : Q;
  mo_side : OrderSide;
  mo_time_in_force : TimeInForce;
  mo_order_class : OrderClass;
  mo_take_profit : option TakeProfitRequest;
  mo_stop_loss : option StopLossRequest
}.

Record TrailingStopOrderRequest := {
  ts_symbol : string;
  ts_qty : Q;
  ts_side : OrderSide;
  ts_type : OrderType;
  ts_time_in_force : TimeInForce;
  ts_trail_price : option Q;
  ts_trail_percent : option Q
}.

Inductive OrderRequest :=
| MarketReq (r : MarketOrderRequest)
| TrailingReq (r : TrailingStopOrderRequest).

Definition OrderId := string.

(** The broker's view of an order, as [submit_order] and [get_order_by_id]
    return it. *)
Record Order := {
  id : OrderId;
  symbol : string;
  qty : Q;
  filled_qty : Q;
  side : OrderSide;
  type : OrderType;
  status : OrderStatus
}.

Record TradeAccount := { buying_power : Q }.

(** ** Results, events and the environment *)

Definition exn := string.

Inductive Result (A : Type) :=
| Ok (a : A)
| Raise (e : exn).

Arguments Ok {A} a.
Arguments Raise {A} e.

(** ** Data of the trading loop *)

(** A bar of the price history: a row of the data frame. *)
Record PriceBar := {
  bar_timestamp : Z;
  bar_open : Q;
  bar_high : Q;
  bar_low : Q;
  close : Q;
  bar_volume : Q
}.

Definition DataFrame := list PriceBar.

(** An entry of [account_manager.get_positions()]. *)
Record Position := {
  pos_symbol : string;
  pos_qty : Q;
  market_value : Q;
  unrealized_pl : Q;
  unrealized_plpc : Q
}.

(** [account_manager.get_account_details()] *)
Record AccountInfo := {
  equity : Q;
  cash : Q;
  info_buying_power : Q;
  realized_pnl : Q;
  margin_available : Q
}.

(** The keys of [risk_params] that the loop reads. *)
Record RiskParams := {
  quantity : Z;
  take_profit : Q;
  trail_amount : Q
}.

(** [account_manager.get_market_clock_data()]; instants are microseconds
    since the epoch, the resolution of [datetime]. *)
Record Clock := {
  current_time : Z;
  is_open : bool;
  next_open : Z;
  next_close : Z
}.

(** The lines the program prints, one constructor per [print]. *)
Inductive Msg :=
| InsufficientBuy (qty : Q) (symbol : string)
| InsufficientShort (qty : Q) (symbol : string)
| MarketOrderPlaced (side : string) (qty : Q) (symbol : string)
| MarketOrderError (symbol : string) (e : exn)
| TrailingStopPlaced (side : OrderSide) (qty : Q) (symbol : string)
    (trail_price trail_percent : option Q)
| TrailingStopError (symbol : string) (e : exn)
| OrderFilled (order_id : OrderId) (filled : Q)
| OrderFailed (order_id : OrderId) (st : OrderStatus)
| WaitingForFill (order_id : OrderId) (attempt max_wait : nat)
| OrderStatusError (order_id : OrderId) (e : exn)
| FillTimeout (order_id : OrderId)
| MarketClosedWaiting (now : Z) (minutes : Z) (until : Z)
| MarketAboutToClose
| AllPositionsClosed
| SleepingUntil (minutes : Z) (until : Z)
| RunningDayTrader (now : Z)
| NoDataFound (symbol : string)
| TradeSignal (symbol signal : string)
| SkippingOpenPosition (symbol : string)
| EntryPrice (symbol : string) (price : Q)
| CalculatedRiskParameters (p : RiskParams)
| SkippingZeroQuantity (symbol : string)
| TradeSummary (signal : string) (price : Q) (quantity : Z) (total : Q)
| PlacingOrder (signal symbol : string)
| ExecutedMarketOrder (o : Order)
| TrailingStopAttached (symbol : string) (trail : Q)
| TrailingStopNotPlaced (symbol : string)
| SkippingTrailingStop (symbol : string)
| NoOrderResponse
| OrderPlacementError (symbol : string) (e : exn)
| SleepingBeforeNextCheck (seconds : Q).

(** What the program does to the outside world. *)
Inductive Event :=
| GetAccount
| SubmitOrder (r : OrderRequest)
| GetOrderById (order_id : OrderId)
| Sleep (seconds : Q)
| Print (m : Msg)
| GetMarketClockData
| CloseAllPositions
| GetAccountDetails
| GetPositions
| FetchHistoricalData (symbol : string)
| UpdateBuffer (symbol : string) (row : PriceBar)
| GenerateTradeSignal (symbol : string).

(** The outside world.  The first four fields are the SDK:
    [client.get_account], the validation the request models run when they are
    built, [client.submit_order] and [client.get_order_by_id]; each can
    raise.  The others are the collaborators of the loop, whose sources are
    not among the modelled files: the fields for the methods of
    [account_manager], [market_data_manager] and [trading_strategy] give
    what they answer when they return ([Fallible], further down, is the loop
    with these calls raising), and
    [risk_manager.calculate_trade_parameters] is a function of its arguments
    that can raise (on too short a price history). *)
Record Env := {
  get_account : nat -> Result TradeAccount;
  validate_request : OrderRequest -> Result unit;
  submit_order : nat -> OrderRequest -> Result Order;
  get_order_by_id : nat -> OrderId -> Result Order;
  get_market_clock_data : nat -> Clock;
  get_account_details : nat -> AccountInfo;
  get_positions : nat -> list Position;
  fetch_historical_data : nat -> string -> option DataFrame;
  generate_trade_signal : nat -> string -> string;
  calculate_trade_parameters :
    DataFrame -> Q -> AccountInfo -> list Position -> string -> Result RiskParams
}.

(** ** The monad of the program *)

Definition M (A : Type) : Type := nat -> Result A * nat * list Event.

Definition ret {A} (a : A) : M A := fun t => (Ok a, t, []).

Definition bind {A B} (m : M A) (f : A -> M B) : M B :=
  fun t =>
    match m t with
    | (Ok a, t1, es1) =>
        match f a t1 with
        | (r, t2, es2) => (r, t2, es1 ++ es2)
        end
    | (Raise e, t1, es1) => (Raise e, t1, es1)
    end.

(** [try: m  except Exception as e: h e] *)
Definition try_except {A} (m : M A) (h : exn -> M A) : M A :=
  fun t =>
    match m t with
    | (Ok a, t1, es1) => (Ok a, t1, es1)
    | (Raise e, t1, es1) =>
        match h e t1 with
        | (r, t2, es2) => (r, t2, es1 ++ es2)
        end
    end.

(** A call whose answer the program reads. *)
Definition call {A} (e : Event) (answer : nat -> Result A) : M A :=
  fun t => (answer t, S t, [e]).

(** A call, a sleep or a printed line with nothing to read back. *)
Definition perform (e : Event) : M unit := fun t => (Ok tt, t, [e]).

(** A pure step of the SDK that can raise. *)
Definition lift {A} (r : Result A) : M A := fun t => (r, t, []).

Definition print (m : Msg) : M unit := perform (Print m).

Declare Scope prog_scope.
Delimit Scope prog_scope with prog.

Notation "x <- c1 ;; c2" := (bind c1 (fun x => c2))
  (at level 100, c1 at next level, right associativity) : prog_scope.
Notation "c1 ;; c2" := (bind c1 (fun _ => c2))
  (at level 100, right associativity) : prog_scope.

Local Open Scope prog_scope.

(** Projections of a run. *)
Definition result_of {A} (x : Result A * nat * list Event) : Result A := fst (fst x).
Definition tick_of {A} (x : Result A * nat * list Event) : nat := snd (fst x).
Definition events_of {A} (x : Result A * nat * list Event) : list Event := snd x.

(** ** [TradeManager] *)

Section TradeManager.

Variable env : Env.

(** [TradeManager.validate_trade] *)
Definition validate_trade (symbol : string) (qty : Q) (side : string) : M bool :=
  account <- call GetAccount (get_account env) ;;
  let buying_power := buying_power account in
  if String.eqb (Py.lower side) "buy" then
    if Py.leb buying_power 0 then
      print (InsufficientBuy qty symbol) ;; ret false
    else ret true
  else
    if Py.leb buying_power 0 then
      print (InsufficientShort qty symbol) ;; ret false
    else ret true.

(** The order class of a market order (line 67): bracket when both prices
    are truthy. *)
Definition order_class_of (stop_loss_price take_profit_price : option Q) : OrderClass :=
  if (Py.truthy_opt stop_loss_price && Py.truthy_opt take_profit_price)%bool
  then BRACKET else SIMPLE.

(** The stop price of the stop-loss leg (lines 71-73), in binary64. *)
Definition stop_price_of (side : string) (stop_loss_price : Q) : Q :=
  let stop_loss_price := Float64.of_Q stop_loss_price in
  let min_sl_distance := Float64.mul stop_loss_price (Float64.of_Q (3 # 1000)) in
  let stop_price :=
    Py.max (Float64.to_Q stop_loss_price)
      (Float64.to_Q
         (if String.eqb (Py.lower side) "buy"
          then Float64.sub stop_loss_price min_sl_distance
          else Float64.add stop_loss_price min_sl_distance)) in
  Py.round2 stop_price.

(** The limit price of the stop-loss leg (lines 74-75), in binary64. *)
Definition stop_limit_price_of (side : string) (stop_price : Q) : Q :=
  let stop_price := Float64.of_Q stop_price in
  let stop_limit_offset := Float64.mul stop_price (Float64.of_Q (1 # 1000)) in
  Py.round2
    (Float64.to_Q
       (if String.eqb (Py.lower side) "buy"
        then Float64.sub stop_price stop_limit_offset
        else Float64.add stop_price stop_limit_offset)).

(** The stop-loss leg (lines 70-75 and 86-89): present when
    [stop_loss_price] is truthy. *)
Definition stop_loss_of (side : string) (stop_loss_price : option Q)
  : option StopLossRequest :=
  match stop_loss_price with
  | Some s =>
      if Py.truthy s then
        let stop_price := stop_price_of side s in
        Some {| sl_stop_price := stop_price;
                sl_limit_price := stop_limit_price_of side stop_price |}
      else None
  | None => None
  end.

(** The take-profit leg (lines 77 and 85): the price is rounded when it is
    truthy, and the leg is present when the rounded price is truthy. *)
Definition take_profit_of (take_profit_price : option Q) : option TakeProfitRequest :=
  let take_profit_price :=
    if Py.truthy_opt take_profit_price
    then option_map Py.round2 take_profit_price else None in
  match take_profit_price with
  | Some p => if Py.truthy p then Some {| tp_limit_price := p |} else None
  | None => None
  end.

(** The request built at lines 79-90. *)
Definition market_order_request (symbol : string) (qty : Q) (side : string)
    (stop_loss_price take_profit_price : option Q) : MarketOrderRequest :=
  {| mo_symbol := symbol;
     mo_qty := qty;
     mo_side := if String.eqb (Py.lower side) "buy" then BUY else SELL;
     mo_time_in_force := GTC;
     mo_order_class := order_class_of stop_loss_price take_profit_price;
     mo_take_profit := take_profit_of take_profit_price;
     mo_stop_loss := stop_loss_of side stop_loss_price |}.

(** [TradeManager.place_market_order] *)
Definition place_market_order (symbol : string) (qty : Q) (side : string)
    (stop_loss_price take_profit_price : option Q) : M (option Order) :=
  valid <- validate_trade symbol qty side ;;
  if negb valid then ret None
  else
    try_except
      (let order :=
         MarketReq (market_order_request symbol qty side stop_loss_price take_profit_price) in
       lift (validate_request env order) ;;
       response <- call (SubmitOrder order) (fun t => submit_order env t order) ;;
       print (MarketOrderPlaced (Py.upper side) qty symbol) ;;
       ret (Some response))
      (fun e => print (MarketOrderError symbol e) ;; ret None).

(** The request built at lines 156-164. *)
Definition trailing_stop_request (symbol : string) (qty : Q) (side : string)
    (trail_price trail_percent : option Q) : TrailingStopOrderRequest :=
  {| ts_symbol := symbol;
     ts_qty := qty;
     ts_side := if String.eqb (Py.lower side) "buy" then SELL else BUY;
     ts_type := TRAILING_STOP;
     ts_time_in_force := GTC;
     ts_trail_price := trail_price;
     ts_trail_percent := trail_percent |}.

(** [TradeManager.place_trailing_stop_order] *)
Definition place_trailing_stop_order (symbol : string) (qty : Q) (side : string)
    (trail_price trail_percent : option Q) : M (option Order) :=
  let order_side := if String.eqb (Py.lower side) "buy" then SELL else BUY in
  valid <- validate_trade symbol qty side ;;
  if negb valid then ret None
  else
    try_except
      (let order_request :=
         TrailingReq (trailing_stop_request symbol qty side trail_price trail_percent) in
       lift (validate_request env order_request) ;;
       response <- call (SubmitOrder order_request)
                     (fun t => submit_order env t order_request) ;;
       print (TrailingStopPlaced order_side qty symbol trail_price trail_percent) ;;
       ret (Some response))
      (fun e => print (TrailingStopError symbol e) ;; ret None).

(** How one turn of the polling loop ends: with a [return], or by falling
    through to the next test of the loop condition. *)
Inductive Turn :=
| Return (filled : option Q)
| Next.

(** [order.status in [CANCELED, REJECTED, EXPIRED]] *)
Definition failed_status (s : OrderStatus) : bool :=
  existsb (OrderStatus_eqb s) [CANCELED; REJECTED; EXPIRED].

(** The body of the [while] of [wait_for_order_fill] (lines 184-202). *)
Definition poll_once (order_id : OrderId) (max_wait waited : nat) : M Turn :=
  try_except
    (order <- call (GetOrderById order_id) (fun t => get_order_by_id env t order_id) ;;
     if OrderStatus_eqb (status order) FILLED then
       print (OrderFilled order_id (filled_qty order)) ;;
       ret (Return (Some (filled_qty order)))
     else if failed_status (status order) then
       print (OrderFailed order_id (status order)) ;;
       ret (Return None)
     else
       print (WaitingForFill order_id (waited + 1) max_wait) ;;
       perform (Sleep 1) ;;
       ret Next)
    (fun e => print (OrderStatusError order_id e) ;; ret (Return None)).

(** The [while waited < max_wait] loop, by recursion on
    [remaining = max_wait - waited]. *)
Fixpoint wait_loop (order_id : OrderId) (max_wait remaining waited : nat)
  : M (option Q) :=
  match remaining with
  | O => print (FillTimeout order_id) ;; ret None
  | S remaining' =>
      turn <- poll_once order_id max_wait waited ;;
      match turn with
      | Return filled => ret filled
      | Next => wait_loop order_id max_wait remaining' (waited + 1)
      end
  end.

(** [TradeManager.wait_for_order_fill] *)
Definition wait_for_order_fill (order_id : OrderId) (max_wait : nat) : M (option Q) :=
  wait_loop order_id max_wait max_wait 0.

End TradeManager.

(** ** The trading loop of [main_day_trader.py] *)

(** [for x in l: body x] *)
Fixpoint for_each {A} (l : list A) (body : A -> M unit) : M unit :=
  match l with
  | [] => ret tt
  | x :: rest => body x ;; for_each rest body
  end.

(** [(a - b).total_seconds()] for two instants. *)
Definition total_seconds (a b : Z) : Q := Qmake (a - b) 1000000.

(** [datetime.timedelta(hours=1)], in microseconds. *)
Definition one_hour : Z := 3600000000.

(** [symbol_data.iloc[-1]['close']] of a frame with a row. *)
Definition last_close (symbol_data : DataFrame) : Q :=
  close (last symbol_data
           {| bar_timestamp := 0; bar_open := 0; bar_high := 0; bar_low := 0;
              close := 0; bar_volume := 0 |}).

Section DayTrader.

Variable env : Env.

(** Lines 166-196: the entry order was acknowledged; wait for its fill and
    attach the trailing stop. *)
Definition protect_entry (symbol trade_signal : string) (risk_params : RiskParams)
    (order_response : Order) : M unit :=
  print (ExecutedMarketOrder order_response) ;;
  let trail_amt := trail_amount risk_params in
  filled_qty <- wait_for_order_fill env (id order_response) 10 ;;
  match filled_qty with
  | Some filled =>
      if (Py.truthy filled && Py.ltb 0 filled)%bool then
        ts_response <-
          place_trailing_stop_order env symbol filled (Py.lower trade_signal)
            (Some trail_amt) None ;;
        match ts_response with
        | Some _ => print (TrailingStopAttached symbol trail_amt)
        | None => print (TrailingStopNotPlaced symbol)
        end
      else print (SkippingTrailingStop symbol)
  | None => print (SkippingTrailingStop symbol)
  end.

(** Lines 156-201: the [try] that places the entry order and protects it. *)
Definition execute_trade (symbol trade_signal : string) (risk_params : RiskParams)
  : M unit :=
  try_except
    (order_response <-
       place_market_order env symbol (inject_Z (quantity risk_params))
         (Py.lower trade_signal) None (Some (take_profit risk_params)) ;;
     match order_response with
     | Some o => protect_entry symbol trade_signal risk_params o
     | None => print NoOrderResponse
     end)
    (fun e => print (OrderPlacementError symbol e)).

(** [trade_signal in ["BUY", "SELL"]] *)
Definition actionable (trade_signal : string) : bool :=
  existsb (String.eqb trade_signal) ["BUY"; "SELL"]%string.

(** [any(pos["symbol"] == symbol for pos in open_positions)] *)
Definition has_position (symbol : string) (open_positions : list Position) : bool :=
  existsb (fun pos => String.eqb (pos_symbol pos) symbol) open_positions.

(** Lines 123-201: the signal is BUY or SELL. *)
Definition act_on_signal (symbol : string) (symbol_data : DataFrame)
    (trade_signal : string) : M unit :=
  account_info <- call GetAccountDetails (fun t => Ok (get_account_details env t)) ;;
  open_positions <- call GetPositions (fun t => Ok (get_positions env t)) ;;
  if has_position symbol open_positions then
    print (SkippingOpenPosition symbol)
  else
    let entry_price := last_close symbol_data in
    print (EntryPrice symbol entry_price) ;;
    risk_params <-
      lift (calculate_trade_parameters env symbol_data entry_price account_info
              open_positions trade_signal) ;;
    print (CalculatedRiskParameters risk_params) ;;
    if Z.leb (quantity risk_params) 0 then
      print (SkippingZeroQuantity symbol)
    else
      print (TradeSummary trade_signal entry_price (quantity risk_params)
               (entry_price * inject_Z (quantity risk_params))) ;;
      print (PlacingOrder trade_signal symbol) ;;
      execute_trade symbol trade_signal risk_params.

(** Lines 109-201: the body of the loop over the symbols. *)
Definition process_symbol (symbol : string) : M unit :=
  symbol_data <-
    call (FetchHistoricalData symbol) (fun t => Ok (fetch_historical_data env t symbol)) ;;
  match symbol_data with
  | None | Some [] => print (NoDataFound symbol)
  | Some symbol_data =>
      for_each symbol_data (fun row => perform (UpdateBuffer symbol row)) ;;
      trade_signal <-
        call (GenerateTradeSignal symbol) (fun t => Ok (generate_trade_signal env t symbol)) ;;
      print (TradeSignal symbol trade_signal) ;;
      if actionable trade_signal then act_on_signal symbol symbol_data trade_signal
      else ret tt
  end.

(** Lines 86 and 98: the seconds to sleep until trading starts. *)
Definition sleep_until (trading_start_time now : Z) : Q :=
  Py.max (total_seconds trading_start_time now) 0.

(** Lines 79-206: one turn of [while True]; [symbols] is
    [market_data_manager.etfs + market_data_manager.stock_tickers]. *)
Definition cycle (symbols : list string) : M unit :=
  clock <- call GetMarketClockData (fun t => Ok (get_market_clock_data env t)) ;;
  let current_time := current_time clock in
  let time_until_close := total_seconds (next_close clock) current_time in
  let trading_start_time := (next_open clock + one_hour)%Z in
  if negb (is_open clock) then
    let sleep_time := sleep_until trading_start_time current_time in
    print (MarketClosedWaiting current_time (Qfloor (sleep_time / 60)) trading_start_time) ;;
    perform (Sleep sleep_time)
  else if Z.leb (Py.int (time_until_close / 60)) 60 then
    print MarketAboutToClose ;;
    perform CloseAllPositions ;;
    print AllPositionsClosed ;;
    let sleep_time := sleep_until trading_start_time current_time in
    print (SleepingUntil (Qfloor (sleep_time / 60)) trading_start_time) ;;
    perform (Sleep sleep_time)
  else
    print (RunningDayTrader current_time) ;;
    for_each symbols process_symbol ;;
    let sleep_time := Py.min time_until_close 900 in
    print (SleepingBeforeNextCheck sleep_time) ;;
    perform (Sleep sleep_time).

(** [run_day_trader], cut after [n] turns of its [while True]; a turn that
    raises ends the run. *)
Fixpoint run_day_trader (symbols : list string) (n : nat) : M unit :=
  match n with
  | O => ret tt
  | S n' => cycle symbols ;; run_day_trader symbols n'
  end.

End DayTrader.

(** ** Reading a run *)

(** The requests handed to [client.submit_order], in order. *)
Definition submitted (es : list Event) : list OrderRequest :=
  flat_map (fun e => match e with SubmitOrder r => [r] | _ => [] end) es.

(** The market orders among them. *)
Definition market_orders (es : list Event) : list MarketOrderRequest :=
  flat_map (fun r => match r with MarketReq m => [m] | _ => [] end) (submitted es).

(** The trailing stops among them. *)
Definition trailing_stops (es : list Event) : list TrailingStopOrderRequest :=
  flat_map (fun r => match r with TrailingReq s => [s] | _ => [] end) (submitted es).

(** The number of calls to [client.get_order_by_id]. *)
Definition polls (es : list Event) : nat :=
  List.length (filter (fun e => match e with GetOrderById _ => true | _ => false end) es).

(** The durations slept, in order. *)
Definition sleeps (es : list Event) : list Q :=
  flat_map (fun e => match e with Sleep s => [s] | _ => [] end) es.

Definition opposite (s : OrderSide) : OrderSide :=
  match s with BUY => SELL | SELL => BUY end.

(** The symbol an order is for. *)
Definition order_symbol (r : OrderRequest) : string :=
  match r with
  | MarketReq m => mo_symbol m
  | TrailingReq s => ts_symbol s
  end.

(** The open positions hold [symbol]. *)
Definition holds (symbol : string) (open_positions : list Position) : Prop :=
  exists pos, In pos open_positions /\ pos_symbol pos = symbol.

(** An optional price that is given: not [None]. *)
Definition non_null (p : option Q) : Prop := p <> None.

(** An optional price that is given and is not zero. *)
Definition supplied (p : option Q) : Prop := exists v, p = Some v /\ ~ v == 0.

(** The statuses that end the wait without a fill. *)
Definition terminal_failure (s : OrderStatus) : Prop :=
  s = CANCELED \/ s = REJECTED \/ s = EXPIRED.

(** An order that is neither filled nor canceled, rejected or expired. *)
Definition pending (o : Order) : Prop :=
  status o <> FILLED /\ ~ terminal_failure (status o).

(** The first [k] polls of [order_id] from tick [t] on are answered with a
    pending order. *)
Definition pending_before (env : Env) (order_id : OrderId) (t k : nat) : Prop :=
  forall j, (j < k)%nat ->
    exists o, get_order_by_id env (t + j) order_id = Ok o /\ pending o.

(** The line [validate_trade] prints when the buying power is not positive:
    it depends on the side only. *)
Definition insufficient (symbol : string) (qty : Q) (side : string) : Msg :=
  if String.eqb (Py.lower side) "buy"
  then InsufficientBuy qty symbol else InsufficientShort qty symbol.

(** An instant in seconds. *)
Definition seconds (instant : Z) : Q := inject_Z instant / 1000000.

(** ** Scenarios: concrete environments *)

Module Scenario.

Definition bar (c : Q) : PriceBar :=
  {| bar_timestamp := 0; bar_open := c; bar_high := c; bar_low := c;
     close := c; bar_volume := 1000 |}.

Definition position (s : string) : Position :=
  {| pos_symbol := s; pos_qty := 5; market_value := 500; unrealized_pl := 0;
     unrealized_plpc := 0 |}.

Definition info : AccountInfo :=
  {| equity := 100000; cash := 100000; info_buying_power := 200000;
     realized_pnl := 0; margin_available := 100000 |}.

(** The broker's acknowledgement of a request: accepted, nothing filled. *)
Definition ack (r : OrderRequest) : Order :=
  match r with
  | MarketReq m =>
      {| id := "entry-1"; symbol := mo_symbol m; qty := mo_qty m; filled_qty := 0;
         side := mo_side m; type := MARKET; status := ACCEPTED |}
  | TrailingReq s =>
      {| id := "trail-1"; symbol := ts_symbol s; qty := ts_qty s; filled_qty := 0;
         side := ts_side s; type := TRAILING_STOP; status := NEW |}
  end.

(** The order [order_id] as a poll sees it. *)
Definition seen (order_id : OrderId) (st : OrderStatus) (filled : Q) : Order :=
  {| id := order_id; symbol := "SPY"; qty := 10; filled_qty := filled; side := BUY;
     type := MARKET; status := st |}.

(** An environment given by the buying power at each tick, the answer to a
    submission, the answer to a poll at each tick, the clock, the open
    positions and the signal. *)
Definition world (power : nat -> Q) (submit : nat -> OrderRequest -> Result Order)
    (poll : nat -> OrderId -> Result Order) (clock : Clock)
    (positions : list Position) (signal : string) : Env :=
  {| get_account := fun t => Ok {| buying_power := power t |};
     validate_request := fun _ => Ok tt;
     submit_order := submit;
     get_order_by_id := poll;
     get_market_clock_data := fun _ => clock;
     get_account_details := fun _ => info;
     get_positions := fun _ => positions;
     fetch_historical_data := fun _ _ => Some [bar 100; bar 101];
     generate_trade_signal := fun _ _ => signal;
     calculate_trade_parameters := fun _ _ _ _ _ =>
       Ok {| quantity := 10; take_profit := 105; trail_amount := 2 |} |}.

(** 2026-01-05 15:00:00 UTC, market open, closing at 21:00. *)
Definition midday : Clock :=
  {| current_time := 1767625200000000; is_open := true;
     next_open := 1767709800000000; next_close := 1767646800000000 |}.

(** 2026-01-05 23:00:00 UTC, market closed, opening the next day at 14:30. *)
Definition overnight : Clock :=
  {| current_time := 1767654000000000; is_open := false;
     next_open := 1767709800000000; next_close := 1767733200000000 |}.

(** 2026-01-06 16:00:00 UTC read as closed, with the open of 14:30 that day
    still given as the next one: an hour after it is already past. *)
Definition stale : Clock :=
  {| current_time := 1767715200000000; is_open := false;
     next_open := 1767709800000000; next_close := 1767733200000000 |}.

(** 2026-01-05 20:30:00 UTC, market open, closing at 21:00. *)
Definition closing : Clock :=
  {| current_time := 1767645000000000; is_open := true;
     next_open := 1767709800000000; next_close := 1767646800000000 |}.

(** A funded account, a BUY signal on every symbol, and the clock [clock]. *)
Definition at_clock (clock : Clock) : Env :=
  world (fun _ => 5000) (fun _ r => Ok (ack r))
    (fun _ order_id => Ok (seen order_id FILLED 10)) clock [] "BUY".

(** A funded account, the signal [signal] on every symbol, and an open
    position in each symbol of [held]. *)
Definition holding (held : list string) (signal : string) : Env :=
  world (fun _ => 5000) (fun _ r => Ok (ack r))
    (fun _ order_id => Ok (seen order_id FILLED 10)) midday (map position held) signal.

(** A broker whose polls are answered by [poll]; everything else goes well. *)
Definition polled (poll : nat -> OrderId -> Result Order) : Env :=
  world (fun _ => 5000) (fun _ r => Ok (ack r)) poll midday [] "BUY".

(** The order is accepted, then filled for 7 shares from tick [n] on. *)
Definition fills_at (n : nat) : Env :=
  polled (fun t order_id =>
            if Nat.ltb t n then Ok (seen order_id ACCEPTED 0)
            else Ok (seen order_id FILLED 7)).

(** The order is accepted, then rejected from tick [n] on. *)
Definition rejected_at (n : nat) : Env :=
  polled (fun t order_id =>
            if Nat.ltb t n then Ok (seen order_id ACCEPTED 0)
            else Ok (seen order_id REJECTED 0)).

(** The order is accepted, then the connection fails from tick [n] on. *)
Definition disconnects_at (n : nat) : Env :=
  polled (fun t order_id =>
            if Nat.ltb t n then Ok (seen order_id ACCEPTED 0)
            else Raise "connection reset").

(** [env] with an SDK that refuses to build any request. *)
Definition refusing_requests (env : Env) : Env :=
  {| get_account := get_account env;
     validate_request := fun _ => Raise "validation error";
     submit_order := submit_order env;
     get_order_by_id := get_order_by_id env;
     get_market_clock_data := get_market_clock_data env;
     get_account_details := get_account_details env;
     get_positions := get_positions env;
     fetch_historical_data := fetch_historical_data env;
     generate_trade_signal := generate_trade_signal env;
     calculate_trade_parameters := calculate_trade_parameters env |}.

(** An account whose buying power is [power] throughout; submissions are
    acknowledged. *)
Definition funded (power : Q) : Env :=
  world (fun _ => power) (fun _ r => Ok (ack r))
    (fun _ order_id => Ok (seen order_id FILLED 10)) midday [] "BUY".

(** A funded account whose broker fails every submission. *)
Definition unreachable : Env :=
  world (fun _ => 5000) (fun _ _ => Raise "api error")
    (fun _ order_id => Ok (seen order_id FILLED 10)) midday [] "BUY".

(** The risk parameters of the scenarios: 10 shares, a target of 105 and a
    trail of 2. *)
Definition params : RiskParams :=
  {| quantity := 10; take_profit := 105; trail_amount := 2 |}.

(** The entry is acknowledged and fills for 7 shares, and by then the
    buying power has dropped to 0: the account is read at tick 0 for the
    entry and at tick 3 for the trailing stop. *)
Definition drained : Env :=
  world (fun t => if Nat.ltb t 3 then 5000 else 0) (fun _ r => Ok (ack r))
    (fun _ order_id => Ok (seen order_id FILLED 7)) midday [] "BUY".

(** The order stays accepted and never fills. *)
Definition never_fills : Env :=
  polled (fun _ order_id => Ok (seen order_id ACCEPTED 0)).

End Scenario.

(** ** Further readings of a run *)

(** The events of the SDK client, of [time.sleep] and of [print]: all that
    [TradeManager] does. *)
Definition client_event (e : Event) : Prop :=
  match e with
  | GetAccount | SubmitOrder _ | GetOrderById _ | Sleep _ | Print _ => True
  | _ => False
  end.

(** The events of the turn of the loop for [symbol]: those of the client,
    the re-fetch of the account and of the positions, and the data, the
    buffer and the signal of that symbol. *)
Definition symbol_event (symbol : string) (e : Event) : Prop :=
  match e with
  | FetchHistoricalData s | GenerateTradeSignal s | UpdateBuffer s _ => s = symbol
  | GetMarketClockData | CloseAllPositions => False
  | _ => True
  end.

(** A computation all of whose events satisfy [P], from every tick. *)
Definition emits_only {A} (P : Event -> Prop) (m : M A) : Prop :=
  forall t e, In e (events_of (m t)) -> P e.

(** A trailing stop that exits the entry [m]: same symbol, opposite side. *)
Definition exits (m : MarketOrderRequest) (s : TrailingStopOrderRequest) : Prop :=
  ts_symbol s = mo_symbol m /\ ts_side s = opposite (mo_side m).

(** Orders in which every trailing stop directly follows the entry it
    exits. *)
Inductive paired : list OrderRequest -> Prop :=
| paired_nil : paired []
| paired_entry m rest : paired rest -> paired (MarketReq m :: rest)
| paired_exit m s rest :
    exits m s -> paired rest -> paired (MarketReq m :: TrailingReq s :: rest).

(** More scenarios. *)
Module Session.

(** A broker whose account endpoint fails from tick [n] on; everything else
    goes well and orders fill for 7 shares at once. *)
Definition account_down_at (n : nat) : Env :=
  {| get_account := fun t =>
       if Nat.ltb t n then Ok {| buying_power := 5000 |} else Raise "account unavailable";
     validate_request := fun _ => Ok tt;
     submit_order := fun _ r => Ok (Scenario.ack r);
     get_order_by_id := fun _ order_id => Ok (Scenario.seen order_id FILLED 7);
     get_market_clock_data := fun _ => Scenario.midday;
     get_account_details := fun _ => Scenario.info;
     get_positions := fun _ => [];
     fetch_historical_data := fun _ _ => Some [Scenario.bar 100; Scenario.bar 101];
     generate_trade_signal := fun _ _ => "BUY";
     calculate_trade_parameters := fun _ _ _ _ _ => Ok Scenario.params |}.

(** A funded account whose risk manager raises on the symbol [bad]: the
    history of a frame is recognised by its last close, 13 for [bad]. *)
Definition short_history (bad : string) : Env :=
  {| get_account := fun _ => Ok {| buying_power := 5000 |};
     validate_request := fun _ => Ok tt;
     submit_order := fun _ r => Ok (Scenario.ack r);
     get_order_by_id := fun _ order_id => Ok (Scenario.seen order_id FILLED 10);
     get_market_clock_data := fun _ => Scenario.midday;
     get_account_details := fun _ => Scenario.info;
     get_positions := fun _ => [];
     fetch_historical_data := fun _ s =>
       if String.eqb s bad then Some [Scenario.bar 13] else Some [Scenario.bar 100];
     generate_trade_signal := fun _ _ => "SELL";
     calculate_trade_parameters := fun _ entry_price _ _ _ =>
       if Qeq_bool entry_price 13 then Raise "insufficient data" else Ok Scenario.params |}.

End Session.

(** ** The other methods of [TradeManager]

    [place_bracket_order], [get_open_orders], [close_position],
    [cancel_order] and [cancel_all_orders] use four more calls of the SDK
    client and the limit-order request.  Their computations are of the
    same kind as [M], over the events of [M] and these calls. *)

Module Housekeeping.

(** [StopLossRequest(stop_price=...)]: a stop-loss leg without a limit. *)
Record StopPriceRequest := { sp_stop_price : Q }.

Record LimitOrderRequest := {
  lo_symbol : string;
  lo_qty : Q;
  lo_side : OrderSide;
  lo_time_in_force : TimeInForce;
  lo_order_class : OrderClass;
  lo_limit_price : Q;
  lo_stop_loss : StopPriceRequest;
  lo_take_profit : TakeProfitRequest
}.

(** [ClosePositionRequest(percentage=str(percentage))]; the number stands
    for its decimal string. *)
Record ClosePositionRequest := { cp_percentage : Q }.

(** The lines these methods print. *)
Inductive Notice :=
| BracketOrderPlaced (side : string) (qty : Q) (symbol : string) (limit_price : Q)
| BracketOrderError (symbol : string) (e : exn)
| FoundOpenOrders (n : nat)
| OpenOrdersError (e : exn)
| ClosedEntirePosition (symbol : string)
| ClosedPartOfPosition (percentage : Q) (symbol : string)
| ClosePositionError (symbol : string) (e : exn)
| OrderCanceled (order_id : OrderId)
| CancelOrderError (order_id : OrderId) (e : exn)
| AllOrdersCanceled
| CancelAllError (e : exn).

Inductive ClientEvent :=
| Core (e : Event)
| SubmitLimitOrder (r : LimitOrderRequest)
| GetOrders
| ClosePosition (symbol : string) (request : option ClosePositionRequest)
| CancelOrderById (order_id : OrderId)
| CancelOrders
| Say (n : Notice).

(** The SDK client: the environment of [M] and the answers to the other
    calls, each of which can raise. *)
Record Client := {
  core : Env;
  validate_limit_request : LimitOrderRequest -> Result unit;
  submit_limit_order : nat -> LimitOrderRequest -> Result Order;
  get_orders : nat -> Result (list Order);
  close_position_by_symbol : nat -> string -> option ClosePositionRequest -> Result unit;
  cancel_order_by_id : nat -> OrderId -> Result unit;
  cancel_orders : nat -> Result unit
}.

Definition K (A : Type) : Type := nat -> Result A * nat * list ClientEvent.

Definition ret {A} (a : A) : K A := fun t => (Ok a, t, []).

Definition bind {A B} (m : K A) (f : A -> K B) : K B :=
  fun t =>
    match m t with
    | (Ok a, t1, es1) =>
        match f a t1 with
        | (r, t2, es2) => (r, t2, es1 ++ es2)
        end
    | (Raise e, t1, es1) => (Raise e, t1, es1)
    end.

Definition try_except {A} (m : K A) (h : exn -> K A) : K A :=
  fun t =>
    match m t with
    | (Ok a, t1, es1) => (Ok a, t1, es1)
    | (Raise e, t1, es1) =>
        match h e t1 with
        | (r, t2, es2) => (r, t2, es1 ++ es2)
        end
    end.

Definition call {A} (e : ClientEvent) (answer : nat -> Result A) : K A :=
  fun t => (answer t, S t, [e]).

Definition lift {A} (r : Result A) : K A := fun t => (r, t, []).

Definition say (n : Notice) : K unit := fun t => (Ok tt, t, [Say n]).

(** A computation of [M] run among these. *)
Definition core_run {A} (m : M A) : K A :=
  fun t =>
    match m t with
    | (r, t1, es) => (r, t1, map Core es)
    end.

Section Methods.

Variable client : Client.

(** The request built at lines 116-125. *)
Definition bracket_order_request (symbol : string) (qty : Q) (side : string)
    (limit_price stop_loss_price take_profit_price : Q) : LimitOrderRequest :=
  {| lo_symbol := symbol;
     lo_qty := qty;
     lo_side := if String.eqb (Py.lower side) "buy" then BUY else SELL;
     lo_time_in_force := GTC;
     lo_order_class := BRACKET;
     lo_limit_price := limit_price;
     lo_stop_loss := {| sp_stop_price := Py.round2 stop_loss_price |};
     lo_take_profit := {| tp_limit_price := Py.round2 take_profit_price |} |}.

(** [TradeManager.place_bracket_order] *)
Definition place_bracket_order (symbol : string) (qty : Q) (side : string)
    (limit_price stop_loss_price take_profit_price : Q) : K (option Order) :=
  bind (core_run (validate_trade (core client) symbol qty side)) (fun valid =>
  if negb valid then ret None
  else
    try_except
      (let order :=
         bracket_order_request symbol qty side limit_price stop_loss_price
           take_profit_price in
       bind (lift (validate_limit_request client order)) (fun _ =>
       bind (call (SubmitLimitOrder order) (fun t => submit_limit_order client t order))
         (fun response =>
       bind (say (BracketOrderPlaced (Py.upper side) qty symbol limit_price)) (fun _ =>
       ret (Some response)))))
      (fun e => bind (say (BracketOrderError symbol e)) (fun _ => ret None))).

(** [TradeManager.get_open_orders] *)
Definition get_open_orders : K (list Order) :=
  try_except
    (bind (call GetOrders (get_orders client)) (fun open_orders =>
     bind (say (FoundOpenOrders (List.length open_orders))) (fun _ =>
     ret open_orders)))
    (fun e => bind (say (OpenOrdersError e)) (fun _ => ret [])).

(** [TradeManager.close_position] *)
Definition close_position (symbol : string) (percentage : Q) : K unit :=
  try_except
    (if Qeq_bool percentage 100 then
       bind (call (ClosePosition symbol None)
               (fun t => close_position_by_symbol client t symbol None)) (fun _ =>
       say (ClosedEntirePosition symbol))
     else
       let request := {| cp_percentage := percentage |} in
       bind (call (ClosePosition symbol (Some request))
               (fun t => close_position_by_symbol client t symbol (Some request))) (fun _ =>
       say (ClosedPartOfPosition percentage symbol)))
    (fun e => say (ClosePositionError symbol e)).

(** [TradeManager.cancel_order] *)
Definition cancel_order (order_id : OrderId) : K unit :=
  try_except
    (bind (call (CancelOrderById order_id) (fun t => cancel_order_by_id client t order_id))
       (fun _ => say (OrderCanceled order_id)))
    (fun e => say (CancelOrderError order_id e)).

(** [TradeManager.cancel_all_orders] *)
Definition cancel_all_orders : K unit :=
  try_except
    (bind (call CancelOrders (cancel_orders client)) (fun _ => say AllOrdersCanceled))
    (fun e => say (CancelAllError e)).

End Methods.

(** Projections of a run. *)
Definition result_of {A} (x : Result A * nat * list ClientEvent) : Result A := fst (fst x).
Definition tick_of {A} (x : Result A * nat * list ClientEvent) : nat := snd (fst x).
Definition events_of {A} (x : Result A * nat * list ClientEvent) : list ClientEvent := snd x.

(** The limit orders handed to [client.submit_order], in order. *)
Definition limit_orders (es : list ClientEvent) : list LimitOrderRequest :=
  flat_map (fun e => match e with SubmitLimitOrder r => [r] | _ => [] end) es.

(** The calls made to the client besides [get_account]. *)
Definition requests (es : list ClientEvent) : list ClientEvent :=
  filter (fun e => match e with Core _ | Say _ => false | _ => true end) es.

(** A client over [env] whose other calls all succeed, or all raise. *)
Definition client_of (env : Env) (up : bool) : Client :=
  {| core := env;
     validate_limit_request := fun _ => Ok tt;
     submit_limit_order := fun _ r =>
       if up then
         Ok {| id := "bracket-1"; symbol := lo_symbol r; qty := lo_qty r; filled_qty := 0;
               side := lo_side r; type := LIMIT; status := ACCEPTED |}
       else Raise "api error";
     get_orders := fun _ =>
       if up then Ok [Scenario.seen "entry-1" ACCEPTED 0] else Raise "api error";
     close_position_by_symbol := fun _ _ _ => if up then Ok tt else Raise "api error";
     cancel_order_by_id := fun _ _ => if up then Ok tt else Raise "api error";
     cancel_orders := fun _ => if up then Ok tt else Raise "api error" |}.

End Housekeeping.

(** The events of placing an order: the account, the submission and the
    printed lines, with no poll and no sleep. *)
Definition placing_event (e : Event) : Prop :=
  match e with
  | GetAccount | SubmitOrder _ | Print _ => True
  | _ => False
  end.

(** The symbols whose history was fetched, in order. *)
Definition fetched (es : list Event) : list string :=
  flat_map (fun e => match e with FetchHistoricalData s => [s] | _ => [] end) es.

(** ** The loop when its collaborators raise

    [Env] gives what [account_manager], [market_data_manager] and
    [trading_strategy] answer when they return.  The loop calls them outside
    any [try] (lines 79, 94, 109, 117, 120, 125 and 126), and each of these
    calls can raise instead.  A [Faults] says which do: by the tick of the
    call, and for [update_buffer] by the number of the row as well.  The
    definitions below are the loop of [main_day_trader.py] once more, with
    these calls raising when [Faults] says so and answering as [Env] does
    otherwise. *)
Module Fallible.

Record Faults := {
  get_market_clock_data_raises : nat -> option exn;
  close_all_positions_raises : nat -> option exn;
  fetch_historical_data_raises : nat -> string -> option exn;
  update_buffer_raises : nat -> string -> nat -> option exn;
  generate_trade_signal_raises : nat -> string -> option exn;
  get_account_details_raises : nat -> option exn;
  get_positions_raises : nat -> option exn
}.

(** The answer of a call: the exception, when it raises one. *)
Definition answer {A} (raised : option exn) (a : A) : Result A :=
  match raised with
  | Some e => Raise e
  | None => Ok a
  end.

(** A call with nothing to read back that can raise. *)
Definition attempt (e : Event) (raised : nat -> option exn) : M unit :=
  fun t => (answer (raised t) tt, t, [e]).

(** No collaborator ever raises. *)
Definition all_return (faults : Faults) : Prop :=
  (forall t, get_market_clock_data_raises faults t = None)
  /\ (forall t, close_all_positions_raises faults t = None)
  /\ (forall t symbol, fetch_historical_data_raises faults t symbol = None)
  /\ (forall t symbol i, update_buffer_raises faults t symbol i = None)
  /\ (forall t symbol, generate_trade_signal_raises faults t symbol = None)
  /\ (forall t, get_account_details_raises faults t = None)
  /\ (forall t, get_positions_raises faults t = None).

Definition none : Faults :=
  {| get_market_clock_data_raises := fun _ => None;
     close_all_positions_raises := fun _ => None;
     fetch_historical_data_raises := fun _ _ => None;
     update_buffer_raises := fun _ _ _ => None;
     generate_trade_signal_raises := fun _ _ => None;
     get_account_details_raises := fun _ => None;
     get_positions_raises := fun _ => None |}.

(** The market clock is unavailable at tick [n]. *)
Definition clock_down_at (n : nat) : Faults :=
  {| get_market_clock_data_raises := fun t =>
       if Nat.eqb t n then Some "clock unavailable" else None;
     close_all_positions_raises := fun _ => None;
     fetch_historical_data_raises := fun _ _ => None;
     update_buffer_raises := fun _ _ _ => None;
     generate_trade_signal_raises := fun _ _ => None;
     get_account_details_raises := fun _ => None;
     get_positions_raises := fun _ => None |}.

(** Closing the positions fails throughout. *)
Definition cannot_close : Faults :=
  {| get_market_clock_data_raises := fun _ => None;
     close_all_positions_raises := fun _ => Some "close failed";
     fetch_historical_data_raises := fun _ _ => None;
     update_buffer_raises := fun _ _ _ => None;
     generate_trade_signal_raises := fun _ _ => None;
     get_account_details_raises := fun _ => None;
     get_positions_raises := fun _ => None |}.

(** The history of [bad] cannot be fetched. *)
Definition no_data_for (bad : string) : Faults :=
  {| get_market_clock_data_raises := fun _ => None;
     close_all_positions_raises := fun _ => None;
     fetch_historical_data_raises := fun _ symbol =>
       if String.eqb symbol bad then Some "data request failed" else None;
     update_buffer_raises := fun _ _ _ => None;
     generate_trade_signal_raises := fun _ _ => None;
     get_account_details_raises := fun _ => None;
     get_positions_raises := fun _ => None |}.

Section Loop.

Variable env : Env.
Variable faults : Faults.

(** Lines 116-117: [update_buffer] on each row, the rows numbered from
    [i]. *)
Fixpoint update_buffer_rows (symbol : string) (rows : list PriceBar) (i : nat) : M unit :=
  match rows with
  | [] => ret tt
  | row :: rest =>
      attempt (UpdateBuffer symbol row) (fun t => update_buffer_raises faults t symbol i) ;;
      update_buffer_rows symbol rest (S i)
  end.

(** Lines 123-201: the signal is BUY or SELL. *)
Definition act_on_signal (symbol : string) (symbol_data : DataFrame)
    (trade_signal : string) : M unit :=
  account_info <-
    call GetAccountDetails
      (fun t => answer (get_account_details_raises faults t) (get_account_details env t)) ;;
  open_positions <-
    call GetPositions
      (fun t => answer (get_positions_raises faults t) (get_positions env t)) ;;
  if has_position symbol open_positions then
    print (SkippingOpenPosition symbol)
  else
    let entry_price := last_close symbol_data in
    print (EntryPrice symbol entry_price) ;;
    risk_params <-
      lift (calculate_trade_parameters env symbol_data entry_price account_info
              open_positions trade_signal) ;;
    print (CalculatedRiskParameters risk_params) ;;
    if Z.leb (quantity risk_params) 0 then
      print (SkippingZeroQuantity symbol)
    else
      print (TradeSummary trade_signal entry_price (quantity risk_params)
               (entry_price * inject_Z (quantity risk_params))) ;;
      print (PlacingOrder trade_signal symbol) ;;
      execute_trade env symbol trade_signal risk_params.

(** Lines 109-201: the body of the loop over the symbols. *)
Definition process_symbol (symbol : string) : M unit :=
  symbol_data <-
    call (FetchHistoricalData symbol)
      (fun t => answer (fetch_historical_data_raises faults t symbol)
                  (fetch_historical_data env t symbol)) ;;
  match symbol_data with
  | None | Some [] => print (NoDataFound symbol)
  | Some symbol_data =>
      update_buffer_rows symbol symbol_data 0 ;;
      trade_signal <-
        call (GenerateTradeSignal symbol)
          (fun t => answer (generate_trade_signal_raises faults t symbol)
                      (generate_trade_signal env t symbol)) ;;
      print (TradeSignal symbol trade_signal) ;;
      if actionable trade_signal then act_on_signal symbol symbol_data trade_signal
      else ret tt
  end.

(** Lines 79-206: one turn of [while True]. *)
Definition cycle (symbols : list string) : M unit :=
  clock <-
    call GetMarketClockData
      (fun t => answer (get_market_clock_data_raises faults t)
                  (get_market_clock_data env t)) ;;
  let current_time := current_time clock in
  let time_until_close := total_seconds (next_close clock) current_time in
  let trading_start_time := (next_open clock + one_hour)%Z in
  if negb (is_open clock) then
    let sleep_time := sleep_until trading_start_time current_time in
    print (MarketClosedWaiting current_time (Qfloor (sleep_time / 60)) trading_start_time) ;;
    perform (Sleep sleep_time)
  else if Z.leb (Py.int (time_until_close / 60)) 60 then
    print MarketAboutToClose ;;
    attempt CloseAllPositions (close_all_positions_raises faults) ;;
    print AllPositionsClosed ;;
    let sleep_time := sleep_until trading_start_time current_time in
    print (SleepingUntil (Qfloor (sleep_time / 60)) trading_start_time) ;;
    perform (Sleep sleep_time)
  else
    print (RunningDayTrader current_time) ;;
    for_each symbols process_symbol ;;
    let sleep_time := Py.min time_until_close 900 in
    print (SleepingBeforeNextCheck sleep_time) ;;
    perform (Sleep sleep_time).

(** [run_day_trader], cut after [n] turns of its [while True]; a turn that
    raises ends the run. *)
Fixpoint run_day_trader (symbols : list string) (n : nat) : M unit :=
  match n with
  | O => ret tt
  | S n' => cycle symbols ;; run_day_trader symbols n'
  end.

End Loop.

End Fallible.

(** ** Running the buying-power validation *)

Section ValidateTrade.

Variable env : Env.

Lemma validate_trade_refuses symbol qty side t acct :
  get_account env t = Ok acct ->
  buying_power acct <= 0 ->
  validate_trade env symbol qty side t =
    (Ok false, S t, [GetAccount; Print (insufficient symbol qty side)]).
Proof.
  intros Hacct Hle.
  apply Qle_bool_iff in Hle.
  unfold validate_trade, insufficient, bind, call, print, perform, ret, Py.leb.
  rewrite Hacct.
  destruct (String.eqb (Py.lower side) "buy"); rewrite Hle; reflexivity.
Qed.

Lemma validate_trade_accepts symbol qty side t acct :
  get_account env t = Ok acct ->
  ~ buying_power acct <= 0 ->
  validate_trade env symbol qty side t = (Ok true, S t, [GetAccount]).
Proof.
  intros Hacct Hgt.
  assert (Hb : Qle_bool (buying_power acct) 0 = false).
  { destruct (Qle_bool (buying_power acct) 0) eqn:E; [|reflexivity].
    apply Qle_bool_iff in E. contradiction. }
  unfold validate_trade, bind, call, print, perform, ret, Py.leb.
  rewrite Hacct.
  destruct (String.eqb (Py.lower side) "buy"); rewrite Hb; reflexivity.
Qed.

Lemma validate_trade_raises symbol qty side t e :
  get_account env t = Raise e ->
  validate_trade env symbol qty side t = (Raise e, S t, [GetAccount]).
Proof.
  intros Hacct.
  unfold validate_trade, bind, call. rewrite Hacct. reflexivity.
Qed.

(** The three ways the validation can end. *)
Lemma validate_trade_cases symbol qty side t :
  validate_trade env symbol qty side t =
    (Ok false, S t, [GetAccount; Print (insufficient symbol qty side)])
  \/ validate_trade env symbol qty side t = (Ok true, S t, [GetAccount])
  \/ exists e, validate_trade env symbol qty side t = (Raise e, S t, [GetAccount]).
Proof.
  destruct (get_account env t) as [acct|e] eqn:Hacct.
  - destruct (Qlt_le_dec 0 (buying_power acct)) as [Hlt|Hle].
    + right; left. apply validate_trade_accepts with acct; [assumption|].
      intro H. apply (Qlt_not_le _ _ Hlt H).
    + left. apply validate_trade_refuses with acct; assumption.
  - right; right. exists e. apply validate_trade_raises. assumption.
Qed.

End ValidateTrade.

(** ** [place_market_order] *)

Section PlaceMarketOrder.

Variable env : Env.

(** What [place_market_order] does once the validation has passed, by the
    answers of the SDK to the construction and to the submission. *)
Lemma place_market_order_validated symbol qty side sl tp t :
  validate_trade env symbol qty side t = (Ok true, S t, [GetAccount]) ->
  let order := MarketReq (market_order_request symbol qty side sl tp) in
  place_market_order env symbol qty side sl tp t =
    match validate_request env order with
    | Raise e => (Ok None, S t, [GetAccount; Print (MarketOrderError symbol e)])
    | Ok _ =>
        match submit_order env (S t) order with
        | Raise e =>
            (Ok None, S (S t),
             [GetAccount; SubmitOrder order; Print (MarketOrderError symbol e)])
        | Ok response =>
            (Ok (Some response), S (S t),
             [GetAccount; SubmitOrder order;
              Print (MarketOrderPlaced (Py.upper side) qty symbol)])
        end
    end.
Proof.
  intros Hv order.
  unfold place_market_order, bind at 1. rewrite Hv. cbn [negb].
  unfold try_except, bind, lift, call, print, perform, ret. fold order.
  destruct (validate_request env order) as [[]|e]; [|reflexivity].
  destruct (submit_order env (S t) order); reflexivity.
Qed.

Lemma place_market_order_refused symbol qty side sl tp t :
  validate_trade env symbol qty side t =
    (Ok false, S t, [GetAccount; Print (insufficient symbol qty side)]) ->
  place_market_order env symbol qty side sl tp t =
    (Ok None, S t, [GetAccount; Print (insufficient symbol qty side)]).
Proof.
  intros Hv. unfold place_market_order, bind. rewrite Hv. reflexivity.
Qed.

Lemma place_market_order_validation_raises symbol qty side sl tp t e :
  validate_trade env symbol qty side t = (Raise e, S t, [GetAccount]) ->
  place_market_order env symbol qty side sl tp t = (Raise e, S t, [GetAccount]).
Proof.
  intros Hv. unfold place_market_order, bind. rewrite Hv. reflexivity.
Qed.

(** Whatever happens, [place_market_order] submits at most the one request
    it builds from its arguments. *)
Lemma place_market_order_submits symbol qty side sl tp t :
  submitted (events_of (place_market_order env symbol qty side sl tp t)) = []
  \/ submitted (events_of (place_market_order env symbol qty side sl tp t)) =
       [MarketReq (market_order_request symbol qty side sl tp)].
Proof.
  destruct (validate_trade_cases env symbol qty side t) as [H|[H|[e H]]].
  - rewrite (place_market_order_refused _ _ _ _ _ _ H). left; reflexivity.
  - rewrite (place_market_order_validated _ _ _ _ _ _ H).
    destruct (validate_request env _) as [[]|e]; [|left; reflexivity].
    destruct (submit_order env (S t) _); right; reflexivity.
  - rewrite (place_market_order_validation_raises _ _ _ _ _ _ _ H). left; reflexivity.
Qed.

End PlaceMarketOrder.

(** ** [wait_for_order_fill] *)

Section WaitForOrderFill.

Variable env : Env.
Variable order_id : OrderId.
Variable max_wait : nat.

Lemma OrderStatus_eqb_eq a b : OrderStatus_eqb a b = true <-> a = b.
Proof. destruct a, b; simpl; split; intro H; try reflexivity; discriminate. Qed.

Lemma failed_status_iff s : failed_status s = true <-> terminal_failure s.
Proof. unfold terminal_failure. destruct s; simpl; split; intro H; intuition discriminate. Qed.

Lemma poll_once_filled waited t o :
  get_order_by_id env t order_id = Ok o ->
  status o = FILLED ->
  poll_once env order_id max_wait waited t =
    (Ok (Return (Some (filled_qty o))), S t,
     [GetOrderById order_id; Print (OrderFilled order_id (filled_qty o))]).
Proof.
  intros Hp Hs.
  unfold poll_once, try_except, bind, call, print, perform, ret.
  rewrite Hp, Hs. reflexivity.
Qed.

Lemma poll_once_failed waited t o :
  get_order_by_id env t order_id = Ok o ->
  terminal_failure (status o) ->
  poll_once env order_id max_wait waited t =
    (Ok (Return None), S t,
     [GetOrderById order_id; Print (OrderFailed order_id (status o))]).
Proof.
  intros Hp Hs.
  unfold poll_once, try_except, bind, call, print, perform, ret.
  rewrite Hp.
  destruct Hs as [Hs|[Hs|Hs]]; rewrite Hs; reflexivity.
Qed.

Lemma poll_once_raises waited t e :
  get_order_by_id env t order_id = Raise e ->
  poll_once env order_id max_wait waited t =
    (Ok (Return None), S t,
     [GetOrderById order_id; Print (OrderStatusError order_id e)]).
Proof.
  intros Hp.
  unfold poll_once, try_except, bind, call, print, perform, ret.
  rewrite Hp. reflexivity.
Qed.

Lemma poll_once_pending waited t o :
  get_order_by_id env t order_id = Ok o ->
  pending o ->
  poll_once env order_id max_wait waited t =
    (Ok Next, S t,
     [GetOrderById order_id; Print (WaitingForFill order_id (waited + 1) max_wait);
      Sleep 1]).
Proof.
  intros Hp [Hnf Hnt].
  unfold poll_once, try_except, bind, call, print, perform, ret.
  rewrite Hp.
  destruct (OrderStatus_eqb (status o) FILLED) eqn:Ef.
  { apply OrderStatus_eqb_eq in Ef. contradiction. }
  destruct (failed_status (status o)) eqn:Et.
  { apply failed_status_iff in Et. contradiction. }
  reflexivity.
Qed.

(** A turn of the loop on a pending order: one poll, then the rest of the
    loop one tick and one second later. *)
Lemma wait_loop_pending remaining waited t o :
  get_order_by_id env t order_id = Ok o ->
  pending o ->
  wait_loop env order_id max_wait (S remaining) waited t =
    let rest := wait_loop env order_id max_wait remaining (waited + 1) (S t) in
    (result_of rest, tick_of rest,
     [GetOrderById order_id; Print (WaitingForFill order_id (waited + 1) max_wait);
      Sleep 1] ++ events_of rest).
Proof.
  intros Hp Hpend.
  cbn [wait_loop]. unfold bind at 1.
  rewrite (poll_once_pending waited t o Hp Hpend).
  destruct (wait_loop env order_id max_wait remaining (waited + 1) (S t)) as [[r t'] es].
  reflexivity.
Qed.

(** A turn of the loop that returns. *)
Lemma wait_loop_returns remaining waited t filled es :
  poll_once env order_id max_wait waited t = (Ok (Return filled), S t, es) ->
  wait_loop env order_id max_wait (S remaining) waited t = (Ok filled, S t, es).
Proof.
  intros Hp. cbn [wait_loop]. unfold bind at 1. rewrite Hp.
  unfold ret. rewrite app_nil_r. reflexivity.
Qed.

(** After [k] pending polls the loop is where it would be had it started
    [k] polls later. *)
Lemma wait_loop_skip k : forall remaining waited t,
  pending_before env order_id t k ->
  result_of (wait_loop env order_id max_wait (k + remaining) waited t) =
    result_of (wait_loop env order_id max_wait remaining (waited + k) (t + k)%nat)
  /\ polls (events_of (wait_loop env order_id max_wait (k + remaining) waited t)) =
       (k + polls (events_of
                     (wait_loop env order_id max_wait remaining (waited + k) (t + k)%nat)))%nat.
Proof.
  induction k as [|k IH]; intros remaining waited t Hpend.
  - rewrite !Nat.add_0_r. split; reflexivity.
  - destruct (Hpend 0%nat) as [o [Hp Ho]]; [lia|].
    rewrite Nat.add_0_r in Hp.
    replace (S k + remaining)%nat with (S (k + remaining)) by lia.
    rewrite (wait_loop_pending _ _ _ o Hp Ho).
    destruct (IH remaining (waited + 1)%nat (S t)) as [IHr IHp].
    { intros j Hj. destruct (Hpend (S j)) as [o' Ho']; [lia|].
      exists o'. replace (S t + j)%nat with (t + S j)%nat by lia. exact Ho'. }
    replace (waited + 1 + k)%nat with (waited + S k)%nat in * by lia.
    replace (S t + k)%nat with (t + S k)%nat in * by lia.
    cbn zeta. unfold result_of, events_of in *. cbn [fst snd].
    split; [exact IHr|].
    unfold polls in *. cbn [app filter List.length]. rewrite IHp. reflexivity.
Qed.

End WaitForOrderFill.

Section WaitOutcomes.

Variable env : Env.
Variable order_id : OrderId.

(** The wait when the poll after [k] pending ones makes the loop return. *)
Lemma wait_for_order_fill_returns max_wait t k filled es :
  (k < max_wait)%nat ->
  pending_before env order_id t k ->
  poll_once env order_id max_wait (0 + k) (t + k)%nat = (Ok (Return filled), S (t + k), es) ->
  polls es = 1%nat ->
  result_of (wait_for_order_fill env order_id max_wait t) = Ok filled
  /\ polls (events_of (wait_for_order_fill env order_id max_wait t)) = S k.
Proof.
  intros Hk Hpend Hpoll Hes.
  unfold wait_for_order_fill.
  replace max_wait with (k + S (max_wait - k - 1))%nat at 2 4 by lia.
  destruct (wait_loop_skip env order_id max_wait k (S (max_wait - k - 1)) 0 t Hpend)
    as [Hr Hp].
  rewrite Hr, Hp.
  rewrite (wait_loop_returns env order_id max_wait _ _ _ _ _ Hpoll).
  unfold result_of, events_of; cbn [fst snd]. rewrite Hes. split; [reflexivity|lia].
Qed.

(** The wait when every poll is pending. *)
Lemma wait_for_order_fill_times_out max_wait t :
  pending_before env order_id t max_wait ->
  result_of (wait_for_order_fill env order_id max_wait t) = Ok None
  /\ polls (events_of (wait_for_order_fill env order_id max_wait t)) = max_wait.
Proof.
  intros Hpend. unfold wait_for_order_fill.
  replace max_wait with (max_wait + 0)%nat at 2 4 by lia.
  destruct (wait_loop_skip env order_id max_wait max_wait 0 0 t Hpend) as [Hr Hp].
  rewrite Hr, Hp. cbn. split; [reflexivity|lia].
Qed.

End WaitOutcomes.

(** C2. For every order id and every [max_wait >= 1], [wait_for_order_fill]
    returns the filled quantity of the order on the first poll that sees it
    FILLED; returns [None] on the first poll that sees it CANCELED, REJECTED
    or EXPIRED, or that raises, and polls no further; and returns [None]
    after exactly [max_wait] polls when every poll sees a pending order.  The
    polls of a wait that starts at tick [t] are answered at ticks [t],
    [t + 1], ... *)
Theorem wait_for_order_fill_outcomes (env : Env) (order_id : OrderId)
    (max_wait t : nat) (Hwait : (1 <= max_wait)%nat) :
  let run := wait_for_order_fill env order_id max_wait t in
  let poll := fun k => get_order_by_id env (t + k)%nat order_id in
  (forall k o, (k < max_wait)%nat -> pending_before env order_id t k ->
     poll k = Ok o -> status o = FILLED ->
     result_of run = Ok (Some (filled_qty o)) /\ polls (events_of run) = S k)
  /\ (forall k o, (k < max_wait)%nat -> pending_before env order_id t k ->
     poll k = Ok o -> terminal_failure (status o) ->
     result_of run = Ok None /\ polls (events_of run) = S k)
  /\ (forall k e, (k < max_wait)%nat -> pending_before env order_id t k ->
     poll k = Raise e ->
     result_of run = Ok None /\ polls (events_of run) = S k)
  /\ (pending_before env order_id t max_wait ->
     result_of run = Ok None /\ polls (events_of run) = max_wait).
Proof.
  intros run poll. subst run poll. cbn beta.
  split; [|split; [|split]].
  - intros k o Hk Hpend Hpoll Hfilled.
    apply (wait_for_order_fill_returns env order_id max_wait t k _ _ Hk Hpend
             (poll_once_filled env order_id max_wait _ _ o Hpoll Hfilled)).
    reflexivity.
  - intros k o Hk Hpend Hpoll Hfailed.
    apply (wait_for_order_fill_returns env order_id max_wait t k _ _ Hk Hpend
             (poll_once_failed env order_id max_wait _ _ o Hpoll Hfailed)).
    reflexivity.
  - intros k e Hk Hpend Hpoll.
    apply (wait_for_order_fill_returns env order_id max_wait t k _ _ Hk Hpend
             (poll_once_raises env order_id max_wait _ _ e Hpoll)).
    reflexivity.
  - apply wait_for_order_fill_times_out.
Qed.

(** Discharges [pending_before] on a scenario, poll by poll. *)
Ltac pending_polls :=
  let j := fresh "j" in
  let Hj := fresh "Hj" in
  intros j Hj;
  repeat first
    [ exfalso; lia
    | destruct j as [|j];
      [ eexists; split;
        [ reflexivity
        | split; [discriminate | intros [H|[H|H]]; discriminate H] ]
      | ] ].

(** The four outcomes of C2 on a wait of at most 10 polls that starts at
    tick 0: filled for 7 shares on the third poll, rejected on the second,
    a transport error on the second, and no terminal status at all. *)
Lemma wait_for_order_fill_outcomes_witness :
  (result_of (wait_for_order_fill (Scenario.fills_at 2) "entry-1" 10 0%nat) = Ok (Some 7)
   /\ polls (events_of (wait_for_order_fill (Scenario.fills_at 2) "entry-1" 10 0%nat)) = 3%nat)
  /\ (result_of (wait_for_order_fill (Scenario.rejected_at 1) "entry-1" 10 0%nat) = Ok None
   /\ polls (events_of (wait_for_order_fill (Scenario.rejected_at 1) "entry-1" 10 0%nat)) = 2%nat)
  /\ (result_of (wait_for_order_fill (Scenario.disconnects_at 1) "entry-1" 10 0%nat) = Ok None
   /\ polls (events_of (wait_for_order_fill (Scenario.disconnects_at 1) "entry-1" 10 0%nat)) = 2%nat)
  /\ (result_of (wait_for_order_fill Scenario.never_fills "entry-1" 10 0%nat) = Ok None
   /\ polls (events_of (wait_for_order_fill Scenario.never_fills "entry-1" 10 0%nat)) = 10%nat).
Proof.
  assert (Hwait : (1 <= 10)%nat) by lia.
  split; [|split; [|split]].
  - apply (proj1 (wait_for_order_fill_outcomes (Scenario.fills_at 2) "entry-1" 10 0%nat Hwait)
             2%nat (Scenario.seen "entry-1" FILLED 7)).
    + lia.
    + pending_polls.
    + reflexivity.
    + reflexivity.
  - apply (proj1 (proj2
             (wait_for_order_fill_outcomes (Scenario.rejected_at 1) "entry-1" 10 0%nat Hwait))
             1%nat (Scenario.seen "entry-1" REJECTED 0)).
    + lia.
    + pending_polls.
    + reflexivity.
    + right; left; reflexivity.
  - apply (proj1 (proj2 (proj2
             (wait_for_order_fill_outcomes (Scenario.disconnects_at 1) "entry-1" 10 0%nat Hwait)))
             1%nat "connection reset").
    + lia.
    + pending_polls.
    + reflexivity.
  - apply (proj2 (proj2 (proj2
             (wait_for_order_fill_outcomes Scenario.never_fills "entry-1" 10 0%nat Hwait)))).
    pending_polls.
Defined.

(** C3. [place_market_order] fails closed.  When the account read by the
    validation has a buying power of at most 0, it returns [None] and hands
    nothing to [submit_order]; when building the request raises, or when the
    submission raises, it returns [None] instead of raising. *)
Theorem place_market_order_fails_closed (env : Env) (symbol : string) (qty : Q)
    (side : string) (stop_loss_price take_profit_price : option Q) (t : nat) :
  let run := place_market_order env symbol qty side stop_loss_price take_profit_price t in
  let order :=
    MarketReq (market_order_request symbol qty side stop_loss_price take_profit_price) in
  (forall acct, get_account env t = Ok acct -> buying_power acct <= 0 ->
     result_of run = Ok None /\ submitted (events_of run) = [])
  /\ (forall acct e, get_account env t = Ok acct -> ~ buying_power acct <= 0 ->
     validate_request env order = Raise e ->
     result_of run = Ok None /\ submitted (events_of run) = [])
  /\ (forall acct e, get_account env t = Ok acct -> ~ buying_power acct <= 0 ->
     validate_request env order = Ok tt ->
     submit_order env (S t) order = Raise e ->
     result_of run = Ok None).
Proof.
  intros run order. subst run.
  split; [|split].
  - intros acct Hacct Hle.
    rewrite (place_market_order_refused env _ _ _ _ _ _
               (validate_trade_refuses env symbol qty side t acct Hacct Hle)).
    split; reflexivity.
  - intros acct e Hacct Hgt Hbuild.
    rewrite (place_market_order_validated env _ _ _ _ _ _
               (validate_trade_accepts env symbol qty side t acct Hacct Hgt)).
    fold order. rewrite Hbuild. split; reflexivity.
  - intros acct e Hacct Hgt Hbuild Hsubmit.
    rewrite (place_market_order_validated env _ _ _ _ _ _
               (validate_trade_accepts env symbol qty side t acct Hacct Hgt)).
    fold order. rewrite Hbuild, Hsubmit. reflexivity.
Qed.

(** C3 on three accounts: no buying power, an SDK that refuses the request,
    and a broker that fails the submission. *)
Lemma place_market_order_fails_closed_witness :
  (result_of (place_market_order (Scenario.funded 0) "SPY" 10 "buy" None (Some 105) 0%nat)
     = Ok None
   /\ submitted
        (events_of (place_market_order (Scenario.funded 0) "SPY" 10 "buy" None (Some 105) 0%nat))
      = [])
  /\ (result_of
        (place_market_order (Scenario.refusing_requests (Scenario.funded 5000))
           "SPY" 10 "buy" None (Some 105) 0%nat) = Ok None
      /\ submitted
           (events_of
              (place_market_order (Scenario.refusing_requests (Scenario.funded 5000))
                 "SPY" 10 "buy" None (Some 105) 0%nat)) = [])
  /\ result_of (place_market_order Scenario.unreachable "SPY" 10 "sell" None (Some 95) 0%nat)
     = Ok None.
Proof.
  split; [|split].
  - apply (proj1 (place_market_order_fails_closed (Scenario.funded 0)
                    "SPY" 10 "buy" None (Some 105) 0%nat) {| buying_power := 0 |}).
    + reflexivity.
    + apply Qle_refl.
  - apply (proj1 (proj2 (place_market_order_fails_closed
                           (Scenario.refusing_requests (Scenario.funded 5000))
                           "SPY" 10 "buy" None (Some 105) 0%nat))
             {| buying_power := 5000 |} "validation error").
    + reflexivity.
    + intro H. apply Qle_bool_iff in H. discriminate H.
    + reflexivity.
  - apply (proj2 (proj2 (place_market_order_fails_closed Scenario.unreachable
                           "SPY" 10 "sell" None (Some 95) 0%nat))
             {| buying_power := 5000 |} "api error").
    + reflexivity.
    + intro H. apply Qle_bool_iff in H. discriminate H.
    + reflexivity.
    + reflexivity.
Defined.

(** ** The request of a market order *)

Lemma truthy_opt_supplied p : Py.truthy_opt p = true <-> supplied p.
Proof.
  unfold supplied, Py.truthy_opt, Py.truthy. destruct p as [v|].
  - split.
    + intro H. exists v. split; [reflexivity|].
      intro E. apply Qeq_bool_iff in E. rewrite E in H. discriminate H.
    + intros [w [Hw Hn]]. injection Hw as <-.
      destruct (Qeq_bool v 0) eqn:E; [|reflexivity].
      apply Qeq_bool_iff in E. contradiction.
  - split; [discriminate|]. intros [w [Hw _]]. discriminate Hw.
Qed.

Lemma order_class_of_bracket sl tp :
  order_class_of sl tp = BRACKET <-> supplied sl /\ supplied tp.
Proof.
  rewrite <- !truthy_opt_supplied. unfold order_class_of.
  destruct (Py.truthy_opt sl), (Py.truthy_opt tp); cbn; split;
    intuition discriminate.
Qed.

Lemma order_class_of_simple sl tp :
  order_class_of sl tp = SIMPLE <-> ~ (supplied sl /\ supplied tp).
Proof.
  rewrite <- !truthy_opt_supplied. unfold order_class_of.
  destruct (Py.truthy_opt sl), (Py.truthy_opt tp); cbn; split;
    intuition discriminate.
Qed.

(** A market order that [place_market_order] submitted is the request built
    from its arguments. *)
Lemma submitted_market_order env symbol qty side sl tp t m :
  In (MarketReq m)
     (submitted (events_of (place_market_order env symbol qty side sl tp t))) ->
  m = market_order_request symbol qty side sl tp.
Proof.
  intros Hin.
  destruct (place_market_order_submits env symbol qty side sl tp t) as [H|H];
    rewrite H in Hin.
  - destruct Hin.
  - destruct Hin as [Hm|[]]. injection Hm as <-. reflexivity.
Qed.

(** C7, as stated, fails: with a stop-loss price of 0 and a take-profit
    price of 110 both prices are given, and the order submitted is SIMPLE. *)
Lemma order_class_non_null_counterexample :
  ~ (forall env symbol qty side stop_loss_price take_profit_price t m,
       In (MarketReq m)
          (submitted
             (events_of
                (place_market_order env symbol qty side stop_loss_price take_profit_price t))) ->
       (mo_order_class m = BRACKET <->
          non_null stop_loss_price /\ non_null take_profit_price)).
Proof.
  intro H.
  specialize (H (Scenario.funded 5000) "SPY" 10 "buy" (Some 0) (Some 110) 0%nat
                (market_order_request "SPY" 10 "buy" (Some 0) (Some 110))).
  destruct H as [_ H]; [left; reflexivity|].
  assert (Hc : SIMPLE = BRACKET) by (apply H; split; discriminate).
  discriminate Hc.
Qed.

(** C7, amended.  Every market order that [place_market_order] submits has
    class BRACKET exactly when both [stop_loss_price] and
    [take_profit_price] are given and are not zero, and class SIMPLE
    otherwise. *)
Theorem order_class_bracket_iff_both_supplied (env : Env) (symbol : string) (qty : Q)
    (side : string) (stop_loss_price take_profit_price : option Q) (t : nat)
    (m : MarketOrderRequest) :
  In (MarketReq m)
     (submitted
        (events_of
           (place_market_order env symbol qty side stop_loss_price take_profit_price t))) ->
  (mo_order_class m = BRACKET <-> supplied stop_loss_price /\ supplied take_profit_price)
  /\ (mo_order_class m = SIMPLE <->
        ~ (supplied stop_loss_price /\ supplied take_profit_price)).
Proof.
  intros Hin. rewrite (submitted_market_order _ _ _ _ _ _ _ _ Hin).
  cbn [mo_order_class market_order_request].
  split; [apply order_class_of_bracket | apply order_class_of_simple].
Qed.

(** C7 amended, on an order with both legs priced and on an order whose
    stop-loss price is 0. *)
Lemma order_class_bracket_iff_both_supplied_witness :
  (mo_order_class (market_order_request "SPY" 10 "buy" (Some 100) (Some 110)) = BRACKET
   <-> supplied (Some 100) /\ supplied (Some 110))
  /\ (mo_order_class (market_order_request "SPY" 10 "buy" (Some 0) (Some 110)) = SIMPLE
      <-> ~ (supplied (Some 0) /\ supplied (Some 110))).
Proof.
  split.
  - apply (order_class_bracket_iff_both_supplied (Scenario.funded 5000)
             "SPY" 10 "buy" (Some 100) (Some 110) 0%nat).
    left; reflexivity.
  - apply (order_class_bracket_iff_both_supplied (Scenario.funded 5000)
             "SPY" 10 "buy" (Some 0) (Some 110) 0%nat).
    left; reflexivity.
Defined.

(** C9, as stated, fails: a take-profit price of 0.004 given alone is not
    zero, it rounds to 0.00, and the order submitted carries no take-profit
    leg. *)
Lemma single_leg_counterexample :
  ~ (forall env symbol qty side stop_loss_price take_profit_price t m,
       In (MarketReq m)
          (submitted
             (events_of
                (place_market_order env symbol qty side stop_loss_price take_profit_price t))) ->
       (supplied stop_loss_price -> ~ supplied take_profit_price ->
          mo_order_class m = SIMPLE /\ mo_stop_loss m <> None)
       /\ (supplied take_profit_price -> ~ supplied stop_loss_price ->
          mo_order_class m = SIMPLE /\ mo_take_profit m <> None)).
Proof.
  intro H.
  specialize (H (Scenario.funded 5000) "SPY" 10 "buy" None (Some (1 # 250)) 0%nat
                (market_order_request "SPY" 10 "buy" None (Some (1 # 250)))).
  destruct H as [_ H]; [left; reflexivity|].
  destruct H as [_ H].
  - exists (1 # 250). split; [reflexivity|]. intro E. discriminate E.
  - intros [v [Hv _]]. discriminate Hv.
  - apply H. reflexivity.
Qed.

(** C9, amended.  A market order that [place_market_order] submits when
    exactly one of the two prices is given and not zero has class SIMPLE
    and carries that leg: a stop-loss leg when only [stop_loss_price] is;
    the take-profit leg, at the price rounded to cents, when only
    [take_profit_price] is and it does not round to 0.00. *)
Theorem single_leg_is_simple_and_attached (env : Env) (symbol : string) (qty : Q)
    (side : string) (stop_loss_price take_profit_price : option Q) (t : nat)
    (m : MarketOrderRequest) :
  In (MarketReq m)
     (submitted
        (events_of
           (place_market_order env symbol qty side stop_loss_price take_profit_price t))) ->
  (forall s, stop_loss_price = Some s -> ~ s == 0 -> ~ supplied take_profit_price ->
     mo_order_class m = SIMPLE
     /\ exists leg, mo_stop_loss m = Some leg)
  /\ (forall p, take_profit_price = Some p -> ~ p == 0 -> ~ supplied stop_loss_price ->
     ~ Py.round2 p == 0 ->
     mo_order_class m = SIMPLE
     /\ mo_take_profit m = Some {| tp_limit_price := Py.round2 p |}).
Proof.
  intros Hin. rewrite (submitted_market_order _ _ _ _ _ _ _ _ Hin).
  cbn [mo_order_class mo_stop_loss mo_take_profit market_order_request].
  split.
  - intros s -> Hs Htp. split.
    + apply order_class_of_simple. intros [_ H]. contradiction.
    + unfold stop_loss_of, Py.truthy.
      destruct (Qeq_bool s 0) eqn:E; [|eexists; reflexivity].
      apply Qeq_bool_iff in E. contradiction.
  - intros p -> Hp Hsl Hround. split.
    + apply order_class_of_simple. intros [H _]. contradiction.
    + unfold take_profit_of, Py.truthy_opt, Py.truthy. cbn [option_map].
      destruct (Qeq_bool p 0) eqn:E.
      { apply Qeq_bool_iff in E. contradiction. }
      cbn [negb].
      destruct (Qeq_bool (Py.round2 p) 0) eqn:E'; [|reflexivity].
      apply Qeq_bool_iff in E'. contradiction.
Qed.

(** C9 amended, on a sell order with only a stop-loss price of 100 and on a
    buy order with only a take-profit price of 105.004. *)
Lemma single_leg_is_simple_and_attached_witness :
  (mo_order_class (market_order_request "SPY" 10 "sell" (Some 100) None) = SIMPLE
   /\ exists leg,
        mo_stop_loss (market_order_request "SPY" 10 "sell" (Some 100) None) = Some leg)
  /\ (mo_order_class (market_order_request "SPY" 10 "buy" None (Some (105004 # 1000))) = SIMPLE
      /\ mo_take_profit (market_order_request "SPY" 10 "buy" None (Some (105004 # 1000))) =
           Some {| tp_limit_price := Py.round2 (105004 # 1000) |}).
Proof.
  split.
  - apply (proj1 (single_leg_is_simple_and_attached (Scenario.funded 5000)
                    "SPY" 10 "sell" (Some 100) None 0%nat _ (or_introl eq_refl))
             100 eq_refl).
    + intro E. discriminate E.
    + intros [v [Hv _]]. discriminate Hv.
  - apply (proj2 (single_leg_is_simple_and_attached (Scenario.funded 5000)
                    "SPY" 10 "buy" None (Some (105004 # 1000)) 0%nat _ (or_introl eq_refl))
             (105004 # 1000) eq_refl).
    + intro E. discriminate E.
    + intros [v [Hv _]]. discriminate Hv.
    + intro E. discriminate E.
Defined.

(** The stop-loss leg in binary64.  On a sell order with a stop-loss price
    of 5.00 the sum of line 72 is a double just below 5.015, so the stop
    price is 5.01, and the stop-limit price is 5.02; on a buy order with a
    stop-loss price of 105.00 the stop price is 105.00 and the stop-limit
    price, from a double just below 104.895, is 104.89. *)
Example stop_loss_leg_in_doubles :
  stop_loss_of "sell" (Some 5) =
    Some {| sl_stop_price := 501 # 100; sl_limit_price := 502 # 100 |}
  /\ stop_loss_of "buy" (Some 105) =
       Some {| sl_stop_price := 10500 # 100; sl_limit_price := 10489 # 100 |}.
Proof. split; vm_compute; reflexivity. Qed.

(** C6 at [place_market_order("SPY", 10, "buy", 100.0, 110.0)]: the order is
    submitted with a stop price of 100.00, the requested price itself and
    not 0.3% below it; its stop-limit price is 99.90, 0.1% below the stop
    price. *)
Lemma stop_loss_buy_keeps_requested_price :
  exists m leg,
    submitted
      (events_of
         (place_market_order (Scenario.funded 5000) "SPY" 10 "buy" (Some 100) (Some 110) 0%nat))
    = [MarketReq m]
    /\ mo_stop_loss m = Some leg
    /\ sl_stop_price leg == 100
    /\ ~ sl_stop_price leg <= 100 - 100 * (3 # 1000)
    /\ sl_limit_price leg == sl_stop_price leg - sl_stop_price leg * (1 # 1000).
Proof.
  eexists. eexists.
  split; [reflexivity|].
  split; [reflexivity|].
  split; [reflexivity|].
  split; [|vm_compute; reflexivity].
  intro H. apply Qle_bool_iff in H. vm_compute in H. discriminate H.
Qed.

(** X23. Rounding to cents can bring the stop price of a sell order closer
    than the minimum distance: at
    [place_market_order("SPY", 10, "sell", stop_loss_price=5.0)] the order
    is submitted with a stop price of 5.01, which is 0.01 above the
    requested price where 0.3% of it is 0.015, and with a stop-limit price
    of 5.02. *)
Theorem sell_stop_distance_lost_to_rounding :
  exists m leg,
    submitted
      (events_of (place_market_order (Scenario.funded 5000) "SPY" 10 "sell" (Some 5) None 0%nat))
    = [MarketReq m]
    /\ mo_stop_loss m = Some leg
    /\ sl_stop_price leg == 501 # 100
    /\ sl_stop_price leg - 5 < 5 * (3 # 1000)
    /\ sl_limit_price leg == 502 # 100.
Proof.
  eexists. eexists.
  split; [reflexivity|].
  split; [reflexivity|].
  repeat split; vm_compute; reflexivity.
Qed.

(** ** Submissions of a composite run *)

Lemma submitted_app es1 es2 : submitted (es1 ++ es2) = submitted es1 ++ submitted es2.
Proof. unfold submitted. apply flat_map_app. Qed.

Lemma submitted_bind {A B} (m : M A) (f : A -> M B) t :
  submitted (events_of (bind m f t)) =
    submitted (events_of (m t)) ++
    match result_of (m t) with
    | Ok a => submitted (events_of (f a (tick_of (m t))))
    | Raise _ => []
    end.
Proof.
  unfold bind, events_of, result_of, tick_of.
  destruct (m t) as [[[a|e] t1] es1]; cbn [fst snd].
  - destruct (f a t1) as [[r t2] es2]. cbn [fst snd]. apply submitted_app.
  - symmetry. apply app_nil_r.
Qed.

Lemma submitted_try_except {A} (m : M A) (h : exn -> M A) t :
  submitted (events_of (try_except m h t)) =
    submitted (events_of (m t)) ++
    match result_of (m t) with
    | Ok _ => []
    | Raise e => submitted (events_of (h e (tick_of (m t))))
    end.
Proof.
  unfold try_except, events_of, result_of, tick_of.
  destruct (m t) as [[[a|e] t1] es1]; cbn [fst snd].
  - symmetry. apply app_nil_r.
  - destruct (h e t1) as [[r t2] es2]. cbn [fst snd]. apply submitted_app.
Qed.

Lemma result_bind {A B} (m : M A) (f : A -> M B) t :
  result_of (bind m f t) =
    match result_of (m t) with
    | Ok a => result_of (f a (tick_of (m t)))
    | Raise e => Raise e
    end.
Proof.
  unfold bind, result_of, tick_of.
  destruct (m t) as [[[a|e] t1] es1]; cbn [fst snd]; [|reflexivity].
  destruct (f a t1) as [[r t2] es2]. reflexivity.
Qed.

Lemma tick_bind {A B} (m : M A) (f : A -> M B) t :
  tick_of (bind m f t) =
    match result_of (m t) with
    | Ok a => tick_of (f a (tick_of (m t)))
    | Raise e => tick_of (m t)
    end.
Proof.
  unfold bind, result_of, tick_of.
  destruct (m t) as [[[a|e] t1] es1]; cbn [fst snd]; [|reflexivity].
  destruct (f a t1) as [[r t2] es2]. reflexivity.
Qed.

Lemma submitted_print msg t : submitted (events_of (print msg t)) = [].
Proof. reflexivity. Qed.

Lemma trailing_stops_app es1 es2 :
  trailing_stops (es1 ++ es2) = trailing_stops es1 ++ trailing_stops es2.
Proof. unfold trailing_stops. rewrite submitted_app. apply flat_map_app. Qed.

(** ** [wait_for_order_fill] never raises and submits nothing *)

Section WaitIsQuiet.

Variable env : Env.
Variable order_id : OrderId.
Variable max_wait : nat.

Lemma poll_once_quiet waited t :
  exists turn es,
    poll_once env order_id max_wait waited t = (Ok turn, S t, es) /\ submitted es = [].
Proof.
  unfold poll_once, try_except, bind, call, print, perform, ret.
  destruct (get_order_by_id env t order_id) as [o|e].
  - destruct (OrderStatus_eqb (status o) FILLED).
    + eexists; eexists; split; reflexivity.
    + destruct (failed_status (status o)); eexists; eexists; split; reflexivity.
  - eexists; eexists; split; reflexivity.
Qed.

Lemma wait_loop_quiet remaining : forall waited t,
  (exists filled, result_of (wait_loop env order_id max_wait remaining waited t) = Ok filled)
  /\ submitted (events_of (wait_loop env order_id max_wait remaining waited t)) = [].
Proof.
  induction remaining as [|remaining IH]; intros waited t.
  - split; [exists None|]; reflexivity.
  - cbn [wait_loop].
    destruct (poll_once_quiet waited t) as [turn [es [Hp Hes]]].
    rewrite result_bind, submitted_bind, Hp.
    unfold result_of at 2, events_of at 1, tick_of, result_of at 2. cbn [fst snd].
    rewrite Hes. cbn [app].
    destruct turn as [filled|].
    + split; [exists filled|]; reflexivity.
    + apply IH.
Qed.

Lemma wait_for_order_fill_quiet t :
  (exists filled, result_of (wait_for_order_fill env order_id max_wait t) = Ok filled)
  /\ submitted (events_of (wait_for_order_fill env order_id max_wait t)) = [].
Proof. apply wait_loop_quiet. Qed.

End WaitIsQuiet.

(** ** [place_trailing_stop_order] *)

Section PlaceTrailingStop.

Variable env : Env.

Lemma place_trailing_stop_order_refused symbol qty side tp tpc t :
  validate_trade env symbol qty side t =
    (Ok false, S t, [GetAccount; Print (insufficient symbol qty side)]) ->
  place_trailing_stop_order env symbol qty side tp tpc t =
    (Ok None, S t, [GetAccount; Print (insufficient symbol qty side)]).
Proof.
  intros Hv. unfold place_trailing_stop_order, bind. rewrite Hv. reflexivity.
Qed.

Lemma place_trailing_stop_order_validated symbol qty side tp tpc t :
  validate_trade env symbol qty side t = (Ok true, S t, [GetAccount]) ->
  let order := TrailingReq (trailing_stop_request symbol qty side tp tpc) in
  place_trailing_stop_order env symbol qty side tp tpc t =
    match validate_request env order with
    | Raise e => (Ok None, S t, [GetAccount; Print (TrailingStopError symbol e)])
    | Ok _ =>
        match submit_order env (S t) order with
        | Raise e =>
            (Ok None, S (S t),
             [GetAccount; SubmitOrder order; Print (TrailingStopError symbol e)])
        | Ok response =>
            (Ok (Some response), S (S t),
             [GetAccount; SubmitOrder order;
              Print (TrailingStopPlaced (ts_side (trailing_stop_request symbol qty side tp tpc))
                       qty symbol tp tpc)])
        end
    end.
Proof.
  intros Hv order.
  unfold place_trailing_stop_order, bind at 1. rewrite Hv. cbn [negb].
  unfold try_except, bind, lift, call, print, perform, ret. fold order.
  destruct (validate_request env order) as [[]|e]; [|reflexivity].
  destruct (submit_order env (S t) order); reflexivity.
Qed.

Lemma place_trailing_stop_order_validation_raises symbol qty side tp tpc t e :
  validate_trade env symbol qty side t = (Raise e, S t, [GetAccount]) ->
  place_trailing_stop_order env symbol qty side tp tpc t = (Raise e, S t, [GetAccount]).
Proof.
  intros Hv. unfold place_trailing_stop_order, bind. rewrite Hv. reflexivity.
Qed.

(** Whatever happens, [place_trailing_stop_order] submits at most the one
    request it builds from its arguments. *)
Lemma place_trailing_stop_order_submits symbol qty side tp tpc t :
  submitted (events_of (place_trailing_stop_order env symbol qty side tp tpc t)) = []
  \/ submitted (events_of (place_trailing_stop_order env symbol qty side tp tpc t)) =
       [TrailingReq (trailing_stop_request symbol qty side tp tpc)].
Proof.
  destruct (validate_trade_cases env symbol qty side t) as [H|[H|[e H]]].
  - rewrite (place_trailing_stop_order_refused _ _ _ _ _ _ H). left; reflexivity.
  - rewrite (place_trailing_stop_order_validated _ _ _ _ _ _ H).
    destruct (validate_request env _) as [[]|e]; [|left; reflexivity].
    destruct (submit_order env (S t) _); right; reflexivity.
  - rewrite (place_trailing_stop_order_validation_raises _ _ _ _ _ _ _ H).
    left; reflexivity.
Qed.

End PlaceTrailingStop.

(** ** Submissions of the entry and of its protection *)

Section ExecuteTrade.

Variable env : Env.

(** The fill that lines 183-189 protect: a quantity that is not zero and is
    positive. *)
Lemma usable_fill_iff filled :
  (Py.truthy filled && Py.ltb 0 filled)%bool = true <-> 0 < filled.
Proof.
  unfold Py.truthy, Py.ltb. split.
  - intro H. apply andb_true_iff in H. destruct H as [_ H].
    destruct (Qle_bool filled 0) eqn:E; [discriminate H|].
    apply Qnot_le_lt. intro Hle. apply Qle_bool_iff in Hle. congruence.
  - intro H. apply andb_true_iff. split.
    + destruct (Qeq_bool filled 0) eqn:E; [|reflexivity].
      apply Qeq_bool_iff in E. rewrite E in H. discriminate H.
    + destruct (Qle_bool filled 0) eqn:E; [|reflexivity].
      apply Qle_bool_iff in E. exfalso. apply (Qlt_not_le _ _ H E).
Qed.

Lemma protect_entry_submitted symbol trade_signal risk_params o t :
  submitted (events_of (protect_entry env symbol trade_signal risk_params o t)) =
    match result_of (wait_for_order_fill env (id o) 10 t) with
    | Ok (Some filled) =>
        if (Py.truthy filled && Py.ltb 0 filled)%bool then
          submitted
            (events_of
               (place_trailing_stop_order env symbol filled (Py.lower trade_signal)
                  (Some (trail_amount risk_params)) None
                  (tick_of (wait_for_order_fill env (id o) 10 t))))
        else []
    | _ => []
    end.
Proof.
  unfold protect_entry.
  rewrite submitted_bind. cbn [print perform result_of tick_of events_of fst snd].
  change (submitted [Print (ExecutedMarketOrder o)]) with (@nil OrderRequest).
  cbn [app]. cbv zeta.
  rewrite submitted_bind.
  destruct (wait_for_order_fill_quiet env (id o) 10 t) as [[filled Hr] Hs].
  rewrite Hs, Hr. cbn [app].
  destruct filled as [filled|]; [|reflexivity].
  destruct (Py.truthy filled && Py.ltb 0 filled)%bool; [|reflexivity].
  rewrite submitted_bind.
  destruct (result_of (place_trailing_stop_order env symbol filled (Py.lower trade_signal)
                         (Some (trail_amount risk_params)) None _)) as [[r|]|e];
    cbn; rewrite ?app_nil_r; reflexivity.
Qed.

Lemma execute_trade_submitted symbol trade_signal risk_params t :
  let entry :=
    place_market_order env symbol (inject_Z (quantity risk_params))
      (Py.lower trade_signal) None (Some (take_profit risk_params)) t in
  submitted (events_of (execute_trade env symbol trade_signal risk_params t)) =
    submitted (events_of entry) ++
    match result_of entry with
    | Ok (Some o) =>
        submitted (events_of (protect_entry env symbol trade_signal risk_params o (tick_of entry)))
    | _ => []
    end.
Proof.
  intros entry. unfold execute_trade.
  rewrite submitted_try_except, submitted_bind, result_bind. fold entry.
  rewrite <- app_assoc. f_equal.
  destruct (result_of entry) as [[o|]|e]; cbn [app]; try reflexivity.
  destruct (result_of (protect_entry env symbol trade_signal risk_params o (tick_of entry)));
    cbn; rewrite ?app_nil_r; reflexivity.
Qed.

End ExecuteTrade.

(** C1. Take the entry order of a trade ([place_market_order] at lines
    157-163) and the wait for its fill ([wait_for_order_fill] at line 181).
    Every trailing stop submitted by the trade carries the quantity that the
    wait returned, a positive one, and the side opposite to the side of the
    entry order: SELL on a BUY signal, BUY on a SELL signal.  When the wait
    returns [None] or a quantity of 0, and when the entry order was not
    acknowledged, no trailing stop is submitted. *)
Theorem trailing_stop_uses_filled_quantity (env : Env) (symbol trade_signal : string)
    (risk_params : RiskParams) (t : nat) :
  let entry :=
    place_market_order env symbol (inject_Z (quantity risk_params))
      (Py.lower trade_signal) None (Some (take_profit risk_params)) t in
  let run := execute_trade env symbol trade_signal risk_params t in
  (forall o, result_of entry = Ok (Some o) ->
     let wait := wait_for_order_fill env (id o) 10 (tick_of entry) in
     (forall s, In s (trailing_stops (events_of run)) ->
        (exists filled,
           result_of wait = Ok (Some filled) /\ 0 < filled /\ ts_qty s = filled)
        /\ (forall m, In m (market_orders (events_of run)) ->
              ts_side s = opposite (mo_side m))
        /\ (trade_signal = "BUY" -> ts_side s = SELL)
        /\ (trade_signal = "SELL" -> ts_side s = BUY))
     /\ (result_of wait = Ok None -> trailing_stops (events_of run) = [])
     /\ (forall filled, result_of wait = Ok (Some filled) -> filled == 0 ->
           trailing_stops (events_of run) = []))
  /\ ((forall o, result_of entry <> Ok (Some o)) -> trailing_stops (events_of run) = []).
Proof.
  intros entry run.
  assert (Hsub : submitted (events_of run) =
                 submitted (events_of entry) ++
                 match result_of entry with
                 | Ok (Some o) =>
                     submitted
                       (events_of
                          (protect_entry env symbol trade_signal risk_params o (tick_of entry)))
                 | _ => []
                 end)
    by apply execute_trade_submitted.
  assert (Hentry : submitted (events_of entry) = []
                   \/ submitted (events_of entry) =
                        [MarketReq
                           (market_order_request symbol (inject_Z (quantity risk_params))
                              (Py.lower trade_signal) None (Some (take_profit risk_params)))])
    by apply place_market_order_submits.
  unfold trailing_stops, market_orders. rewrite Hsub.
  split.
  - intros o Ho.
    set (wait := wait_for_order_fill env (id o) 10 (tick_of entry)).
    rewrite Ho, protect_entry_submitted. fold wait.
    destruct (result_of wait) as [[filled|]|e] eqn:Hwait.
    + destruct (Py.truthy filled && Py.ltb 0 filled)%bool eqn:Hfill.
      * apply usable_fill_iff in Hfill.
        destruct (place_trailing_stop_order_submits env symbol filled
                    (Py.lower trade_signal) (Some (trail_amount risk_params)) None
                    (tick_of wait)) as [Hts|Hts]; rewrite Hts;
          (split; [|split; [discriminate|]]).
        -- intros s Hs. exfalso.
           destruct Hentry as [He|He]; rewrite He in Hs; exact Hs.
        -- intros filled' Hf' Hz. injection Hf' as <-. rewrite Hz in Hfill.
           discriminate Hfill.
        -- intros s Hs.
           assert (Hs' : s = trailing_stop_request symbol filled (Py.lower trade_signal)
                               (Some (trail_amount risk_params)) None).
           { destruct Hentry as [He|He]; rewrite He in Hs;
               destruct Hs as [Hs|[]]; symmetry; exact Hs. }
           subst s. cbn [ts_qty ts_side trailing_stop_request].
           split; [exists filled; repeat split; assumption|].
           split; [|split].
           ++ intros m Hm.
              assert (Hm' : m = market_order_request symbol
                                  (inject_Z (quantity risk_params)) (Py.lower trade_signal)
                                  None (Some (take_profit risk_params))).
              { destruct Hentry as [He|He]; rewrite He in Hm;
                  [destruct Hm | destruct Hm as [Hm|[]]; symmetry; exact Hm]. }
              subst m. cbn [mo_side market_order_request].
              destruct (String.eqb (Py.lower (Py.lower trade_signal)) "buy"); reflexivity.
           ++ intros ->. reflexivity.
           ++ intros ->. reflexivity.
        -- intros filled' Hf' Hz. injection Hf' as <-. rewrite Hz in Hfill.
           discriminate Hfill.
      * rewrite app_nil_r.
        assert (Hnone : flat_map
                          (fun r => match r with TrailingReq s => [s] | _ => [] end)
                          (submitted (events_of entry)) = [])
          by (destruct Hentry as [He|He]; rewrite He; reflexivity).
        rewrite Hnone. split; [intros s []|split; reflexivity].
    + rewrite app_nil_r.
      assert (Hnone : flat_map
                        (fun r => match r with TrailingReq s => [s] | _ => [] end)
                        (submitted (events_of entry)) = [])
        by (destruct Hentry as [He|He]; rewrite He; reflexivity).
      rewrite Hnone. split; [intros s []|split; reflexivity].
    + destruct (wait_for_order_fill_quiet env (id o) 10 (tick_of entry)) as [[f Hf] _].
      fold wait in Hf. congruence.
  - intros Hno.
    destruct (result_of entry) as [[o|]|e].
    + exfalso. apply (Hno o). reflexivity.
    + rewrite app_nil_r. destruct Hentry as [He|He]; rewrite He; reflexivity.
    + rewrite app_nil_r. destruct Hentry as [He|He]; rewrite He; reflexivity.
Qed.

(** C1 on a BUY of 10 shares that fills for 7 on the second poll: the one
    trailing stop submitted is a SELL of 7 shares. *)
Lemma trailing_stop_uses_filled_quantity_witness :
  trailing_stops (events_of (execute_trade (Scenario.fills_at 3) "SPY" "BUY" Scenario.params 0%nat))
    = [trailing_stop_request "SPY" 7 "buy" (Some 2) None]
  /\ ((exists filled,
         result_of (wait_for_order_fill (Scenario.fills_at 3) "entry-1" 10 2%nat)
           = Ok (Some filled)
         /\ 0 < filled
         /\ ts_qty (trailing_stop_request "SPY" 7 "buy" (Some 2) None) = filled)
      /\ (forall m,
            In m (market_orders
                    (events_of
                       (execute_trade (Scenario.fills_at 3) "SPY" "BUY" Scenario.params 0%nat))) ->
            ts_side (trailing_stop_request "SPY" 7 "buy" (Some 2) None) = opposite (mo_side m))
      /\ ("BUY" = "BUY" -> ts_side (trailing_stop_request "SPY" 7 "buy" (Some 2) None) = SELL)
      /\ ("BUY" = "SELL" -> ts_side (trailing_stop_request "SPY" 7 "buy" (Some 2) None) = BUY)).
Proof.
  split; [reflexivity|].
  apply (proj1 (proj1 (trailing_stop_uses_filled_quantity (Scenario.fills_at 3)
                         "SPY" "BUY" Scenario.params 0%nat)
                  (Scenario.ack
                     (MarketReq (market_order_request "SPY" 10 "buy" None (Some 105))))
                  eq_refl)
           (trailing_stop_request "SPY" 7 "buy" (Some 2) None)).
  left; reflexivity.
Defined.

(** An acknowledged entry was submitted. *)
Lemma place_market_order_acknowledged env symbol qty side sl tp t o :
  result_of (place_market_order env symbol qty side sl tp t) = Ok (Some o) ->
  submitted (events_of (place_market_order env symbol qty side sl tp t)) =
    [MarketReq (market_order_request symbol qty side sl tp)].
Proof.
  destruct (validate_trade_cases env symbol qty side t) as [H|[H|[e H]]].
  - rewrite (place_market_order_refused _ _ _ _ _ _ _ H). discriminate.
  - rewrite (place_market_order_validated _ _ _ _ _ _ _ H).
    destruct (validate_request env _) as [[]|e]; [|discriminate].
    destruct (submit_order env (S t) _); [reflexivity|discriminate].
  - rewrite (place_market_order_validation_raises _ _ _ _ _ _ _ _ H). discriminate.
Qed.

(** C10. [place_trailing_stop_order] runs the validation of the entry
    orders, [validate_trade], on the side it is given, the side of the
    entry: when the buying power is at most 0 it prints the refusal for that
    side, returns [None] and submits nothing, as [place_market_order] does.
    Hence a trade whose entry was acknowledged and filled submits no
    trailing stop when the buying power read for the protection is at most
    0. *)
Theorem trailing_stop_needs_buying_power (env : Env) (symbol : string) (t : nat) :
  (forall qty side trail_price trail_percent acct,
     get_account env t = Ok acct -> buying_power acct <= 0 ->
     let run := place_trailing_stop_order env symbol qty side trail_price trail_percent t in
     result_of run = Ok None
     /\ submitted (events_of run) = []
     /\ events_of run = [GetAccount; Print (insufficient symbol qty side)]
     /\ events_of run = events_of (validate_trade env symbol qty side t)
     /\ (forall sl tp,
           place_market_order env symbol qty side sl tp t = run))
  /\ (forall trade_signal risk_params o filled acct,
        let entry :=
          place_market_order env symbol (inject_Z (quantity risk_params))
            (Py.lower trade_signal) None (Some (take_profit risk_params)) t in
        let wait := wait_for_order_fill env (id o) 10 (tick_of entry) in
        let run := execute_trade env symbol trade_signal risk_params t in
        result_of entry = Ok (Some o) ->
        result_of wait = Ok (Some filled) -> 0 < filled ->
        get_account env (tick_of wait) = Ok acct -> buying_power acct <= 0 ->
        market_orders (events_of run) =
          [market_order_request symbol (inject_Z (quantity risk_params))
             (Py.lower trade_signal) None (Some (take_profit risk_params))]
        /\ trailing_stops (events_of run) = []).
Proof.
  split.
  - intros qty side trail_price trail_percent acct Hacct Hle run.
    pose proof (validate_trade_refuses env symbol qty side t acct Hacct Hle) as Hv.
    subst run.
    rewrite (place_trailing_stop_order_refused env _ _ _ _ _ _ Hv), Hv.
    repeat split.
    intros sl tp. apply place_market_order_refused. exact Hv.
  - intros trade_signal risk_params o filled acct entry wait run Hentry Hwait Hpos Hacct Hle.
    pose proof (execute_trade_submitted env symbol trade_signal risk_params t) as Hsub.
    subst entry wait run. cbv zeta in Hsub.
    rewrite Hentry, protect_entry_submitted, Hwait in Hsub.
    rewrite (proj2 (usable_fill_iff filled) Hpos) in Hsub.
    rewrite (place_trailing_stop_order_refused env _ _ _ _ _ _
               (validate_trade_refuses env symbol filled (Py.lower trade_signal)
                  _ acct Hacct Hle)) in Hsub.
    rewrite (place_market_order_acknowledged env _ _ _ _ _ _ _ Hentry) in Hsub.
    unfold market_orders, trailing_stops. rewrite Hsub. split; reflexivity.
Qed.

(** C10 on a SELL entry whose protection finds no buying power, and on a BUY
    of 10 shares that fills for 7 while the buying power drops to 0: the
    entry is the only order of the trade. *)
Lemma trailing_stop_needs_buying_power_witness :
  (result_of (place_trailing_stop_order (Scenario.funded 0) "SPY" 7 "sell" (Some 2) None 0%nat)
     = Ok None
   /\ submitted
        (events_of (place_trailing_stop_order (Scenario.funded 0) "SPY" 7 "sell" (Some 2) None 0%nat))
      = []
   /\ events_of (place_trailing_stop_order (Scenario.funded 0) "SPY" 7 "sell" (Some 2) None 0%nat)
      = [GetAccount; Print (InsufficientShort 7 "SPY")])
  /\ (market_orders (events_of (execute_trade Scenario.drained "SPY" "BUY" Scenario.params 0%nat))
        = [market_order_request "SPY" 10 "buy" None (Some 105)]
      /\ trailing_stops (events_of (execute_trade Scenario.drained "SPY" "BUY" Scenario.params 0%nat))
         = []).
Proof.
  split.
  - pose proof (proj1 (trailing_stop_needs_buying_power (Scenario.funded 0) "SPY" 0%nat)
                  7 "sell" (Some 2) None {| buying_power := 0 |} eq_refl (Qle_refl 0)) as H.
    cbv zeta in H. destruct H as [H1 [H2 [H3 _]]].
    split; [exact H1|split; [exact H2|exact H3]].
  - apply (proj2 (trailing_stop_needs_buying_power Scenario.drained "SPY" 0%nat)
             "BUY" Scenario.params
             (Scenario.ack (MarketReq (market_order_request "SPY" 10 "buy" None (Some 105))))
             7 {| buying_power := 0 |}).
    + reflexivity.
    + reflexivity.
    + reflexivity.
    + reflexivity.
    + apply Qle_refl.
Defined.

(** ** The market phases of a turn *)

Lemma py_max_is_max a b : Py.max a b == Qmax a b.
Proof.
  apply Q.max_unicity. unfold Py.max, Py.ltb.
  destruct (Qle_bool b a) eqn:E; cbn [negb].
  - right. split; [apply Qle_bool_iff; exact E|reflexivity].
  - left. split; [|reflexivity].
    apply Qnot_le_lt. intro H. apply Qle_bool_iff in H. congruence.
Qed.

Lemma total_seconds_seconds a b : total_seconds a b == seconds a - seconds b.
Proof.
  unfold total_seconds, seconds, Qeq, Qdiv, Qminus, Qplus, Qmult, Qinv, Qopp, inject_Z.
  cbn. lia.
Qed.

(** The seconds slept until trading starts: the time left until one hour
    after the next open, and 0 when that instant is past. *)
Lemma sleep_until_trading_start next_open now :
  sleep_until (next_open + one_hour) now ==
    Qmax (seconds next_open + 3600 - seconds now) 0
  /\ 0 <= sleep_until (next_open + one_hour) now.
Proof.
  assert (H : sleep_until (next_open + one_hour) now ==
              Qmax (seconds next_open + 3600 - seconds now) 0).
  { unfold sleep_until. rewrite py_max_is_max.
    apply Q.max_compat; [|reflexivity].
    unfold total_seconds, seconds, one_hour, Qeq, Qdiv, Qminus, Qplus, Qmult, Qinv,
      Qopp, inject_Z.
    cbn. lia. }
  split; [exact H|].
  rewrite H. apply Q.le_max_r.
Qed.

(** [int(time_until_close / 60) <= 60] holds in the last hour. *)
Lemma last_hour_test time_until_close :
  time_until_close <= 3600 ->
  Z.leb (Py.int (time_until_close / 60)) 60 = true.
Proof.
  intros H. apply Z.leb_le.
  assert (Hq : time_until_close / 60 <= 60).
  { apply Qle_shift_div_r; [reflexivity|]. exact H. }
  unfold Py.int.
  destruct (Qle_bool 0 (time_until_close / 60)) eqn:E.
  - change 60%Z with (Qfloor 60). apply Qfloor_resp_le. exact Hq.
  - apply Z.le_trans with (Qceiling 0); [|discriminate].
    apply Qceiling_resp_le. apply Qlt_le_weak. apply Qnot_le_lt.
    intro H0. apply Qle_bool_iff in H0. congruence.
Qed.

Section Phases.

Variable env : Env.
Variable symbols : list string.

Lemma cycle_market_closed t :
  is_open (get_market_clock_data env t) = false ->
  let clock := get_market_clock_data env t in
  let trading_start_time := (next_open clock + one_hour)%Z in
  let sleep_time := sleep_until trading_start_time (current_time clock) in
  cycle env symbols t =
    (Ok tt, S t,
     [GetMarketClockData;
      Print (MarketClosedWaiting (current_time clock) (Qfloor (sleep_time / 60))
               trading_start_time);
      Sleep sleep_time]).
Proof.
  intros Hclosed. cbv zeta.
  unfold cycle, bind, call, print, perform. rewrite Hclosed. reflexivity.
Qed.

Lemma cycle_last_hour t :
  is_open (get_market_clock_data env t) = true ->
  seconds (next_close (get_market_clock_data env t))
    - seconds (current_time (get_market_clock_data env t)) <= 3600 ->
  let clock := get_market_clock_data env t in
  let trading_start_time := (next_open clock + one_hour)%Z in
  let sleep_time := sleep_until trading_start_time (current_time clock) in
  cycle env symbols t =
    (Ok tt, S t,
     [GetMarketClockData;
      Print MarketAboutToClose;
      CloseAllPositions;
      Print AllPositionsClosed;
      Print (SleepingUntil (Qfloor (sleep_time / 60)) trading_start_time);
      Sleep sleep_time]).
Proof.
  intros Hopen Hclose. cbv zeta.
  rewrite <- total_seconds_seconds in Hclose.
  unfold cycle, bind, call, print, perform. rewrite Hopen.
  rewrite (last_hour_test _ Hclose). reflexivity.
Qed.

End Phases.

(** C8. Whenever the market clock reports [is_open = False], the turn of
    the loop sleeps once, for [max(trading_start_time - current_time, 0)]
    seconds where [trading_start_time] is one hour after [next_open]; that
    duration is never negative, wherever [next_open] lies. *)
Theorem market_closed_sleep (env : Env) (symbols : list string) (t : nat) :
  is_open (get_market_clock_data env t) = false ->
  let clock := get_market_clock_data env t in
  let trading_start_time := seconds (next_open clock) + 3600 in
  exists sleep_time,
    sleeps (events_of (cycle env symbols t)) = [sleep_time]
    /\ sleep_time == Qmax (trading_start_time - seconds (current_time clock)) 0
    /\ 0 <= sleep_time.
Proof.
  intros Hclosed clock trading_start_time.
  rewrite (cycle_market_closed env symbols t Hclosed).
  eexists. split; [reflexivity|].
  apply sleep_until_trading_start.
Qed.

(** C4. In every turn of the loop whose clock reads an open market with at
    most 3600 seconds until the close, [close_all_positions] is called,
    nothing is submitted, and the turn ends by sleeping until one hour
    after the next open. *)
Theorem flatten_before_close (env : Env) (symbols : list string) (t : nat) :
  is_open (get_market_clock_data env t) = true ->
  seconds (next_close (get_market_clock_data env t))
    - seconds (current_time (get_market_clock_data env t)) <= 3600 ->
  let clock := get_market_clock_data env t in
  let run := cycle env symbols t in
  submitted (events_of run) = []
  /\ (forall symbol, ~ In (FetchHistoricalData symbol) (events_of run))
  /\ exists before sleep_time,
       events_of run = before ++ [Sleep sleep_time]
       /\ In CloseAllPositions before
       /\ sleep_time ==
            Qmax (seconds (next_open clock) + 3600 - seconds (current_time clock)) 0.
Proof.
  intros Hopen Hclose clock run. subst run.
  rewrite (cycle_last_hour env symbols t Hopen Hclose).
  split; [reflexivity|]. split.
  - intros symbol Hin. cbn in Hin.
    repeat (destruct Hin as [Hin|Hin]; [discriminate Hin|]). exact Hin.
  - eexists [_; _; _; _; _]. eexists.
    split; [reflexivity|]. split.
    + right; right; left; reflexivity.
    + apply sleep_until_trading_start.
Qed.

(** C8 overnight, 16.5 hours before trading starts, and on a clock whose
    next open is 1.5 hours past: the loop sleeps 59400 seconds, and 0. *)
Lemma market_closed_sleep_witness :
  (exists sleep_time,
     sleeps (events_of (cycle (Scenario.at_clock Scenario.overnight) ["SPY"; "QQQ"] 0%nat))
       = [sleep_time]
     /\ sleep_time ==
          Qmax (seconds 1767709800000000 + 3600 - seconds 1767654000000000) 0
     /\ 0 <= sleep_time)
  /\ (exists sleep_time,
        sleeps (events_of (cycle (Scenario.at_clock Scenario.stale) ["SPY"; "QQQ"] 0%nat))
          = [sleep_time]
        /\ sleep_time ==
             Qmax (seconds 1767709800000000 + 3600 - seconds 1767715200000000) 0
        /\ 0 <= sleep_time)
  /\ sleeps (events_of (cycle (Scenario.at_clock Scenario.overnight) ["SPY"; "QQQ"] 0%nat))
     = [59400000000 # 1000000]
  /\ sleeps (events_of (cycle (Scenario.at_clock Scenario.stale) ["SPY"; "QQQ"] 0%nat))
     = [0].
Proof.
  split; [|split; [|split]].
  - apply (market_closed_sleep (Scenario.at_clock Scenario.overnight) ["SPY"; "QQQ"] 0%nat).
    reflexivity.
  - apply (market_closed_sleep (Scenario.at_clock Scenario.stale) ["SPY"; "QQQ"] 0%nat).
    reflexivity.
  - reflexivity.
  - reflexivity.
Defined.

(** C4 half an hour before the close, with a BUY signal on both symbols:
    the positions are closed, nothing is submitted, and the loop sleeps the
    19 hours until trading starts. *)
Lemma flatten_before_close_witness :
  submitted (events_of (cycle (Scenario.at_clock Scenario.closing) ["SPY"; "QQQ"] 0%nat)) = []
  /\ (forall symbol,
        ~ In (FetchHistoricalData symbol)
             (events_of (cycle (Scenario.at_clock Scenario.closing) ["SPY"; "QQQ"] 0%nat)))
  /\ exists before sleep_time,
       events_of (cycle (Scenario.at_clock Scenario.closing) ["SPY"; "QQQ"] 0%nat)
         = before ++ [Sleep sleep_time]
       /\ In CloseAllPositions before
       /\ sleep_time ==
            Qmax (seconds 1767709800000000 + 3600 - seconds 1767645000000000) 0.
Proof.
  apply (flatten_before_close (Scenario.at_clock Scenario.closing) ["SPY"; "QQQ"] 0%nat).
  - reflexivity.
  - intro H. discriminate H.
Defined.

(** ** The symbols of a turn *)

Lemma has_position_holds symbol open_positions :
  has_position symbol open_positions = true <-> holds symbol open_positions.
Proof.
  unfold has_position, holds. rewrite existsb_exists.
  split; intros [pos [Hin H]]; exists pos; (split; [exact Hin|]).
  - apply String.eqb_eq. exact H.
  - apply String.eqb_eq. exact H.
Qed.

Lemma update_buffer_run symbol symbol_data t :
  for_each symbol_data (fun row => perform (UpdateBuffer symbol row)) t =
    (Ok tt, t, map (UpdateBuffer symbol) symbol_data).
Proof.
  induction symbol_data as [|row rest IH]; [reflexivity|].
  cbn [for_each map]. unfold bind, perform at 1. rewrite IH. reflexivity.
Qed.

Lemma submitted_update_buffer symbol symbol_data :
  submitted (map (UpdateBuffer symbol) symbol_data) = [].
Proof. induction symbol_data as [|row rest IH]; [reflexivity|exact IH]. Qed.

Section Symbols.

Variable env : Env.

(** With a position in the symbol, lines 123-131 skip it. *)
Lemma act_on_signal_holding symbol symbol_data trade_signal t :
  holds symbol (get_positions env (S t)) ->
  act_on_signal env symbol symbol_data trade_signal t =
    (Ok tt, S (S t),
     [GetAccountDetails; GetPositions; Print (SkippingOpenPosition symbol)]).
Proof.
  intros H. apply has_position_holds in H.
  unfold act_on_signal, bind, call. rewrite H. reflexivity.
Qed.

(** The turn for a symbol, by the data and the signal it gets. *)
Lemma process_symbol_run symbol t :
  process_symbol env symbol t =
    match fetch_historical_data env t symbol with
    | None | Some [] => (Ok tt, S t, [FetchHistoricalData symbol; Print (NoDataFound symbol)])
    | Some symbol_data =>
        let trade_signal := generate_trade_signal env (S t) symbol in
        let rest :=
          if actionable trade_signal
          then act_on_signal env symbol symbol_data trade_signal (S (S t))
          else (Ok tt, S (S t), []) in
        (result_of rest, tick_of rest,
         FetchHistoricalData symbol :: map (UpdateBuffer symbol) symbol_data
         ++ [GenerateTradeSignal symbol; Print (TradeSignal symbol trade_signal)]
         ++ events_of rest)
    end.
Proof.
  unfold process_symbol, bind at 1, call at 1.
  destruct (fetch_historical_data env t symbol) as [[|row rest]|]; try reflexivity.
  unfold bind at 1. rewrite update_buffer_run.
  unfold bind, call, print, perform. cbv zeta.
  destruct (actionable (generate_trade_signal env (S t) symbol)).
  - destruct (act_on_signal env symbol (row :: rest) _ (S (S t))) as [[r t'] es].
    unfold result_of, tick_of, events_of. cbn [fst snd app].
    rewrite <- ?app_assoc. reflexivity.
  - unfold ret, result_of, tick_of, events_of. cbn [fst snd app].
    rewrite <- ?app_assoc. reflexivity.
Qed.

(** Every order of a trade is for the symbol of the trade. *)
Lemma execute_trade_own_symbol symbol trade_signal risk_params t r :
  In r (submitted (events_of (execute_trade env symbol trade_signal risk_params t))) ->
  order_symbol r = symbol.
Proof.
  rewrite execute_trade_submitted. intros Hin. apply in_app_or in Hin.
  destruct Hin as [Hin|Hin].
  - destruct (place_market_order_submits env symbol (inject_Z (quantity risk_params))
                (Py.lower trade_signal) None (Some (take_profit risk_params)) t) as [H|H];
      rewrite H in Hin.
    + destruct Hin.
    + destruct Hin as [<-|[]]. reflexivity.
  - destruct (result_of (place_market_order env symbol _ _ None _ t)) as [[o|]|e];
      try destruct Hin.
    rewrite protect_entry_submitted in Hin.
    destruct (result_of (wait_for_order_fill env (id o) 10 _)) as [[filled|]|e];
      try destruct Hin.
    destruct (Py.truthy filled && Py.ltb 0 filled)%bool; [|destruct Hin].
    destruct (place_trailing_stop_order_submits env symbol filled (Py.lower trade_signal)
                (Some (trail_amount risk_params)) None
                (tick_of (wait_for_order_fill env (id o) 10
                            (tick_of (place_market_order env symbol
                                        (inject_Z (quantity risk_params))
                                        (Py.lower trade_signal) None
                                        (Some (take_profit risk_params)) t)))))
      as [H|H]; rewrite H in Hin.
    + destruct Hin.
    + destruct Hin as [<-|[]]. reflexivity.
Qed.

Lemma act_on_signal_own_symbol symbol symbol_data trade_signal t r :
  In r (submitted (events_of (act_on_signal env symbol symbol_data trade_signal t))) ->
  order_symbol r = symbol.
Proof.
  unfold act_on_signal.
  rewrite submitted_bind. cbn [call result_of tick_of events_of fst snd].
  change (submitted [GetAccountDetails]) with (@nil OrderRequest). cbn [app].
  rewrite submitted_bind. cbn [call result_of tick_of events_of fst snd].
  change (submitted [GetPositions]) with (@nil OrderRequest). cbn [app].
  destruct (has_position symbol (get_positions env (S t))); [intros []|].
  cbv zeta.
  rewrite submitted_bind. cbn [print perform result_of tick_of events_of fst snd].
  change (submitted [Print _]) with (@nil OrderRequest). cbn [app].
  rewrite submitted_bind. cbn [lift result_of tick_of events_of fst snd].
  change (submitted []) with (@nil OrderRequest). cbn [app].
  destruct (calculate_trade_parameters env symbol_data (last_close symbol_data)
              (get_account_details env t) (get_positions env (S t)) trade_signal)
    as [risk_params|e]; [|intros []].
  rewrite submitted_bind. cbn [print perform result_of tick_of events_of fst snd].
  change (submitted [Print _]) with (@nil OrderRequest). cbn [app].
  destruct (Z.leb (quantity risk_params) 0); [intros []|].
  rewrite submitted_bind. cbn [print perform result_of tick_of events_of fst snd].
  change (submitted [Print _]) with (@nil OrderRequest). cbn [app].
  rewrite submitted_bind. cbn [print perform result_of tick_of events_of fst snd].
  change (submitted [Print _]) with (@nil OrderRequest). cbn [app].
  apply execute_trade_own_symbol.
Qed.

Lemma process_symbol_own_symbol symbol t r :
  In r (submitted (events_of (process_symbol env symbol t))) ->
  order_symbol r = symbol.
Proof.
  rewrite process_symbol_run.
  destruct (fetch_historical_data env t symbol) as [[|row rest]|]; try (intros []).
  cbv zeta. unfold events_of at 1. cbn [snd].
  change (FetchHistoricalData symbol :: ?l) with ([FetchHistoricalData symbol] ++ l).
  rewrite !submitted_app, submitted_update_buffer. cbn [app].
  change (submitted [FetchHistoricalData symbol]) with (@nil OrderRequest).
  change (submitted [GenerateTradeSignal symbol; Print _]) with (@nil OrderRequest).
  cbn [app].
  destruct (actionable (generate_trade_signal env (S t) symbol)); [|intros []].
  apply act_on_signal_own_symbol.
Qed.

End Symbols.

Section Turn.

Variable env : Env.

Lemma for_each_own_symbols symbols : forall t r,
  In r (submitted (events_of (for_each symbols (process_symbol env) t))) ->
  In (order_symbol r) symbols.
Proof.
  induction symbols as [|symbol rest IH]; intros t r Hin.
  - destruct Hin.
  - cbn [for_each] in Hin. rewrite submitted_bind in Hin.
    apply in_app_or in Hin. destruct Hin as [Hin|Hin].
    + left. symmetry. apply (process_symbol_own_symbol env symbol t r Hin).
    + right. destruct (result_of (process_symbol env symbol t)); [|destruct Hin].
      apply (IH _ r Hin).
Qed.

(** An order of the loop over [before ++ symbol :: after] comes from the
    turns for [before], from the turn for [symbol], or from the turns for
    [after]. *)
Lemma for_each_split symbol after before : forall t r,
  In r (submitted
          (events_of (for_each (before ++ symbol :: after) (process_symbol env) t))) ->
  In r (submitted (events_of (for_each before (process_symbol env) t)))
  \/ In r (submitted
             (events_of
                (process_symbol env symbol
                   (tick_of (for_each before (process_symbol env) t)))))
  \/ exists t', In r (submitted (events_of (for_each after (process_symbol env) t'))).
Proof.
  induction before as [|x before IH]; intros t r Hin.
  - cbn [app for_each] in Hin. rewrite submitted_bind in Hin.
    apply in_app_or in Hin. destruct Hin as [Hin|Hin].
    + right; left. exact Hin.
    + right; right. destruct (result_of (process_symbol env symbol t)); [|destruct Hin].
      eexists. exact Hin.
  - cbn [app for_each] in Hin |- *. rewrite submitted_bind in Hin.
    rewrite submitted_bind, tick_bind.
    apply in_app_or in Hin. destruct Hin as [Hin|Hin].
    + left. apply in_or_app. left. exact Hin.
    + destruct (result_of (process_symbol env x t)); [|destruct Hin].
      destruct (IH _ r Hin) as [H|[H|H]].
      * left. apply in_or_app. right. exact H.
      * right; left. exact H.
      * right; right. exact H.
Qed.

(** The orders of a turn of the loop are those of its loop over the
    symbols. *)
Lemma cycle_submitted symbols t r :
  In r (submitted (events_of (cycle env symbols t))) ->
  In r (submitted (events_of (for_each symbols (process_symbol env) (S t)))).
Proof.
  unfold cycle.
  rewrite submitted_bind. cbn [call result_of tick_of events_of fst snd].
  change (submitted [GetMarketClockData]) with (@nil OrderRequest). cbn [app].
  cbv zeta.
  destruct (negb (is_open (get_market_clock_data env t))); [intros []|].
  destruct (Z.leb _ 60); [intros []|].
  rewrite submitted_bind. cbn [print perform result_of tick_of events_of fst snd].
  change (submitted [Print _]) with (@nil OrderRequest). cbn [app].
  rewrite submitted_bind. intros Hin. apply in_app_or in Hin.
  destruct Hin as [Hin|Hin]; [exact Hin|].
  destruct (result_of (for_each symbols (process_symbol env) (S t))); destruct Hin.
Qed.

End Turn.

(** C5. When the positions re-fetched for a symbol hold that symbol, the
    loop submits nothing for it, whatever the signal: lines 123-201 submit
    nothing, the turn for the symbol submits nothing (the positions are the
    fourth answer it reads), and no order of the cycle is for the symbol
    when the symbol is listed once. *)
Theorem existing_position_blocks_orders (env : Env) (symbol : string) :
  (forall symbol_data trade_signal t,
     holds symbol (get_positions env (S t)) ->
     submitted (events_of (act_on_signal env symbol symbol_data trade_signal t)) = [])
  /\ (forall t,
        holds symbol (get_positions env (3 + t)) ->
        submitted (events_of (process_symbol env symbol t)) = [])
  /\ (forall before after t,
        ~ In symbol before -> ~ In symbol after ->
        holds symbol
          (get_positions env
             (3 + tick_of (for_each before (process_symbol env) (S t)))) ->
        forall r,
          In r (submitted (events_of (cycle env (before ++ symbol :: after) t))) ->
          order_symbol r <> symbol).
Proof.
  assert (Hturn : forall t, holds symbol (get_positions env (3 + t)) ->
                    submitted (events_of (process_symbol env symbol t)) = []).
  { intros t Hholds. rewrite process_symbol_run.
    destruct (fetch_historical_data env t symbol) as [[|row rest]|]; try reflexivity.
    cbv zeta. unfold events_of at 1. cbn [snd].
    change (FetchHistoricalData symbol :: ?l) with ([FetchHistoricalData symbol] ++ l).
    rewrite !submitted_app, submitted_update_buffer.
    destruct (actionable (generate_trade_signal env (S t) symbol)); [|reflexivity].
    rewrite (act_on_signal_holding env symbol _ _ (S (S t)) Hholds). reflexivity. }
  split; [|split].
  - intros symbol_data trade_signal t Hholds.
    rewrite (act_on_signal_holding env symbol _ _ t Hholds). reflexivity.
  - exact Hturn.
  - intros before after t Hbefore Hafter Hholds r Hin Hsym.
    apply cycle_submitted, for_each_split in Hin.
    destruct Hin as [Hin|[Hin|[t' Hin]]].
    + apply for_each_own_symbols in Hin. rewrite Hsym in Hin. contradiction.
    + rewrite (Hturn _ Hholds) in Hin. destruct Hin.
    + apply for_each_own_symbols in Hin. rewrite Hsym in Hin. contradiction.
Qed.

(** C5 with BUY signals and an open position in QQQ: the turn for QQQ
    submits nothing, and the cycle over SPY, QQQ and IWM trades SPY and IWM
    only. *)
Lemma existing_position_blocks_orders_witness :
  submitted (events_of (process_symbol (Scenario.holding ["QQQ"] "BUY") "QQQ" 0%nat)) = []
  /\ (forall r,
        In r (submitted
                (events_of
                   (cycle (Scenario.holding ["QQQ"] "BUY") (["SPY"] ++ "QQQ" :: ["IWM"]) 0%nat))) ->
        order_symbol r <> "QQQ")
  /\ map order_symbol
       (submitted
          (events_of (cycle (Scenario.holding ["QQQ"] "BUY") ["SPY"; "QQQ"; "IWM"] 0%nat)))
     = ["SPY"; "SPY"; "IWM"; "IWM"].
Proof.
  split; [|split].
  - apply (proj1 (proj2 (existing_position_blocks_orders
                           (Scenario.holding ["QQQ"] "BUY") "QQQ")) 0%nat).
    exists (Scenario.position "QQQ"). split; [left|]; reflexivity.
  - apply (proj2 (proj2 (existing_position_blocks_orders
                           (Scenario.holding ["QQQ"] "BUY") "QQQ")) ["SPY"] ["IWM"] 0%nat).
    + intros [H|[]]. discriminate H.
    + intros [H|[]]. discriminate H.
    + exists (Scenario.position "QQQ"). split; [left|]; reflexivity.
  - reflexivity.
Defined.

(** * Further properties of the order lifecycle *)

(** ** The polling loop, whatever the broker answers *)

Section WaitBounds.

Variable env : Env.
Variable order_id : OrderId.
Variable max_wait : nat.

(** A poll is answered by a filled order, a failed order, a pending order
    or an exception. *)
Lemma poll_cases t :
  (exists o, get_order_by_id env t order_id = Ok o /\ status o = FILLED)
  \/ (exists o, get_order_by_id env t order_id = Ok o /\ terminal_failure (status o))
  \/ (exists o, get_order_by_id env t order_id = Ok o /\ pending o)
  \/ (exists e, get_order_by_id env t order_id = Raise e).
Proof.
  destruct (get_order_by_id env t order_id) as [o|e].
  - destruct (OrderStatus_eqb (status o) FILLED) eqn:Ef.
    + left. exists o. split; [reflexivity|]. apply OrderStatus_eqb_eq. exact Ef.
    + destruct (failed_status (status o)) eqn:Et.
      * right; left. exists o. split; [reflexivity|]. apply failed_status_iff. exact Et.
      * right; right; left. exists o. split; [reflexivity|]. split.
        -- intro H. apply OrderStatus_eqb_eq in H. congruence.
        -- intro H. apply failed_status_iff in H. congruence.
  - right; right; right. exists e. reflexivity.
Qed.

Lemma wait_loop_bounded remaining : forall waited t,
  let run := wait_loop env order_id max_wait remaining waited t in
  (polls (events_of run) <= remaining)%nat
  /\ tick_of run = (t + polls (events_of run))%nat
  /\ (forall s, In s (sleeps (events_of run)) -> s = 1)
  /\ (List.length (sleeps (events_of run)) <= polls (events_of run))%nat.
Proof.
  induction remaining as [|remaining IH]; intros waited t; cbv zeta.
  - cbn. repeat split; try lia; try (intros s []).
  - destruct (poll_cases t) as [[o [Hp Hs]]|[[o [Hp Hs]]|[[o [Hp Hs]]|[e Hp]]]].
    + rewrite (wait_loop_returns env order_id max_wait _ _ _ _ _
                 (poll_once_filled env order_id max_wait waited t o Hp Hs)).
      cbn. repeat split; try lia; try (intros s []).
    + rewrite (wait_loop_returns env order_id max_wait _ _ _ _ _
                 (poll_once_failed env order_id max_wait waited t o Hp Hs)).
      cbn. repeat split; try lia; try (intros s []).
    + rewrite (wait_loop_pending env order_id max_wait _ _ _ o Hp Hs).
      destruct (IH (waited + 1)%nat (S t)) as [H1 [H2 [H3 H4]]].
      cbv zeta. unfold tick_of, events_of in *. cbn [fst snd app].
      unfold polls, sleeps in *. cbn [filter flat_map List.length app].
      repeat split; try lia.
      intros s [Hs'|Hs']; [symmetry; exact Hs'|apply H3; exact Hs'].
    + rewrite (wait_loop_returns env order_id max_wait _ _ _ _ _
                 (poll_once_raises env order_id max_wait waited t e Hp)).
      cbn. repeat split; try lia; try (intros s []).
Qed.

(** A fill that the loop returns was reported by the broker. *)
Lemma wait_loop_sound remaining : forall waited t filled,
  result_of (wait_loop env order_id max_wait remaining waited t) = Ok (Some filled) ->
  exists k o,
    (k < remaining)%nat
    /\ pending_before env order_id t k
    /\ get_order_by_id env (t + k) order_id = Ok o
    /\ status o = FILLED
    /\ filled_qty o = filled
    /\ polls (events_of (wait_loop env order_id max_wait remaining waited t)) = S k.
Proof.
  induction remaining as [|remaining IH]; intros waited t filled Hres.
  - discriminate Hres.
  - destruct (poll_cases t) as [[o [Hp Hs]]|[[o [Hp Hs]]|[[o [Hp Hs]]|[e Hp]]]].
    + rewrite (wait_loop_returns env order_id max_wait _ _ _ _ _
                 (poll_once_filled env order_id max_wait waited t o Hp Hs)) in Hres |- *.
      injection Hres as Hres.
      exists 0%nat, o. rewrite Nat.add_0_r.
      repeat split; try assumption; try lia.
      intros j Hj. lia.
    + rewrite (wait_loop_returns env order_id max_wait _ _ _ _ _
                 (poll_once_failed env order_id max_wait waited t o Hp Hs)) in Hres.
      discriminate Hres.
    + rewrite (wait_loop_pending env order_id max_wait _ _ _ o Hp Hs) in Hres |- *.
      cbv zeta in Hres |- *. unfold result_of in Hres at 1. cbn [fst] in Hres.
      destruct (IH _ _ _ Hres) as [k [o' [Hk [Hpend [Hp' [Hs' [Hq Hn]]]]]]].
      exists (S k), o'.
      replace (t + S k)%nat with (S t + k)%nat by lia.
      repeat split; try assumption; try lia.
      * intros j Hj. destruct j as [|j].
        -- exists o. rewrite Nat.add_0_r. split; assumption.
        -- destruct (Hpend j) as [o'' Ho'']; [lia|].
           exists o''. replace (t + S j)%nat with (S t + j)%nat by lia. exact Ho''.
      * unfold events_of at 1. cbn [snd]. unfold polls in *.
        cbn [app filter List.length]. rewrite Hn. reflexivity.
    + rewrite (wait_loop_returns env order_id max_wait _ _ _ _ _
                 (poll_once_raises env order_id max_wait waited t e Hp)) in Hres.
      discriminate Hres.
Qed.

End WaitBounds.

(** X1. Whatever the broker answers, [wait_for_order_fill] returns (it
    never raises), submits nothing, polls at most [max_wait] times, reads
    one answer per poll, sleeps one second at a time and at most once per
    poll: it never waits more than [max_wait] seconds. *)
Theorem wait_for_order_fill_bounded (env : Env) (order_id : OrderId) (max_wait t : nat) :
  let run := wait_for_order_fill env order_id max_wait t in
  (exists filled, result_of run = Ok filled)
  /\ submitted (events_of run) = []
  /\ (polls (events_of run) <= max_wait)%nat
  /\ tick_of run = (t + polls (events_of run))%nat
  /\ (forall s, In s (sleeps (events_of run)) -> s = 1)
  /\ (List.length (sleeps (events_of run)) <= polls (events_of run))%nat.
Proof.
  intros run. subst run.
  destruct (wait_for_order_fill_quiet env order_id max_wait t) as [Hr Hs].
  split; [exact Hr|]. split; [exact Hs|].
  apply (wait_loop_bounded env order_id max_wait max_wait 0%nat t).
Qed.

(** X2. A quantity returned by [wait_for_order_fill] was reported by the
    broker: some poll, among the first [max_wait], was answered with a
    FILLED order of that filled quantity, every poll before it was answered
    with a pending order, and that poll was the last one. *)
Theorem wait_for_order_fill_sound (env : Env) (order_id : OrderId) (max_wait t : nat)
    (filled : Q) :
  result_of (wait_for_order_fill env order_id max_wait t) = Ok (Some filled) ->
  exists k o,
    (k < max_wait)%nat
    /\ pending_before env order_id t k
    /\ get_order_by_id env (t + k) order_id = Ok o
    /\ status o = FILLED
    /\ filled_qty o = filled
    /\ polls (events_of (wait_for_order_fill env order_id max_wait t)) = S k.
Proof. apply wait_loop_sound. Qed.

(** X2 on an order that is filled for 7 shares at the third poll. *)
Lemma wait_for_order_fill_sound_witness :
  exists k o,
    (k < 10)%nat
    /\ pending_before (Scenario.fills_at 2) "entry-1" 0 k
    /\ get_order_by_id (Scenario.fills_at 2) (0 + k) "entry-1" = Ok o
    /\ status o = FILLED
    /\ filled_qty o = 7
    /\ polls (events_of (wait_for_order_fill (Scenario.fills_at 2) "entry-1" 10 0%nat)) = S k.
Proof.
  apply (wait_for_order_fill_sound (Scenario.fills_at 2) "entry-1" 10 0%nat 7).
  reflexivity.
Defined.

(** ** Runs of composite computations *)

Lemma run_eta {A} (x : Result A * nat * list Event) :
  x = (result_of x, tick_of x, events_of x).
Proof. destruct x as [[r t] es]. reflexivity. Qed.

Lemma run_with_result {A} (x : Result A * nat * list Event) r :
  result_of x = r -> x = (r, tick_of x, events_of x).
Proof. intros <-. apply run_eta. Qed.

Lemma bind_ok {A B} (m : M A) (f : A -> M B) t a t1 es1 :
  m t = (Ok a, t1, es1) ->
  bind m f t = (result_of (f a t1), tick_of (f a t1), es1 ++ events_of (f a t1)).
Proof.
  intros H. unfold bind. rewrite H. destruct (f a t1) as [[r t2] es2]. reflexivity.
Qed.

Lemma bind_raise {A B} (m : M A) (f : A -> M B) t e t1 es1 :
  m t = (Raise e, t1, es1) -> bind m f t = (Raise e, t1, es1).
Proof. intros H. unfold bind. rewrite H. reflexivity. Qed.

Lemma try_except_ok {A} (m : M A) (h : exn -> M A) t a t1 es1 :
  m t = (Ok a, t1, es1) -> try_except m h t = (Ok a, t1, es1).
Proof. intros H. unfold try_except. rewrite H. reflexivity. Qed.

Lemma try_except_raise {A} (m : M A) (h : exn -> M A) t e t1 es1 :
  m t = (Raise e, t1, es1) ->
  try_except m h t = (result_of (h e t1), tick_of (h e t1), es1 ++ events_of (h e t1)).
Proof.
  intros H. unfold try_except. rewrite H. destruct (h e t1) as [[r t2] es2]. reflexivity.
Qed.

Lemma events_bind {A B} (m : M A) (f : A -> M B) t :
  events_of (bind m f t) =
    events_of (m t) ++
    match result_of (m t) with
    | Ok a => events_of (f a (tick_of (m t)))
    | Raise _ => []
    end.
Proof.
  unfold bind, events_of, result_of, tick_of.
  destruct (m t) as [[[a|e] t1] es1]; cbn [fst snd].
  - destruct (f a t1) as [[r t2] es2]. reflexivity.
  - symmetry. apply app_nil_r.
Qed.

(** ** An exception of the account endpoint *)

(** X3. The buying-power validation runs before the [try] of
    [place_market_order] and of [place_trailing_stop_order]: an exception
    raised by [client.get_account] is raised to their caller, after that one
    call and with nothing submitted. *)
Theorem account_error_escapes (env : Env) (symbol : string) (qty : Q) (side : string)
    (t : nat) (e : exn) :
  get_account env t = Raise e ->
  (forall stop_loss_price take_profit_price,
     place_market_order env symbol qty side stop_loss_price take_profit_price t =
       (Raise e, S t, [GetAccount]))
  /\ (forall trail_price trail_percent,
        place_trailing_stop_order env symbol qty side trail_price trail_percent t =
          (Raise e, S t, [GetAccount])).
Proof.
  intros Hacct.
  pose proof (validate_trade_raises env symbol qty side t e Hacct) as Hv.
  split; intros.
  - apply place_market_order_validation_raises. exact Hv.
  - apply place_trailing_stop_order_validation_raises. exact Hv.
Qed.

(** X3 on a broker whose account endpoint is down. *)
Lemma account_error_escapes_witness :
  place_market_order (Session.account_down_at 0) "SPY" 10 "buy" None (Some 105) 0%nat =
    (Raise "account unavailable", 1%nat, [GetAccount])
  /\ place_trailing_stop_order (Session.account_down_at 0) "SPY" 7 "buy" (Some 2) None 0%nat =
       (Raise "account unavailable", 1%nat, [GetAccount]).
Proof.
  destruct (account_error_escapes (Session.account_down_at 0) "SPY" 10 "buy" 0%nat
              "account unavailable" eq_refl) as [H1 _].
  destruct (account_error_escapes (Session.account_down_at 0) "SPY" 7 "buy" 0%nat
              "account unavailable" eq_refl) as [_ H2].
  split; [apply H1|apply H2].
Defined.

(** ** The [try] around a trade *)

Section TradeIsolation.

Variable env : Env.

Lemma protect_entry_run symbol trade_signal risk_params o t :
  let wait := wait_for_order_fill env (id o) 10 t in
  protect_entry env symbol trade_signal risk_params o t =
    match result_of wait with
    | Ok (Some filled) =>
        if (Py.truthy filled && Py.ltb 0 filled)%bool then
          let stop :=
            place_trailing_stop_order env symbol filled (Py.lower trade_signal)
              (Some (trail_amount risk_params)) None (tick_of wait) in
          match result_of stop with
          | Ok (Some _) =>
              (Ok tt, tick_of stop,
               Print (ExecutedMarketOrder o) :: events_of wait ++ events_of stop
               ++ [Print (TrailingStopAttached symbol (trail_amount risk_params))])
          | Ok None =>
              (Ok tt, tick_of stop,
               Print (ExecutedMarketOrder o) :: events_of wait ++ events_of stop
               ++ [Print (TrailingStopNotPlaced symbol)])
          | Raise e =>
              (Raise e, tick_of stop,
               Print (ExecutedMarketOrder o) :: events_of wait ++ events_of stop)
          end
        else
          (Ok tt, tick_of wait,
           Print (ExecutedMarketOrder o) :: events_of wait
           ++ [Print (SkippingTrailingStop symbol)])
    | _ =>
        (Ok tt, tick_of wait,
         Print (ExecutedMarketOrder o) :: events_of wait
         ++ [Print (SkippingTrailingStop symbol)])
    end.
Proof.
  intros wait. unfold protect_entry.
  rewrite (bind_ok _ _ t tt t [Print (ExecutedMarketOrder o)] eq_refl).
  cbv zeta. fold wait.
  destruct (wait_for_order_fill_quiet env (id o) 10 t) as [[filled Hr] _].
  fold wait in Hr. rewrite Hr.
  rewrite (bind_ok _ _ t filled (tick_of wait) (events_of wait)).
  2:{ rewrite (run_eta (wait_for_order_fill env (id o) 10 t)). fold wait.
      rewrite Hr. reflexivity. }
  destruct filled as [filled|]; [|reflexivity].
  destruct (Py.truthy filled && Py.ltb 0 filled)%bool; [|reflexivity].
  set (stop := place_trailing_stop_order env symbol filled (Py.lower trade_signal)
                 (Some (trail_amount risk_params)) None (tick_of wait)).
  destruct (result_of stop) as [[r|]|e] eqn:Hs.
  - rewrite (bind_ok _ _ (tick_of wait) (Some r) (tick_of stop) (events_of stop)).
    2:{ rewrite <- Hs. apply run_eta. }
    cbn [print perform result_of tick_of events_of fst snd app]. reflexivity.
  - rewrite (bind_ok _ _ (tick_of wait) None (tick_of stop) (events_of stop)).
    2:{ rewrite <- Hs. apply run_eta. }
    cbn [print perform result_of tick_of events_of fst snd app]. reflexivity.
  - rewrite (bind_raise _ _ (tick_of wait) e (tick_of stop) (events_of stop)).
    2:{ rewrite <- Hs. apply run_eta. }
    cbn [result_of tick_of events_of fst snd app]. reflexivity.
Qed.

Lemma execute_trade_returns symbol trade_signal risk_params t :
  result_of (execute_trade env symbol trade_signal risk_params t) = Ok tt.
Proof.
  unfold execute_trade, try_except, result_of.
  destruct (bind _ _ t) as [[[[]|e] t1] es1]; reflexivity.
Qed.

End TradeIsolation.

(** X4. The [try] of lines 156-201 isolates a trade: [execute_trade] never
    raises.  An exception of [client.get_account] at the validation of the
    entry is printed and nothing is submitted; raised at the validation of
    the trailing stop of a filled entry, it is printed as well and the trade
    ends with its entry submitted and no trailing stop. *)
Theorem execute_trade_isolates_failures (env : Env) (symbol trade_signal : string)
    (risk_params : RiskParams) (t : nat) :
  let entry :=
    place_market_order env symbol (inject_Z (quantity risk_params))
      (Py.lower trade_signal) None (Some (take_profit risk_params)) t in
  let run := execute_trade env symbol trade_signal risk_params t in
  result_of run = Ok tt
  /\ (forall e, get_account env t = Raise e ->
        run = (Ok tt, S t, [GetAccount; Print (OrderPlacementError symbol e)]))
  /\ (forall o filled e,
        result_of entry = Ok (Some o) ->
        let wait := wait_for_order_fill env (id o) 10 (tick_of entry) in
        result_of wait = Ok (Some filled) -> 0 < filled ->
        get_account env (tick_of wait) = Raise e ->
        submitted (events_of run) =
          [MarketReq
             (market_order_request symbol (inject_Z (quantity risk_params))
                (Py.lower trade_signal) None (Some (take_profit risk_params)))]
        /\ exists before,
             events_of run = before ++ [GetAccount; Print (OrderPlacementError symbol e)]).
Proof.
  intros entry run.
  split; [apply execute_trade_returns|]. split.
  - intros e Hacct. subst run. unfold execute_trade.
    erewrite try_except_raise.
    2:{ apply bind_raise. apply place_market_order_validation_raises.
        apply validate_trade_raises. exact Hacct. }
    reflexivity.
  - intros o filled e Hentry wait Hwait Hpos Hacct.
    pose proof (place_trailing_stop_order_validation_raises env symbol filled
                  (Py.lower trade_signal) (Some (trail_amount risk_params)) None
                  (tick_of wait) e
                  (validate_trade_raises env symbol filled (Py.lower trade_signal)
                     (tick_of wait) e Hacct)) as Hstop.
    split.
    + subst run. rewrite execute_trade_submitted. fold entry.
      rewrite Hentry, protect_entry_submitted. fold wait. rewrite Hwait.
      rewrite (proj2 (usable_fill_iff filled) Hpos), Hstop.
      unfold entry. rewrite (place_market_order_acknowledged env _ _ _ _ _ _ _ Hentry).
      reflexivity.
    + subst run. unfold execute_trade.
      erewrite try_except_raise.
      2:{ erewrite bind_ok.
          2:{ fold entry. rewrite (run_eta entry), Hentry. reflexivity. }
          cbv beta iota. fold entry.
          rewrite protect_entry_run. cbv zeta. fold wait. rewrite Hwait.
          rewrite (proj2 (usable_fill_iff filled) Hpos), Hstop.
          cbn [result_of tick_of events_of fst snd]. reflexivity. }
      cbn [print perform result_of tick_of events_of fst snd].
      exists (events_of entry ++ Print (ExecutedMarketOrder o) :: events_of wait).
      rewrite <- !app_assoc. cbn [app]. rewrite <- app_assoc. reflexivity.
Qed.

(** X4 on a broker whose account endpoint is down from the start, and on
    one where it goes down after the entry has filled. *)
Lemma execute_trade_isolates_failures_witness :
  execute_trade (Session.account_down_at 0) "SPY" "BUY" Scenario.params 0%nat =
    (Ok tt, 1%nat, [GetAccount; Print (OrderPlacementError "SPY" "account unavailable")])
  /\ (submitted
        (events_of (execute_trade (Session.account_down_at 3) "SPY" "BUY" Scenario.params 0%nat))
      = [MarketReq (market_order_request "SPY" 10 "buy" None (Some 105))]
      /\ exists before,
           events_of (execute_trade (Session.account_down_at 3) "SPY" "BUY" Scenario.params 0%nat)
           = before ++ [GetAccount; Print (OrderPlacementError "SPY" "account unavailable")]).
Proof.
  split.
  - apply (proj1 (proj2 (execute_trade_isolates_failures (Session.account_down_at 0)
                           "SPY" "BUY" Scenario.params 0%nat))).
    reflexivity.
  - apply (proj2 (proj2 (execute_trade_isolates_failures (Session.account_down_at 3)
                           "SPY" "BUY" Scenario.params 0%nat))
             (Scenario.ack (MarketReq (market_order_request "SPY" 10 "buy" None (Some 105))))
             7 "account unavailable").
    + reflexivity.
    + reflexivity.
    + reflexivity.
    + reflexivity.
Defined.

(** ** What a computation can emit *)

Lemma events_try_except {A} (m : M A) (h : exn -> M A) t :
  events_of (try_except m h t) =
    events_of (m t) ++
    match result_of (m t) with
    | Ok _ => []
    | Raise e => events_of (h e (tick_of (m t)))
    end.
Proof.
  unfold try_except, events_of, result_of, tick_of.
  destruct (m t) as [[[a|e] t1] es1]; cbn [fst snd].
  - symmetry. apply app_nil_r.
  - destruct (h e t1) as [[r t2] es2]. reflexivity.
Qed.

Section EmitsOnly.

Variable P : Event -> Prop.

Lemma emits_only_ret {A} (a : A) : emits_only P (ret a).
Proof. intros t e []. Qed.

Lemma emits_only_lift {A} (r : Result A) : emits_only P (lift r).
Proof. intros t e []. Qed.

Lemma emits_only_call {A} (ev : Event) (answer : nat -> Result A) :
  P ev -> emits_only P (call ev answer).
Proof. intros H t e [<-|[]]. exact H. Qed.

Lemma emits_only_perform (ev : Event) : P ev -> emits_only P (perform ev).
Proof. intros H t e [<-|[]]. exact H. Qed.

Lemma emits_only_bind {A B} (m : M A) (f : A -> M B) :
  emits_only P m -> (forall a, emits_only P (f a)) -> emits_only P (bind m f).
Proof.
  intros Hm Hf t e Hin. rewrite events_bind in Hin.
  apply in_app_or in Hin. destruct Hin as [Hin|Hin].
  - apply (Hm t e Hin).
  - destruct (result_of (m t)) as [a|x]; [|destruct Hin].
    apply (Hf a _ e Hin).
Qed.

Lemma emits_only_try_except {A} (m : M A) (h : exn -> M A) :
  emits_only P m -> (forall x, emits_only P (h x)) -> emits_only P (try_except m h).
Proof.
  intros Hm Hh t e Hin. rewrite events_try_except in Hin.
  apply in_app_or in Hin. destruct Hin as [Hin|Hin].
  - apply (Hm t e Hin).
  - destruct (result_of (m t)) as [a|x]; [destruct Hin|].
    apply (Hh x _ e Hin).
Qed.

Lemma emits_only_for_each {A} (l : list A) (body : A -> M unit) :
  (forall x, In x l -> emits_only P (body x)) -> emits_only P (for_each l body).
Proof.
  induction l as [|x rest IH]; intros H; cbn [for_each].
  - apply emits_only_ret.
  - apply emits_only_bind.
    + apply H. left; reflexivity.
    + intros _. apply IH. intros y Hy. apply H. right; exact Hy.
Qed.

End EmitsOnly.

Lemma emits_only_weaken {A} (P R : Event -> Prop) (m : M A) :
  (forall e, P e -> R e) -> emits_only P m -> emits_only R m.
Proof. intros H Hm t e Hin. apply H. apply (Hm t e Hin). Qed.

(** Splits the footprint of a computation along its structure. *)
Ltac footprint :=
  repeat first
    [ apply emits_only_ret
    | apply emits_only_lift
    | apply emits_only_call
    | apply emits_only_perform
    | apply emits_only_bind
    | apply emits_only_try_except
    | progress intros
    | match goal with
      | |- emits_only _ (if ?b then _ else _) => destruct b
      | |- emits_only _ (match ?x with _ => _ end) => destruct x
      end ];
  try exact I.

Section Footprints.

Variable env : Env.

Lemma validate_trade_footprint symbol qty side :
  emits_only client_event (validate_trade env symbol qty side).
Proof. unfold validate_trade, print. footprint. Qed.

Lemma place_market_order_footprint symbol qty side sl tp :
  emits_only client_event (place_market_order env symbol qty side sl tp).
Proof.
  unfold place_market_order, print.
  apply emits_only_bind; [apply validate_trade_footprint|]. footprint.
Qed.

Lemma place_trailing_stop_order_footprint symbol qty side tp tpc :
  emits_only client_event (place_trailing_stop_order env symbol qty side tp tpc).
Proof.
  unfold place_trailing_stop_order, print. cbv zeta.
  apply emits_only_bind; [apply validate_trade_footprint|]. footprint.
Qed.

Lemma wait_for_order_fill_footprint order_id max_wait :
  emits_only client_event (wait_for_order_fill env order_id max_wait).
Proof.
  unfold wait_for_order_fill. generalize 0%nat. generalize max_wait at 2.
  intros remaining. induction remaining as [|remaining IH]; intros waited; cbn [wait_loop].
  - unfold print. footprint.
  - apply emits_only_bind.
    + unfold poll_once, print. footprint.
    + intros [filled|]; [apply emits_only_ret|apply IH].
Qed.

Lemma execute_trade_footprint symbol trade_signal risk_params :
  emits_only client_event (execute_trade env symbol trade_signal risk_params).
Proof.
  unfold execute_trade, print.
  apply emits_only_try_except; [|footprint].
  apply emits_only_bind; [apply place_market_order_footprint|].
  intros [o|]; [|footprint].
  unfold protect_entry, print.
  apply emits_only_bind; [footprint|]. intros _. cbv zeta.
  apply emits_only_bind; [apply wait_for_order_fill_footprint|].
  intros [filled|]; [|footprint].
  destruct (Py.truthy filled && Py.ltb 0 filled)%bool; [|footprint].
  apply emits_only_bind; [apply place_trailing_stop_order_footprint|]. footprint.
Qed.

Lemma client_event_symbol_event symbol e : client_event e -> symbol_event symbol e.
Proof. destruct e; cbn; intros H; try exact I; destruct H. Qed.

Lemma process_symbol_footprint symbol :
  emits_only (symbol_event symbol) (process_symbol env symbol).
Proof.
  unfold process_symbol.
  apply emits_only_bind; [apply emits_only_call; reflexivity|].
  intros [[|row rest]|]; [unfold print; footprint| |unfold print; footprint].
  apply emits_only_bind.
  { apply emits_only_for_each. intros x _. apply emits_only_perform. reflexivity. }
  intros _. apply emits_only_bind; [apply emits_only_call; reflexivity|].
  intros trade_signal. apply emits_only_bind; [unfold print; footprint|]. intros _.
  destruct (actionable trade_signal); [|footprint].
  unfold act_on_signal, print.
  apply emits_only_bind; [footprint|]. intros account_info.
  apply emits_only_bind; [footprint|]. intros open_positions.
  destruct (has_position symbol open_positions); [footprint|]. cbv zeta.
  apply emits_only_bind; [footprint|]. intros _.
  apply emits_only_bind; [footprint|]. intros risk_params.
  apply emits_only_bind; [footprint|]. intros _.
  destruct (Z.leb (quantity risk_params) 0); [footprint|].
  apply emits_only_bind; [footprint|]. intros _.
  apply emits_only_bind; [footprint|]. intros _.
  apply (emits_only_weaken client_event); [apply client_event_symbol_event|].
  apply execute_trade_footprint.
Qed.

End Footprints.

(** ** The gates before a trade *)

Section Gates.

Variable env : Env.

(** Lines 123-201, by the positions, the risk parameters and the trade. *)
Lemma act_on_signal_run symbol symbol_data trade_signal t :
  act_on_signal env symbol symbol_data trade_signal t =
    let entry_price := last_close symbol_data in
    if has_position symbol (get_positions env (S t)) then
      (Ok tt, S (S t),
       [GetAccountDetails; GetPositions; Print (SkippingOpenPosition symbol)])
    else
      match calculate_trade_parameters env symbol_data entry_price
              (get_account_details env t) (get_positions env (S t)) trade_signal with
      | Raise e =>
          (Raise e, S (S t),
           [GetAccountDetails; GetPositions; Print (EntryPrice symbol entry_price)])
      | Ok risk_params =>
          if Z.leb (quantity risk_params) 0 then
            (Ok tt, S (S t),
             [GetAccountDetails; GetPositions; Print (EntryPrice symbol entry_price);
              Print (CalculatedRiskParameters risk_params);
              Print (SkippingZeroQuantity symbol)])
          else
            let trade := execute_trade env symbol trade_signal risk_params (S (S t)) in
            (result_of trade, tick_of trade,
             [GetAccountDetails; GetPositions; Print (EntryPrice symbol entry_price);
              Print (CalculatedRiskParameters risk_params);
              Print (TradeSummary trade_signal entry_price (quantity risk_params)
                       (entry_price * inject_Z (quantity risk_params)));
              Print (PlacingOrder trade_signal symbol)]
             ++ events_of trade)
      end.
Proof.
  unfold act_on_signal, bind, call, lift, print, perform. cbv zeta.
  destruct (has_position symbol (get_positions env (S t))); [reflexivity|].
  destruct (calculate_trade_parameters env symbol_data (last_close symbol_data)
              (get_account_details env t) (get_positions env (S t)) trade_signal)
    as [risk_params|e]; [|reflexivity].
  destruct (Z.leb (quantity risk_params) 0); [reflexivity|].
  destruct (execute_trade env symbol trade_signal risk_params (S (S t))) as [[r t'] es].
  reflexivity.
Qed.

Lemma update_buffer_no_account symbol symbol_data :
  ~ In GetAccount (map (UpdateBuffer symbol) symbol_data).
Proof.
  induction symbol_data as [|row rest IH]; [intros []|].
  intros [H|H]; [discriminate H|exact (IH H)].
Qed.

(** The turn for a symbol reaches the trade client only through every gate. *)
Lemma process_symbol_trade_inv symbol t :
  In GetAccount (events_of (process_symbol env symbol t))
  \/ submitted (events_of (process_symbol env symbol t)) <> [] ->
  exists symbol_data risk_params,
    let trade_signal := generate_trade_signal env (S t) symbol in
    fetch_historical_data env t symbol = Some symbol_data
    /\ symbol_data <> []
    /\ actionable trade_signal = true
    /\ ~ holds symbol (get_positions env (3 + t))
    /\ calculate_trade_parameters env symbol_data (last_close symbol_data)
         (get_account_details env (2 + t)) (get_positions env (3 + t)) trade_signal
       = Ok risk_params
    /\ (0 < quantity risk_params)%Z
    /\ submitted (events_of (process_symbol env symbol t)) =
         submitted (events_of (execute_trade env symbol trade_signal risk_params (4 + t)%nat)).
Proof.
  rewrite process_symbol_run.
  destruct (fetch_historical_data env t symbol) as [[|row rest]|] eqn:Hfetch.
  - intros [H|H]; [|contradiction H; reflexivity].
    cbn in H. destruct H as [H|[H|[]]]; discriminate H.
  - cbv zeta.
    set (trade_signal := generate_trade_signal env (S t) symbol).
    destruct (actionable trade_signal) eqn:Hact.
    + rewrite act_on_signal_run. cbv zeta.
      change (S (S (S t))) with (3 + t)%nat. change (S (S t)) with (2 + t)%nat.
      destruct (has_position symbol (get_positions env (3 + t))) eqn:Hpos.
      * intros [H|H]; exfalso.
        -- unfold events_of in H. cbn [snd] in H.
           destruct H as [H|H]; [discriminate H|].
           apply in_app_or in H. destruct H as [H|H].
           ++ exact (update_buffer_no_account _ _ H).
           ++ cbn in H. repeat (destruct H as [H|H]; [discriminate H|]). exact H.
        -- apply H. unfold events_of. cbn [snd].
           change (FetchHistoricalData symbol :: ?l) with ([FetchHistoricalData symbol] ++ l).
           rewrite !submitted_app, submitted_update_buffer. reflexivity.
      * destruct (calculate_trade_parameters env (row :: rest) (last_close (row :: rest))
                    (get_account_details env (2 + t)) (get_positions env (3 + t))
                    trade_signal) as [risk_params|e] eqn:Hcalc.
        -- destruct (Z.leb (quantity risk_params) 0) eqn:Hq.
           ++ intros [H|H]; exfalso.
              ** unfold events_of in H. cbn [snd] in H.
                 destruct H as [H|H]; [discriminate H|].
                 apply in_app_or in H. destruct H as [H|H].
                 --- exact (update_buffer_no_account _ _ H).
                 --- cbn in H. repeat (destruct H as [H|H]; [discriminate H|]). exact H.
              ** apply H. unfold events_of. cbn [snd].
                 change (FetchHistoricalData symbol :: ?l)
                   with ([FetchHistoricalData symbol] ++ l).
                 rewrite !submitted_app, submitted_update_buffer. reflexivity.
           ++ intros _. exists (row :: rest), risk_params.
              split; [reflexivity|]. split; [discriminate|]. split; [reflexivity|].
              split.
              { intro Hh. apply has_position_holds in Hh. congruence. }
              split; [exact Hcalc|]. split.
              { apply Z.leb_gt in Hq. exact Hq. }
              unfold events_of at 1. cbn [snd].
              change (FetchHistoricalData symbol :: ?l)
                with ([FetchHistoricalData symbol] ++ l).
              rewrite !submitted_app, submitted_update_buffer.
              unfold events_of at 1. cbn [snd]. rewrite submitted_app. reflexivity.
        -- intros [H|H]; exfalso.
           ++ unfold events_of in H. cbn [snd] in H.
              destruct H as [H|H]; [discriminate H|].
              apply in_app_or in H. destruct H as [H|H].
              ** exact (update_buffer_no_account _ _ H).
              ** cbn in H. repeat (destruct H as [H|H]; [discriminate H|]). exact H.
           ++ apply H. unfold events_of. cbn [snd].
              change (FetchHistoricalData symbol :: ?l)
                with ([FetchHistoricalData symbol] ++ l).
              rewrite !submitted_app, submitted_update_buffer. reflexivity.
    + intros [H|H]; exfalso.
      * unfold events_of in H. cbn [snd] in H.
        destruct H as [H|H]; [discriminate H|].
        apply in_app_or in H. destruct H as [H|H].
        -- exact (update_buffer_no_account _ _ H).
        -- cbn in H. repeat (destruct H as [H|H]; [discriminate H|]). exact H.
      * apply H. unfold events_of. cbn [snd].
        change (FetchHistoricalData symbol :: ?l) with ([FetchHistoricalData symbol] ++ l).
        rewrite !submitted_app, submitted_update_buffer. reflexivity.
  - intros [H|H]; [|contradiction H; reflexivity].
    cbn in H. destruct H as [H|[H|[]]]; discriminate H.
Qed.

End Gates.

(** X5. The turn of the loop for a symbol calls the trade client, and so
    submits an order, only when every gate is passed: the symbol has data,
    its signal is BUY or SELL, the positions re-fetched after the signal do
    not hold it, and the risk manager, run on that data, on its last close,
    on the account and the positions re-fetched after the signal and on the
    signal, returns a positive quantity.  The orders of the turn are then
    those of the trade with these parameters. *)
Theorem trade_only_after_gates (env : Env) (symbol : string) (t : nat) :
  In GetAccount (events_of (process_symbol env symbol t))
  \/ submitted (events_of (process_symbol env symbol t)) <> [] ->
  exists symbol_data risk_params,
    let trade_signal := generate_trade_signal env (S t) symbol in
    fetch_historical_data env t symbol = Some symbol_data
    /\ symbol_data <> []
    /\ actionable trade_signal = true
    /\ ~ holds symbol (get_positions env (3 + t))
    /\ calculate_trade_parameters env symbol_data (last_close symbol_data)
         (get_account_details env (2 + t)) (get_positions env (3 + t)) trade_signal
       = Ok risk_params
    /\ (0 < quantity risk_params)%Z
    /\ submitted (events_of (process_symbol env symbol t)) =
         submitted (events_of (execute_trade env symbol trade_signal risk_params (4 + t)%nat)).
Proof. apply process_symbol_trade_inv. Qed.

(** X5 on a BUY signal for SPY with a funded account and no position. *)
Lemma trade_only_after_gates_witness :
  exists symbol_data risk_params,
    fetch_historical_data (Scenario.funded 5000) 0 "SPY" = Some symbol_data
    /\ symbol_data <> []
    /\ actionable (generate_trade_signal (Scenario.funded 5000) 1 "SPY") = true
    /\ ~ holds "SPY" (get_positions (Scenario.funded 5000) (3 + 0))
    /\ calculate_trade_parameters (Scenario.funded 5000) symbol_data (last_close symbol_data)
         (get_account_details (Scenario.funded 5000) (2 + 0))
         (get_positions (Scenario.funded 5000) (3 + 0))
         (generate_trade_signal (Scenario.funded 5000) 1 "SPY")
       = Ok risk_params
    /\ (0 < quantity risk_params)%Z
    /\ submitted (events_of (process_symbol (Scenario.funded 5000) "SPY" 0%nat)) =
         submitted
           (events_of
              (execute_trade (Scenario.funded 5000) "SPY"
                 (generate_trade_signal (Scenario.funded 5000) 1 "SPY") risk_params
                 (4 + 0)%nat)).
Proof.
  apply (trade_only_after_gates (Scenario.funded 5000) "SPY" 0%nat).
  right. intro H. discriminate H.
Defined.

(** ** The orders of a trade and of a turn *)

Section Orders.

Variable env : Env.

(** A trade submits nothing, its entry, or its entry and then the trailing
    stop for a positive filled quantity. *)
Lemma execute_trade_orders symbol trade_signal risk_params t :
  let entry :=
    market_order_request symbol (inject_Z (quantity risk_params))
      (Py.lower trade_signal) None (Some (take_profit risk_params)) in
  let orders := submitted (events_of (execute_trade env symbol trade_signal risk_params t)) in
  orders = []
  \/ orders = [MarketReq entry]
  \/ exists filled,
       0 < filled
       /\ orders =
            [MarketReq entry;
             TrailingReq
               (trailing_stop_request symbol filled (Py.lower trade_signal)
                  (Some (trail_amount risk_params)) None)].
Proof.
  intros entry orders. subst orders.
  rewrite execute_trade_submitted.
  set (placed := place_market_order env symbol (inject_Z (quantity risk_params))
                   (Py.lower trade_signal) None (Some (take_profit risk_params)) t).
  destruct (result_of placed) as [[o|]|e] eqn:Hplaced.
  - unfold placed. rewrite (place_market_order_acknowledged env _ _ _ _ _ _ _ Hplaced).
    fold placed entry. rewrite protect_entry_submitted.
    destruct (result_of (wait_for_order_fill env (id o) 10 (tick_of placed)))
      as [[filled|]|e]; try (right; left; reflexivity).
    destruct (Py.truthy filled && Py.ltb 0 filled)%bool eqn:Hfill;
      [|right; left; reflexivity].
    apply usable_fill_iff in Hfill.
    destruct (place_trailing_stop_order_submits env symbol filled (Py.lower trade_signal)
                (Some (trail_amount risk_params)) None
                (tick_of (wait_for_order_fill env (id o) 10 (tick_of placed))))
      as [H|H]; rewrite H.
    + right; left. reflexivity.
    + right; right. exists filled. split; [exact Hfill|reflexivity].
  - rewrite app_nil_r.
    destruct (place_market_order_submits env symbol (inject_Z (quantity risk_params))
                (Py.lower trade_signal) None (Some (take_profit risk_params)) t) as [H|H];
      fold placed in H; rewrite H; [left|right; left]; reflexivity.
  - rewrite app_nil_r.
    destruct (place_market_order_submits env symbol (inject_Z (quantity risk_params))
                (Py.lower trade_signal) None (Some (take_profit risk_params)) t) as [H|H];
      fold placed in H; rewrite H; [left|right; left]; reflexivity.
Qed.

Lemma paired_app a b : paired a -> paired b -> paired (a ++ b).
Proof.
  intros Ha Hb. induction Ha as [|m rest Hrest IH|m s rest Hex Hrest IH]; cbn [app].
  - exact Hb.
  - apply paired_entry. exact IH.
  - apply paired_exit; assumption.
Qed.

Lemma execute_trade_paired symbol trade_signal risk_params t :
  paired (submitted (events_of (execute_trade env symbol trade_signal risk_params t))).
Proof.
  destruct (execute_trade_orders symbol trade_signal risk_params t)
    as [H|[H|[filled [_ H]]]]; rewrite H.
  - apply paired_nil.
  - apply paired_entry, paired_nil.
  - apply paired_exit; [|apply paired_nil].
    split; [reflexivity|].
    cbn [ts_side mo_side trailing_stop_request market_order_request].
    destruct (String.eqb (Py.lower (Py.lower trade_signal)) "buy"); reflexivity.
Qed.

Lemma process_symbol_paired symbol t :
  paired (submitted (events_of (process_symbol env symbol t))).
Proof.
  destruct (submitted (events_of (process_symbol env symbol t))) as [|r rest] eqn:Hs.
  - apply paired_nil.
  - destruct (process_symbol_trade_inv env symbol t) as [df [rp [_ [_ [_ [_ [_ [_ H]]]]]]]].
    { right. rewrite Hs. discriminate. }
    rewrite <- Hs, H. apply execute_trade_paired.
Qed.

Lemma for_each_paired symbols : forall t,
  paired (submitted (events_of (for_each symbols (process_symbol env) t))).
Proof.
  induction symbols as [|symbol rest IH]; intros t; cbn [for_each].
  - apply paired_nil.
  - rewrite submitted_bind. apply paired_app; [apply process_symbol_paired|].
    destruct (result_of (process_symbol env symbol t)); [apply IH|apply paired_nil].
Qed.

(** An order of the loop over the symbols is an order of the trade of one
    of them, made on a BUY or SELL signal for a positive quantity. *)
Lemma for_each_trade_inv symbols : forall t r,
  In r (submitted (events_of (for_each symbols (process_symbol env) t))) ->
  exists symbol trade_signal risk_params t',
    In symbol symbols
    /\ actionable trade_signal = true
    /\ (0 < quantity risk_params)%Z
    /\ In r (submitted (events_of (execute_trade env symbol trade_signal risk_params t'))).
Proof.
  induction symbols as [|symbol rest IH]; intros t r Hin.
  - destruct Hin.
  - cbn [for_each] in Hin. rewrite submitted_bind in Hin.
    apply in_app_or in Hin. destruct Hin as [Hin|Hin].
    + destruct (process_symbol_trade_inv env symbol t)
        as [df [rp [_ [_ [Hact [_ [_ [Hq H]]]]]]]].
      { right. intro E. rewrite E in Hin. destruct Hin. }
      rewrite H in Hin.
      exists symbol, (generate_trade_signal env (S t) symbol), rp, (4 + t)%nat.
      repeat split; try assumption. left; reflexivity.
    + destruct (result_of (process_symbol env symbol t)); [|destruct Hin].
      destruct (IH _ r Hin) as [s [sig [rp [t' [Hs H]]]]].
      exists s, sig, rp, t'. split; [right; exact Hs|exact H].
Qed.

End Orders.

(** ** The three phases of a turn *)

(** The test of line 92 holds exactly under 61 minutes. *)
Lemma flatten_test_iff time_until_close :
  Z.leb (Py.int (time_until_close / 60)) 60 = true <-> time_until_close < 3660.
Proof.
  rewrite Z.leb_le. unfold Py.int.
  assert (Hdiv : time_until_close / 60 < 61 <-> time_until_close < 3660).
  { split; intros H.
    - apply Qnot_le_lt. intro Hle. apply (Qlt_not_le _ _ H).
      apply Qle_shift_div_l; [reflexivity|exact Hle].
    - apply Qlt_shift_div_r; [reflexivity|exact H]. }
  rewrite <- Hdiv.
  destruct (Qle_bool 0 (time_until_close / 60)) eqn:E.
  - split; intros H.
    + apply Qlt_le_trans with (inject_Z (Qfloor (time_until_close / 60) + 1)).
      * apply Qlt_floor.
      * change 61 with (inject_Z 61). rewrite <- Zle_Qle. lia.
    + assert (Hlt : (Qfloor (time_until_close / 60) < 61)%Z).
      { rewrite Zlt_Qlt. apply Qle_lt_trans with (time_until_close / 60);
          [apply Qfloor_le|exact H]. }
      lia.
  - assert (Hneg : time_until_close / 60 < 0).
    { apply Qnot_le_lt. intro H. apply Qle_bool_iff in H. congruence. }
    split; intros _.
    + apply Qlt_trans with 0; [exact Hneg|reflexivity].
    + apply Z.le_trans with (Qceiling 0); [|discriminate].
      apply Qceiling_resp_le. apply Qlt_le_weak. exact Hneg.
Qed.

Section TurnPhases.

Variable env : Env.
Variable symbols : list string.

(** The seconds until the close that the turn read at tick [t]. *)
Lemma cycle_flattening t :
  is_open (get_market_clock_data env t) = true ->
  seconds (next_close (get_market_clock_data env t))
    - seconds (current_time (get_market_clock_data env t)) < 3660 ->
  let clock := get_market_clock_data env t in
  let trading_start_time := (next_open clock + one_hour)%Z in
  let sleep_time := sleep_until trading_start_time (current_time clock) in
  cycle env symbols t =
    (Ok tt, S t,
     [GetMarketClockData;
      Print MarketAboutToClose;
      CloseAllPositions;
      Print AllPositionsClosed;
      Print (SleepingUntil (Qfloor (sleep_time / 60)) trading_start_time);
      Sleep sleep_time]).
Proof.
  intros Hopen Hclose. cbv zeta.
  rewrite <- total_seconds_seconds in Hclose.
  unfold cycle, bind, call, print, perform. rewrite Hopen.
  rewrite (proj2 (flatten_test_iff _) Hclose). reflexivity.
Qed.

Lemma cycle_trading t :
  is_open (get_market_clock_data env t) = true ->
  ~ seconds (next_close (get_market_clock_data env t))
      - seconds (current_time (get_market_clock_data env t)) < 3660 ->
  let clock := get_market_clock_data env t in
  let loop := for_each symbols (process_symbol env) (S t) in
  cycle env symbols t =
    match result_of loop with
    | Ok _ =>
        (Ok tt, tick_of loop,
         [GetMarketClockData; Print (RunningDayTrader (current_time clock))]
         ++ events_of loop ++ [Print (SleepingBeforeNextCheck 900); Sleep 900])
    | Raise e =>
        (Raise e, tick_of loop,
         [GetMarketClockData; Print (RunningDayTrader (current_time clock))]
         ++ events_of loop)
    end.
Proof.
  intros Hopen Hclose. cbv zeta.
  rewrite <- total_seconds_seconds in Hclose.
  assert (Htest : Z.leb (Py.int (total_seconds (next_close (get_market_clock_data env t))
                                   (current_time (get_market_clock_data env t)) / 60)) 60
                  = false).
  { destruct (Z.leb _ 60) eqn:E; [|reflexivity].
    apply flatten_test_iff in E. contradiction. }
  assert (Hmin : Py.min (total_seconds (next_close (get_market_clock_data env t))
                           (current_time (get_market_clock_data env t))) 900 = 900).
  { unfold Py.min, Py.ltb.
    destruct (Qle_bool (total_seconds _ _) 900) eqn:E; [|reflexivity].
    apply Qle_bool_iff in E. exfalso. apply Hclose.
    apply Qle_lt_trans with 900; [exact E|reflexivity]. }
  unfold cycle.
  rewrite (bind_ok _ _ t (get_market_clock_data env t) (S t) [GetMarketClockData] eq_refl).
  cbv zeta. rewrite Hopen, Htest, Hmin. cbn [negb].
  rewrite (bind_ok _ _ (S t) tt (S t)
             [Print (RunningDayTrader (current_time (get_market_clock_data env t)))] eq_refl).
  destruct (result_of (for_each symbols (process_symbol env) (S t))) as [[]|e] eqn:Hloop.
  - rewrite (bind_ok _ _ (S t) tt (tick_of (for_each symbols (process_symbol env) (S t)))
               (events_of (for_each symbols (process_symbol env) (S t)))).
    2:{ rewrite <- Hloop. apply run_eta. }
    cbn [bind print perform result_of tick_of events_of fst snd app]. reflexivity.
  - rewrite (bind_raise _ _ (S t) e (tick_of (for_each symbols (process_symbol env) (S t)))
               (events_of (for_each symbols (process_symbol env) (S t)))).
    2:{ rewrite <- Hloop. apply run_eta. }
    cbn [result_of tick_of events_of fst snd app]. reflexivity.
Qed.

(** The orders of a turn are those of its loop over the symbols, if any. *)
Lemma cycle_submitted_eq t :
  submitted (events_of (cycle env symbols t)) = []
  \/ submitted (events_of (cycle env symbols t)) =
       submitted (events_of (for_each symbols (process_symbol env) (S t))).
Proof.
  destruct (is_open (get_market_clock_data env t)) eqn:Hopen.
  - destruct (Qlt_le_dec
                (seconds (next_close (get_market_clock_data env t))
                 - seconds (current_time (get_market_clock_data env t))) 3660) as [H|H].
    + left. rewrite (cycle_flattening t Hopen H). reflexivity.
    + right. rewrite (cycle_trading t Hopen (Qle_not_lt _ _ H)). cbv zeta.
      destruct (result_of (for_each symbols (process_symbol env) (S t)));
        unfold events_of at 1; cbn [snd]; rewrite !submitted_app;
        cbn [app]; rewrite ?app_nil_r; reflexivity.
  - left. rewrite (cycle_market_closed env symbols t Hopen). reflexivity.
Qed.

End TurnPhases.

(** X6. In the orders a turn of the loop submits, taken in order, every
    trailing stop directly follows a market order for the same symbol and
    of the opposite side: no trailing stop is ever submitted on its own or
    after another trailing stop. *)
Theorem cycle_orders_paired (env : Env) (symbols : list string) (t : nat) :
  paired (submitted (events_of (cycle env symbols t))).
Proof.
  destruct (cycle_submitted_eq env symbols t) as [H|H]; rewrite H.
  - apply paired_nil.
  - apply for_each_paired.
Qed.

(** X7. Every order a turn of the loop submits is for a tracked symbol and
    good till canceled.  A market order is SIMPLE, without a stop-loss leg,
    for a positive whole number of shares; a trailing stop is of type
    TRAILING_STOP, for a positive quantity, with a trail price and no trail
    percent. *)
Theorem cycle_orders_shape (env : Env) (symbols : list string) (t : nat)
    (r : OrderRequest) :
  In r (submitted (events_of (cycle env symbols t))) ->
  In (order_symbol r) symbols
  /\ match r with
     | MarketReq m =>
         mo_order_class m = SIMPLE
         /\ mo_stop_loss m = None
         /\ mo_time_in_force m = GTC
         /\ exists q, (0 < q)%Z /\ mo_qty m = inject_Z q
     | TrailingReq s =>
         ts_type s = TRAILING_STOP
         /\ ts_time_in_force s = GTC
         /\ 0 < ts_qty s
         /\ ts_trail_percent s = None
         /\ ts_trail_price s <> None
     end.
Proof.
  intros Hin. apply cycle_submitted in Hin.
  split; [apply (for_each_own_symbols env symbols _ r Hin)|].
  destruct (for_each_trade_inv env symbols _ r Hin)
    as [symbol [trade_signal [rp [t' [_ [_ [Hq Hr]]]]]]].
  destruct (execute_trade_orders env symbol trade_signal rp t')
    as [H|[H|[filled [Hfilled H]]]]; cbv zeta in H; rewrite H in Hr.
  - destruct Hr.
  - destruct Hr as [<-|[]].
    repeat split. exists (quantity rp). split; [exact Hq|reflexivity].
  - destruct Hr as [<-|[<-|[]]].
    + repeat split. exists (quantity rp). split; [exact Hq|reflexivity].
    + repeat split; [exact Hfilled|discriminate].
Qed.

(** X7 on the entry of a BUY turn for SPY. *)
Lemma cycle_orders_shape_witness :
  In (order_symbol (MarketReq (market_order_request "SPY" 10 "buy" None (Some 105))))
     ["SPY"; "QQQ"]
  /\ mo_order_class (market_order_request "SPY" 10 "buy" None (Some 105)) = SIMPLE
  /\ mo_stop_loss (market_order_request "SPY" 10 "buy" None (Some 105)) = None
  /\ mo_time_in_force (market_order_request "SPY" 10 "buy" None (Some 105)) = GTC
  /\ exists q,
       (0 < q)%Z
       /\ mo_qty (market_order_request "SPY" 10 "buy" None (Some 105)) = inject_Z q.
Proof.
  apply (cycle_orders_shape (Scenario.funded 5000) ["SPY"; "QQQ"] 0%nat
           (MarketReq (market_order_request "SPY" 10 "buy" None (Some 105)))).
  left; reflexivity.
Defined.

Section Threshold.

Variable env : Env.
Variable symbols : list string.

Lemma for_each_never_closes t :
  ~ In CloseAllPositions (events_of (for_each symbols (process_symbol env) t)).
Proof.
  intros Hin.
  assert (H : emits_only (fun e => e <> CloseAllPositions)
                (for_each symbols (process_symbol env))).
  { apply emits_only_for_each. intros symbol _.
    apply (emits_only_weaken (symbol_event symbol)); [|apply process_symbol_footprint].
    intros e He ->. exact He. }
  apply (H t _ Hin). reflexivity.
Qed.

End Threshold.

(** X8. A turn of the loop calls [close_all_positions] exactly when the
    market is open and fewer than 3660 seconds (61 minutes) are left until
    the close: the minutes are truncated before they are compared with 60,
    so the positions are also closed with between 60 and 61 minutes left,
    and never while the market is closed or earlier in the session. *)
Theorem flatten_threshold (env : Env) (symbols : list string) (t : nat) :
  let clock := get_market_clock_data env t in
  In CloseAllPositions (events_of (cycle env symbols t)) <->
  is_open clock = true
  /\ seconds (next_close clock) - seconds (current_time clock) < 3660.
Proof.
  intros clock. subst clock.
  destruct (is_open (get_market_clock_data env t)) eqn:Hopen.
  - destruct (Qlt_le_dec
                (seconds (next_close (get_market_clock_data env t))
                 - seconds (current_time (get_market_clock_data env t))) 3660) as [H|H].
    + rewrite (cycle_flattening env symbols t Hopen H).
      split; [intros _; split; [reflexivity|exact H]|].
      intros _. right; right; left; reflexivity.
    + apply Qle_not_lt in H.
      rewrite (cycle_trading env symbols t Hopen H). cbv zeta.
      split; [|intros [_ H']; contradiction].
      intros Hin. exfalso.
      apply (for_each_never_closes env symbols (S t)).
      destruct (result_of (for_each symbols (process_symbol env) (S t)));
        unfold events_of in Hin at 1; cbn [snd app] in Hin.
      * destruct Hin as [Hin|[Hin|Hin]]; try discriminate Hin.
        apply in_app_or in Hin. destruct Hin as [Hin|Hin]; [exact Hin|].
        destruct Hin as [Hin|[Hin|[]]]; discriminate Hin.
      * destruct Hin as [Hin|[Hin|Hin]]; try discriminate Hin. exact Hin.
  - rewrite (cycle_market_closed env symbols t Hopen). cbv zeta.
    split; [|intros [H _]; discriminate H].
    intros [H|[H|[H|[]]]]; discriminate H.
Qed.

(** X9. A turn of the loop that returns ends with a sleep, never of a
    negative duration; in the trading phase, with the market open and at
    least 3660 seconds until the close, the sleep is of exactly 900 seconds:
    [min(time_until_close, 900)] is always 900 there. *)
Theorem cycle_ends_with_sleep (env : Env) (symbols : list string) (t : nat) :
  let clock := get_market_clock_data env t in
  result_of (cycle env symbols t) = Ok tt ->
  exists before sleep_time,
    events_of (cycle env symbols t) = before ++ [Sleep sleep_time]
    /\ 0 <= sleep_time
    /\ (is_open clock = true ->
        ~ seconds (next_close clock) - seconds (current_time clock) < 3660 ->
        sleep_time = 900).
Proof.
  intros clock Hres. subst clock.
  destruct (is_open (get_market_clock_data env t)) eqn:Hopen.
  - destruct (Qlt_le_dec
                (seconds (next_close (get_market_clock_data env t))
                 - seconds (current_time (get_market_clock_data env t))) 3660) as [H|H].
    + rewrite (cycle_flattening env symbols t Hopen H). cbv zeta.
      eexists [_; _; _; _; _]. eexists. split; [reflexivity|]. split.
      * apply sleep_until_trading_start.
      * intros _ Hn. contradiction.
    + apply Qle_not_lt in H.
      rewrite (cycle_trading env symbols t Hopen H) in Hres |- *. cbv zeta in Hres |- *.
      destruct (result_of (for_each symbols (process_symbol env) (S t))) as [[]|e];
        [|discriminate Hres].
      exists ([GetMarketClockData;
               Print (RunningDayTrader (current_time (get_market_clock_data env t)))]
              ++ events_of (for_each symbols (process_symbol env) (S t))
              ++ [Print (SleepingBeforeNextCheck 900)]), 900.
      split.
      * unfold events_of at 1. cbn [snd]. rewrite <- !app_assoc. reflexivity.
      * split; [discriminate|reflexivity].
  - rewrite (cycle_market_closed env symbols t Hopen). cbv zeta.
    eexists [_; _]. eexists. split; [reflexivity|]. split.
    + apply sleep_until_trading_start.
    + intros H. discriminate H.
Qed.

(** X9 at 15:00 with the close at 21:00: the turn trades SPY and sleeps 900
    seconds. *)
Lemma cycle_ends_with_sleep_witness :
  exists before sleep_time,
    events_of (cycle (Scenario.funded 5000) ["SPY"] 0%nat) = before ++ [Sleep sleep_time]
    /\ 0 <= sleep_time
    /\ (is_open (get_market_clock_data (Scenario.funded 5000) 0) = true ->
        ~ seconds (next_close (get_market_clock_data (Scenario.funded 5000) 0))
          - seconds (current_time (get_market_clock_data (Scenario.funded 5000) 0)) < 3660 ->
        sleep_time = 900).
Proof.
  apply (cycle_ends_with_sleep (Scenario.funded 5000) ["SPY"] 0%nat).
  reflexivity.
Defined.

(** ** Exceptions that leave a turn *)

Section TurnErrors.

Variable env : Env.

Lemma process_symbol_result symbol t :
  result_of (process_symbol env symbol t) =
    match fetch_historical_data env t symbol with
    | None | Some [] => Ok tt
    | Some symbol_data =>
        let trade_signal := generate_trade_signal env (S t) symbol in
        if actionable trade_signal then
          if has_position symbol (get_positions env (3 + t)) then Ok tt
          else
            match calculate_trade_parameters env symbol_data (last_close symbol_data)
                    (get_account_details env (2 + t)) (get_positions env (3 + t))
                    trade_signal with
            | Ok _ => Ok tt
            | Raise e => Raise e
            end
        else Ok tt
    end.
Proof.
  rewrite process_symbol_run.
  destruct (fetch_historical_data env t symbol) as [[|row rest]|]; try reflexivity.
  cbv zeta. unfold result_of at 1. cbn [fst].
  destruct (actionable (generate_trade_signal env (S t) symbol)); [|reflexivity].
  rewrite act_on_signal_run. cbv zeta.
  change (S (S (S t))) with (3 + t)%nat. change (S (S t)) with (2 + t)%nat.
  destruct (has_position symbol (get_positions env (3 + t))); [reflexivity|].
  destruct (calculate_trade_parameters env (row :: rest) _ _ _ _) as [rp|e];
    [|reflexivity].
  destruct (Z.leb (quantity rp) 0); [reflexivity|].
  unfold result_of at 1. cbn [fst]. apply execute_trade_returns.
Qed.



End TurnErrors.



Section Survival.

Variable env : Env.
Variable symbols : list string.

Hypothesis risk_manager_returns :
  forall symbol_data entry_price account_info open_positions side,
  exists risk_params,
    calculate_trade_parameters env symbol_data entry_price account_info open_positions side
    = Ok risk_params.

Lemma process_symbol_returns symbol t :
  result_of (process_symbol env symbol t) = Ok tt.
Proof.
  rewrite process_symbol_result.
  destruct (fetch_historical_data env t symbol) as [[|row rest]|]; try reflexivity.
  cbv zeta. destruct (actionable _); [|reflexivity].
  destruct (has_position symbol _); [reflexivity|].
  destruct (risk_manager_returns (row :: rest) (last_close (row :: rest))
              (get_account_details env (2 + t)) (get_positions env (3 + t))
              (generate_trade_signal env (S t) symbol)) as [rp Hrp].
  rewrite Hrp. reflexivity.
Qed.

Lemma for_each_returns l : forall t,
  result_of (for_each l (process_symbol env) t) = Ok tt.
Proof.
  induction l as [|symbol rest IH]; intros t; cbn [for_each]; [reflexivity|].
  rewrite result_bind, process_symbol_returns. apply IH.
Qed.

Lemma cycle_returns t : result_of (cycle env symbols t) = Ok tt.
Proof.
  destruct (is_open (get_market_clock_data env t)) eqn:Hopen.
  - destruct (Qlt_le_dec
                (seconds (next_close (get_market_clock_data env t))
                 - seconds (current_time (get_market_clock_data env t))) 3660) as [H|H].
    + rewrite (cycle_flattening env symbols t Hopen H). reflexivity.
    + rewrite (cycle_trading env symbols t Hopen (Qle_not_lt _ _ H)). cbv zeta.
      rewrite for_each_returns. reflexivity.
  - rewrite (cycle_market_closed env symbols t Hopen). reflexivity.
Qed.

Lemma run_day_trader_returns n : forall t,
  result_of (run_day_trader env symbols n t) = Ok tt.
Proof.
  induction n as [|n IH]; intros t; cbn [run_day_trader]; [reflexivity|].
  rewrite result_bind, cycle_returns. apply IH.
Qed.

End Survival.

(** ** The loop when its collaborators raise *)

Lemma bind_ext {A B} (m m' : M A) (f f' : A -> M B) t :
  m t = m' t -> (forall a t1, f a t1 = f' a t1) -> bind m f t = bind m' f' t.
Proof.
  intros Hm Hf. unfold bind. rewrite Hm.
  destruct (m' t) as [[[a|e] t1] es]; [rewrite Hf|]; reflexivity.
Qed.

(** With collaborators that return, the loop is the one of the sections
    above. *)
Section CollaboratorsReturn.

Variable env : Env.
Variable faults : Fallible.Faults.

Hypothesis collaborators_return : Fallible.all_return faults.

Lemma update_buffer_rows_returns symbol rows : forall i t,
  Fallible.update_buffer_rows faults symbol rows i t =
    for_each rows (fun row => perform (UpdateBuffer symbol row)) t.
Proof.
  destruct collaborators_return as [_ [_ [_ [Hbuffer _]]]].
  induction rows as [|row rest IH]; intros i t; cbn [Fallible.update_buffer_rows for_each];
    [reflexivity|].
  apply bind_ext.
  - unfold Fallible.attempt, perform. rewrite Hbuffer. reflexivity.
  - intros _ t1. apply IH.
Qed.

Lemma act_on_signal_returns symbol symbol_data trade_signal t :
  Fallible.act_on_signal env faults symbol symbol_data trade_signal t =
    act_on_signal env symbol symbol_data trade_signal t.
Proof.
  destruct collaborators_return as [_ [_ [_ [_ [_ [Hdetails Hpositions]]]]]].
  unfold Fallible.act_on_signal, act_on_signal.
  apply bind_ext; [unfold call; rewrite Hdetails; reflexivity|].
  intros account_info t1.
  apply bind_ext; [unfold call; rewrite Hpositions; reflexivity|].
  reflexivity.
Qed.

Lemma process_symbol_refines symbol t :
  Fallible.process_symbol env faults symbol t = process_symbol env symbol t.
Proof.
  destruct collaborators_return as [_ [_ [Hfetch [_ [Hsignal _]]]]].
  unfold Fallible.process_symbol, process_symbol.
  apply bind_ext; [unfold call; rewrite Hfetch; reflexivity|].
  intros [[|row rest]|] t1; try reflexivity.
  apply bind_ext; [apply update_buffer_rows_returns|].
  intros _ t2.
  apply bind_ext; [unfold call; rewrite Hsignal; reflexivity|].
  intros trade_signal t3.
  apply bind_ext; [reflexivity|].
  intros _ t4. destruct (actionable trade_signal); [|reflexivity].
  apply act_on_signal_returns.
Qed.

Lemma for_each_refines symbols : forall t,
  for_each symbols (Fallible.process_symbol env faults) t =
    for_each symbols (process_symbol env) t.
Proof.
  induction symbols as [|symbol rest IH]; intros t; cbn [for_each]; [reflexivity|].
  apply bind_ext; [apply process_symbol_refines|]. intros _ t1. apply IH.
Qed.

Lemma cycle_refines symbols t :
  Fallible.cycle env faults symbols t = cycle env symbols t.
Proof.
  destruct collaborators_return as [Hclock [Hclose _]].
  unfold Fallible.cycle, cycle.
  apply bind_ext; [unfold call; rewrite Hclock; reflexivity|].
  intros clock t1. cbv zeta.
  destruct (negb (is_open clock)); [reflexivity|].
  destruct (Z.leb _ 60).
  - apply bind_ext; [reflexivity|]. intros _ t2.
    apply bind_ext; [|reflexivity].
    unfold Fallible.attempt, perform. rewrite Hclose. reflexivity.
  - apply bind_ext; [reflexivity|]. intros _ t2.
    apply bind_ext; [apply for_each_refines|]. reflexivity.
Qed.

Lemma run_day_trader_refines symbols n : forall t,
  Fallible.run_day_trader env faults symbols n t = run_day_trader env symbols n t.
Proof.
  induction n as [|n IH]; intros t; cbn [Fallible.run_day_trader run_day_trader];
    [reflexivity|].
  apply bind_ext; [apply cycle_refines|]. intros _ t1. apply IH.
Qed.

End CollaboratorsReturn.

(** X12. No failure of the trade client ends the session: when the
    collaborators of the loop and the risk manager return, every turn of
    the loop returns and [run_day_trader] is still running after any number
    of turns, whatever [get_account], the building of requests,
    [submit_order] and [get_order_by_id] raise. *)
Theorem session_survives_broker_failures (env : Env) (faults : Fallible.Faults)
    (symbols : list string) :
  Fallible.all_return faults ->
  (forall symbol_data entry_price account_info open_positions side,
   exists risk_params,
     calculate_trade_parameters env symbol_data entry_price account_info open_positions side
     = Ok risk_params) ->
  forall n t,
    result_of (Fallible.cycle env faults symbols t) = Ok tt
    /\ result_of (Fallible.run_day_trader env faults symbols n t) = Ok tt.
Proof.
  intros Hreturn H n t.
  rewrite (cycle_refines env faults Hreturn), (run_day_trader_refines env faults Hreturn).
  split.
  - apply cycle_returns. exact H.
  - apply run_day_trader_returns. exact H.
Qed.

(** X12 over three turns with a broker that fails every submission, and
    with one whose account endpoint is down. *)
Lemma session_survives_broker_failures_witness :
  (result_of (Fallible.cycle Scenario.unreachable Fallible.none ["SPY"; "QQQ"] 0%nat) = Ok tt
   /\ result_of
        (Fallible.run_day_trader Scenario.unreachable Fallible.none ["SPY"; "QQQ"] 3 0%nat)
      = Ok tt)
  /\ (result_of
        (Fallible.cycle (Session.account_down_at 0) Fallible.none ["SPY"; "QQQ"] 0%nat)
      = Ok tt
      /\ result_of
           (Fallible.run_day_trader (Session.account_down_at 0) Fallible.none
              ["SPY"; "QQQ"] 3 0%nat)
         = Ok tt).
Proof.
  split.
  - apply (session_survives_broker_failures Scenario.unreachable Fallible.none
             ["SPY"; "QQQ"]).
    + repeat split.
    + intros. eexists. reflexivity.
  - apply (session_survives_broker_failures (Session.account_down_at 0) Fallible.none
             ["SPY"; "QQQ"]).
    + repeat split.
    + intros. eexists. reflexivity.
Defined.

Lemma result_call {A} (ev : Event) (f : nat -> Result A) t : result_of (call ev f t) = f t.
Proof. reflexivity. Qed.

Lemma tick_call {A} (ev : Event) (f : nat -> Result A) t : tick_of (call ev f t) = S t.
Proof. reflexivity. Qed.

Lemma events_call {A} (ev : Event) (f : nat -> Result A) t : events_of (call ev f t) = [ev].
Proof. reflexivity. Qed.

Section FallibleTurn.

Variable env : Env.
Variable faults : Fallible.Faults.

Lemma update_buffer_rows_run symbol rows : forall i t,
  tick_of (Fallible.update_buffer_rows faults symbol rows i t) = t
  /\ submitted (events_of (Fallible.update_buffer_rows faults symbol rows i t)) = []
  /\ forall e,
       result_of (Fallible.update_buffer_rows faults symbol rows i t) = Raise e ->
       exists j, (i <= j < i + List.length rows)%nat
                 /\ Fallible.update_buffer_raises faults t symbol j = Some e.
Proof.
  induction rows as [|row rest IH]; intros i t; cbn [Fallible.update_buffer_rows].
  - split; [reflexivity|]. split; [reflexivity|]. intros e H. discriminate H.
  - rewrite tick_bind, submitted_bind, result_bind.
    unfold Fallible.attempt, Fallible.answer, result_of, tick_of, events_of.
    cbn [fst snd].
    destruct (Fallible.update_buffer_raises faults t symbol i) as [e'|] eqn:Hi.
    + split; [reflexivity|]. split; [reflexivity|].
      intros e H. injection H as <-. exists i. split; [cbn [List.length]; lia|exact Hi].
    + destruct (IH (S i) t) as [Ht [Hs Hr]].
      unfold result_of, tick_of, events_of in Ht, Hs, Hr.
      split; [exact Ht|]. split; [exact Hs|].
      intros e H. destruct (Hr e H) as [j [Hj Hraise]].
      exists j. split; [cbn [List.length]; lia|exact Hraise].
Qed.

Lemma act_on_signal_raises symbol symbol_data trade_signal t e :
  result_of (Fallible.act_on_signal env faults symbol symbol_data trade_signal t) = Raise e ->
  (Fallible.get_account_details_raises faults t = Some e
   \/ Fallible.get_positions_raises faults (S t) = Some e
   \/ calculate_trade_parameters env symbol_data (last_close symbol_data)
        (get_account_details env t) (get_positions env (S t)) trade_signal = Raise e)
  /\ submitted (events_of (Fallible.act_on_signal env faults symbol symbol_data trade_signal t))
     = [].
Proof.
  unfold Fallible.act_on_signal, bind, call, lift, print, perform, Fallible.answer.
  cbv zeta.
  destruct (Fallible.get_account_details_raises faults t) as [e1|].
  { intros H. injection H as <-. split; [left; reflexivity|reflexivity]. }
  destruct (Fallible.get_positions_raises faults (S t)) as [e2|].
  { intros H. injection H as <-. split; [right; left; reflexivity|reflexivity]. }
  destruct (has_position symbol (get_positions env (S t))); [intros H; discriminate H|].
  destruct (calculate_trade_parameters env symbol_data (last_close symbol_data)
              (get_account_details env t) (get_positions env (S t)) trade_signal)
    as [risk_params|e3].
  - destruct (Z.leb (quantity risk_params) 0); [intros H; discriminate H|].
    pose proof (execute_trade_returns env symbol trade_signal risk_params (S (S t))) as Hret.
    destruct (execute_trade env symbol trade_signal risk_params (S (S t))) as [[r t'] es].
    unfold result_of in Hret |- *. cbn [fst] in Hret |- *. rewrite Hret.
    intros H. discriminate H.
  - intros H. injection H as <-. split; [right; right; reflexivity|reflexivity].
Qed.

End FallibleTurn.

(** X10. An exception leaves the turn of the loop for a symbol only when a
    call outside the [try] raised it: [fetch_historical_data],
    [update_buffer] on a row of the data, [generate_trade_signal],
    [get_account_details], [get_positions] or
    [calculate_trade_parameters].  The turn has then submitted no order;
    and no exception of the trade client leaves the turn. *)
Theorem turn_raises_only_outside_try (env : Env) (faults : Fallible.Faults)
    (symbol : string) (t : nat) (e : exn) :
  result_of (Fallible.process_symbol env faults symbol t) = Raise e ->
  (Fallible.fetch_historical_data_raises faults t symbol = Some e
   \/ (exists symbol_data i,
         fetch_historical_data env t symbol = Some symbol_data
         /\ (i < List.length symbol_data)%nat
         /\ Fallible.update_buffer_raises faults (S t) symbol i = Some e)
   \/ Fallible.generate_trade_signal_raises faults (S t) symbol = Some e
   \/ Fallible.get_account_details_raises faults (2 + t) = Some e
   \/ Fallible.get_positions_raises faults (3 + t) = Some e
   \/ (exists symbol_data,
         fetch_historical_data env t symbol = Some symbol_data
         /\ calculate_trade_parameters env symbol_data (last_close symbol_data)
              (get_account_details env (2 + t)) (get_positions env (3 + t))
              (generate_trade_signal env (S t) symbol)
            = Raise e))
  /\ submitted (events_of (Fallible.process_symbol env faults symbol t)) = [].
Proof.
  unfold Fallible.process_symbol.
  rewrite result_bind, submitted_bind, result_call, tick_call, events_call.
  destruct (Fallible.fetch_historical_data_raises faults t symbol) as [e0|];
    cbn [Fallible.answer].
  { intros H. injection H as <-. split; [left; reflexivity|reflexivity]. }
  destruct (fetch_historical_data env t symbol) as [[|row rest]|] eqn:Hfetch;
    try (intros H; discriminate H).
  cbv beta iota. rewrite result_bind, submitted_bind.
  destruct (update_buffer_rows_run faults symbol (row :: rest) 0 (S t)) as [Ht [Hs Hr]].
  rewrite Hs, Ht.
  destruct (result_of (Fallible.update_buffer_rows faults symbol (row :: rest) 0 (S t)))
    as [[]|e1].
  2:{ intros H. injection H as <-. destruct (Hr e1 eq_refl) as [j [Hj Hraise]].
      split; [|reflexivity]. right; left. exists (row :: rest), j.
      split; [reflexivity|]. split; [lia|exact Hraise]. }
  rewrite result_bind, submitted_bind, result_call, tick_call, events_call.
  destruct (Fallible.generate_trade_signal_raises faults (S t) symbol) as [e2|];
    cbn [Fallible.answer].
  { intros H. injection H as <-. split; [right; right; left; reflexivity|reflexivity]. }
  rewrite result_bind, submitted_bind.
  change (result_of (print (TradeSignal symbol (generate_trade_signal env (S t) symbol))
                       (S (S t))))
    with (Ok (A:=unit) tt).
  change (tick_of (print (TradeSignal symbol (generate_trade_signal env (S t) symbol))
                     (S (S t))))
    with (S (S t)).
  rewrite submitted_print.
  cbn [app submitted flat_map].
  destruct (actionable (generate_trade_signal env (S t) symbol));
    [|intros H; discriminate H].
  intros H.
  destruct (act_on_signal_raises env faults symbol (row :: rest) _ _ e H) as [Hsrc Hsub].
  split; [|exact Hsub].
  destruct Hsrc as [Hsrc|[Hsrc|Hsrc]].
  - right; right; right; left. exact Hsrc.
  - right; right; right; right; left. exact Hsrc.
  - right; right; right; right; right. exists (row :: rest). split; [reflexivity|exact Hsrc].
Qed.

(** X10 on QQQ when its history cannot be fetched, and when the risk
    manager finds its history too short. *)
Lemma turn_raises_only_outside_try_witness :
  ((Fallible.fetch_historical_data_raises (Fallible.no_data_for "QQQ") 0%nat "QQQ"
    = Some "data request failed"
    \/ (exists symbol_data i,
          fetch_historical_data (Scenario.funded 5000) 0%nat "QQQ" = Some symbol_data
          /\ (i < List.length symbol_data)%nat
          /\ Fallible.update_buffer_raises (Fallible.no_data_for "QQQ") 1%nat "QQQ" i
             = Some "data request failed")
    \/ Fallible.generate_trade_signal_raises (Fallible.no_data_for "QQQ") 1%nat "QQQ"
       = Some "data request failed"
    \/ Fallible.get_account_details_raises (Fallible.no_data_for "QQQ") (2 + 0)%nat
       = Some "data request failed"
    \/ Fallible.get_positions_raises (Fallible.no_data_for "QQQ") (3 + 0)%nat
       = Some "data request failed"
    \/ (exists symbol_data,
          fetch_historical_data (Scenario.funded 5000) 0%nat "QQQ" = Some symbol_data
          /\ calculate_trade_parameters (Scenario.funded 5000) symbol_data
               (last_close symbol_data)
               (get_account_details (Scenario.funded 5000) (2 + 0)%nat)
               (get_positions (Scenario.funded 5000) (3 + 0)%nat)
               (generate_trade_signal (Scenario.funded 5000) 1%nat "QQQ")
             = Raise "data request failed"))
   /\ submitted
        (events_of
           (Fallible.process_symbol (Scenario.funded 5000) (Fallible.no_data_for "QQQ")
              "QQQ" 0%nat))
      = [])
  /\ submitted
       (events_of
          (Fallible.process_symbol (Session.short_history "QQQ") Fallible.none "QQQ" 0%nat))
     = [].
Proof.
  split.
  - apply (turn_raises_only_outside_try (Scenario.funded 5000) (Fallible.no_data_for "QQQ")
             "QQQ" 0%nat "data request failed").
    reflexivity.
  - apply (turn_raises_only_outside_try (Session.short_history "QQQ") Fallible.none
             "QQQ" 0%nat "insufficient data").
    reflexivity.
Defined.

Lemma for_each_stops {A} (body : A -> M unit) x after e before : forall t,
  result_of (for_each before body t) = Ok tt ->
  result_of (body x (tick_of (for_each before body t))) = Raise e ->
  for_each (before ++ x :: after) body t =
    (Raise e,
     tick_of (body x (tick_of (for_each before body t))),
     events_of (for_each before body t)
     ++ events_of (body x (tick_of (for_each before body t)))).
Proof.
  induction before as [|y before IH]; intros t Hbefore Hraise.
  - cbn [app for_each] in *. change (tick_of (ret tt t)) with t in *.
    rewrite (bind_raise _ _ t e _ _ (run_with_result _ _ Hraise)).
    reflexivity.
  - cbn [app for_each] in *.
    rewrite result_bind in Hbefore. rewrite tick_bind in Hraise |- *.
    rewrite events_bind.
    destruct (result_of (body y t)) as [[]|e'] eqn:Hy; [|discriminate Hbefore].
    rewrite (bind_ok _ _ t tt _ _ (run_with_result _ _ Hy)).
    rewrite (IH _ Hbefore Hraise).
    cbn [result_of tick_of events_of fst snd]. rewrite app_assoc. reflexivity.
Qed.

Section CollaboratorFailures.

Variable env : Env.
Variable faults : Fallible.Faults.
Variable symbols : list string.

Lemma run_day_trader_stops n t e t1 es :
  Fallible.cycle env faults symbols t = (Raise e, t1, es) ->
  Fallible.run_day_trader env faults symbols (S n) t = (Raise e, t1, es).
Proof. intros H. cbn [Fallible.run_day_trader]. apply bind_raise. exact H. Qed.

Lemma cycle_clock_fails t e :
  Fallible.get_market_clock_data_raises faults t = Some e ->
  Fallible.cycle env faults symbols t = (Raise e, S t, [GetMarketClockData]).
Proof.
  intros H. unfold Fallible.cycle. apply bind_raise. unfold call. rewrite H. reflexivity.
Qed.

Lemma cycle_close_fails t e :
  Fallible.get_market_clock_data_raises faults t = None ->
  is_open (get_market_clock_data env t) = true ->
  seconds (next_close (get_market_clock_data env t))
    - seconds (current_time (get_market_clock_data env t)) < 3660 ->
  Fallible.close_all_positions_raises faults (S t) = Some e ->
  Fallible.cycle env faults symbols t =
    (Raise e, S t, [GetMarketClockData; Print MarketAboutToClose; CloseAllPositions]).
Proof.
  intros Hclock Hopen Hclose Hfault.
  rewrite <- total_seconds_seconds in Hclose.
  unfold Fallible.cycle, bind, call, print, perform, Fallible.attempt.
  rewrite Hclock. cbn [Fallible.answer]. cbv zeta. rewrite Hopen.
  rewrite (proj2 (flatten_test_iff _) Hclose). cbn [negb].
  rewrite Hfault. reflexivity.
Qed.

Lemma process_symbol_fetch_fails symbol t e :
  Fallible.fetch_historical_data_raises faults t symbol = Some e ->
  Fallible.process_symbol env faults symbol t = (Raise e, S t, [FetchHistoricalData symbol]).
Proof.
  intros H. unfold Fallible.process_symbol. apply bind_raise.
  unfold call. rewrite H. reflexivity.
Qed.

Lemma cycle_loop_fails t e t1 es :
  Fallible.get_market_clock_data_raises faults t = None ->
  is_open (get_market_clock_data env t) = true ->
  ~ seconds (next_close (get_market_clock_data env t))
      - seconds (current_time (get_market_clock_data env t)) < 3660 ->
  for_each symbols (Fallible.process_symbol env faults) (S t) = (Raise e, t1, es) ->
  Fallible.cycle env faults symbols t =
    (Raise e, t1,
     [GetMarketClockData; Print (RunningDayTrader (current_time (get_market_clock_data env t)))]
     ++ es).
Proof.
  intros Hclock Hopen Hclose Hloop.
  rewrite <- total_seconds_seconds in Hclose.
  assert (Htest : Z.leb (Py.int (total_seconds (next_close (get_market_clock_data env t))
                                   (current_time (get_market_clock_data env t)) / 60)) 60
                  = false).
  { destruct (Z.leb _ 60) eqn:E; [|reflexivity].
    apply flatten_test_iff in E. contradiction. }
  unfold Fallible.cycle.
  rewrite (bind_ok _ _ t (get_market_clock_data env t) (S t) [GetMarketClockData]).
  2:{ unfold call. rewrite Hclock. reflexivity. }
  cbv zeta. rewrite Hopen, Htest. cbn [negb].
  rewrite (bind_ok _ _ (S t) tt (S t)
             [Print (RunningDayTrader (current_time (get_market_clock_data env t)))] eq_refl).
  rewrite (bind_raise _ _ (S t) e t1 es Hloop).
  reflexivity.
Qed.

End CollaboratorFailures.

(** X21. A failure of the market clock, or of closing the positions in the
    last hour, ends the session.  When [get_market_clock_data] raises,
    [run_day_trader] raises at once and has done nothing else; when
    [close_all_positions] raises, [run_day_trader] raises there, without
    the sleep until the next trading day. *)
Theorem clock_or_close_failure_ends_session (env : Env) (faults : Fallible.Faults)
    (symbols : list string) (t : nat) (e : exn) :
  (Fallible.get_market_clock_data_raises faults t = Some e ->
   forall n,
     Fallible.run_day_trader env faults symbols (S n) t = (Raise e, S t, [GetMarketClockData]))
  /\ (Fallible.get_market_clock_data_raises faults t = None ->
      is_open (get_market_clock_data env t) = true ->
      seconds (next_close (get_market_clock_data env t))
        - seconds (current_time (get_market_clock_data env t)) < 3660 ->
      Fallible.close_all_positions_raises faults (S t) = Some e ->
      forall n,
        Fallible.run_day_trader env faults symbols (S n) t =
          (Raise e, S t, [GetMarketClockData; Print MarketAboutToClose; CloseAllPositions])).
Proof.
  split.
  - intros H n. apply run_day_trader_stops. apply cycle_clock_fails. exact H.
  - intros Hclock Hopen Hclose Hfault n. apply run_day_trader_stops.
    apply cycle_close_fails; assumption.
Qed.

(** X21 with the clock down at the second turn of a closed market, and with
    positions that cannot be closed half an hour before the close. *)
Lemma clock_or_close_failure_ends_session_witness :
  Fallible.run_day_trader (Scenario.at_clock Scenario.overnight) (Fallible.clock_down_at 1)
    ["SPY"; "QQQ"] 3 1%nat
  = (Raise "clock unavailable", 2%nat, [GetMarketClockData])
  /\ Fallible.run_day_trader (Scenario.at_clock Scenario.closing) Fallible.cannot_close
       ["SPY"; "QQQ"] 3 0%nat
     = (Raise "close failed", 1%nat,
        [GetMarketClockData; Print MarketAboutToClose; CloseAllPositions]).
Proof.
  split.
  - apply (proj1 (clock_or_close_failure_ends_session (Scenario.at_clock Scenario.overnight)
                    (Fallible.clock_down_at 1) ["SPY"; "QQQ"] 1%nat "clock unavailable")).
    reflexivity.
  - apply (proj2 (clock_or_close_failure_ends_session (Scenario.at_clock Scenario.closing)
                    Fallible.cannot_close ["SPY"; "QQQ"] 0%nat "close failed")).
    + reflexivity.
    + reflexivity.
    + reflexivity.
    + reflexivity.
Defined.

(** X22. A failure of [fetch_historical_data] for one symbol ends the
    session: in the trading phase, once the turns for the symbols before it
    have returned, [run_day_trader] raises with the failed fetch as its last
    event; the symbols after it are not looked at and the loop does not
    reach its sleep. *)
Theorem data_failure_ends_session (env : Env) (faults : Fallible.Faults)
    (before : list string) (symbol : string) (after : list string) (t : nat) (e : exn) :
  let clock := get_market_clock_data env t in
  let earlier := for_each before (Fallible.process_symbol env faults) (S t) in
  Fallible.get_market_clock_data_raises faults t = None ->
  is_open clock = true ->
  ~ seconds (next_close clock) - seconds (current_time clock) < 3660 ->
  result_of earlier = Ok tt ->
  Fallible.fetch_historical_data_raises faults (tick_of earlier) symbol = Some e ->
  forall n,
    Fallible.run_day_trader env faults (before ++ symbol :: after) (S n) t =
      (Raise e, S (tick_of earlier),
       [GetMarketClockData; Print (RunningDayTrader (current_time clock))]
       ++ events_of earlier ++ [FetchHistoricalData symbol]).
Proof.
  intros clock earlier Hclock Hopen Hclose Hearlier Hfetch n.
  apply run_day_trader_stops.
  apply (cycle_loop_fails env faults _ t e _ _ Hclock Hopen Hclose).
  pose proof (process_symbol_fetch_fails env faults symbol (tick_of earlier) e Hfetch) as Hturn.
  rewrite (for_each_stops (Fallible.process_symbol env faults) symbol after e before (S t)
             Hearlier).
  - fold earlier. rewrite Hturn. reflexivity.
  - fold earlier. rewrite Hturn. reflexivity.
Qed.

(** X22 on SPY, QQQ and IWM when the history of QQQ cannot be fetched: SPY
    is traded, the session ends at the fetch of QQQ, and IWM is not looked
    at. *)
Lemma data_failure_ends_session_witness :
  Fallible.run_day_trader (Scenario.funded 5000) (Fallible.no_data_for "QQQ")
    (["SPY"] ++ "QQQ" :: ["IWM"]) 3 0%nat
  = (Raise "data request failed",
     S (tick_of
          (for_each ["SPY"]
             (Fallible.process_symbol (Scenario.funded 5000) (Fallible.no_data_for "QQQ"))
             1%nat)),
     [GetMarketClockData; Print (RunningDayTrader (current_time Scenario.midday))]
     ++ events_of
          (for_each ["SPY"]
             (Fallible.process_symbol (Scenario.funded 5000) (Fallible.no_data_for "QQQ"))
             1%nat)
     ++ [FetchHistoricalData "QQQ"]).
Proof.
  apply (data_failure_ends_session (Scenario.funded 5000) (Fallible.no_data_for "QQQ")
           ["SPY"] "QQQ" ["IWM"] 0%nat "data request failed").
  - reflexivity.
  - reflexivity.
  - intro H. discriminate H.
  - reflexivity.
  - reflexivity.
Defined.

(** ** Rounding to cents *)

Lemma round_half_even_cases x :
  (Py.round_half_even x = Qfloor x /\ x - inject_Z (Qfloor x) <= 1 # 2)
  \/ (Py.round_half_even x = (Qfloor x + 1)%Z /\ 1 # 2 <= x - inject_Z (Qfloor x)).
Proof.
  unfold Py.round_half_even. cbv zeta.
  destruct (Qcompare_spec (x - inject_Z (Qfloor x)) (1 # 2)) as [H|H|H].
  - destruct (Z.even (Qfloor x)); [left|right]; (split; [reflexivity|lra]).
  - left. split; [reflexivity|lra].
  - right. split; [reflexivity|lra].
Qed.

(** Rounding moves a number by at most one half. *)
Lemma round_half_even_near x :
  x - (1 # 2) <= inject_Z (Py.round_half_even x)
  /\ inject_Z (Py.round_half_even x) <= x + (1 # 2).
Proof.
  pose proof (Qfloor_le x) as Hlo. pose proof (Qlt_floor x) as Hhi.
  rewrite inject_Z_plus in Hhi. change (inject_Z 1) with 1 in Hhi.
  destruct (round_half_even_cases x) as [[-> H]|[-> H]].
  - split; lra.
  - rewrite inject_Z_plus. change (inject_Z 1) with 1. split; lra.
Qed.

(** [round(x, 2)] is within half a cent of [x]. *)
Lemma round2_near x :
  x - (1 # 200) <= Py.round2 x /\ Py.round2 x <= x + (1 # 200).
Proof.
  destruct (round_half_even_near (x * 100)) as [Hlo Hhi].
  assert (H : Py.round2 x == inject_Z (Py.round_half_even (x * 100)) / 100).
  { unfold Py.round2, Qeq, Qdiv, Qmult, Qinv, inject_Z. cbn. lia. }
  rewrite H. split.
  - apply Qle_shift_div_l; [reflexivity|]. lra.
  - apply Qle_shift_div_r; [reflexivity|]. lra.
Qed.

(** ** The other methods of [TradeManager] *)

Section HousekeepingRuns.

Variable client : Housekeeping.Client.

Lemma place_bracket_order_refused symbol qty side lp sl tp t acct :
  get_account (Housekeeping.core client) t = Ok acct ->
  buying_power acct <= 0 ->
  Housekeeping.place_bracket_order client symbol qty side lp sl tp t =
    (Ok None, S t,
     [Housekeeping.Core GetAccount;
      Housekeeping.Core (Print (insufficient symbol qty side))]).
Proof.
  intros Hacct Hle.
  unfold Housekeeping.place_bracket_order, Housekeeping.bind, Housekeeping.core_run.
  rewrite (validate_trade_refuses (Housekeeping.core client) symbol qty side t acct Hacct Hle).
  reflexivity.
Qed.

Lemma place_bracket_order_validated symbol qty side lp sl tp t acct :
  get_account (Housekeeping.core client) t = Ok acct ->
  ~ buying_power acct <= 0 ->
  let order := Housekeeping.bracket_order_request symbol qty side lp sl tp in
  Housekeeping.place_bracket_order client symbol qty side lp sl tp t =
    match Housekeeping.validate_limit_request client order with
    | Raise e =>
        (Ok None, S t,
         [Housekeeping.Core GetAccount;
          Housekeeping.Say (Housekeeping.BracketOrderError symbol e)])
    | Ok _ =>
        match Housekeeping.submit_limit_order client (S t) order with
        | Raise e =>
            (Ok None, S (S t),
             [Housekeeping.Core GetAccount; Housekeeping.SubmitLimitOrder order;
              Housekeeping.Say (Housekeeping.BracketOrderError symbol e)])
        | Ok response =>
            (Ok (Some response), S (S t),
             [Housekeeping.Core GetAccount; Housekeeping.SubmitLimitOrder order;
              Housekeeping.Say
                (Housekeeping.BracketOrderPlaced (Py.upper side) qty symbol lp)])
        end
    end.
Proof.
  intros Hacct Hgt order.
  unfold Housekeeping.place_bracket_order, Housekeeping.bind at 1, Housekeeping.core_run.
  rewrite (validate_trade_accepts (Housekeeping.core client) symbol qty side t acct Hacct Hgt).
  cbn [negb map].
  unfold Housekeeping.try_except, Housekeeping.bind, Housekeeping.lift, Housekeeping.call,
    Housekeeping.say, Housekeeping.ret.
  fold order.
  destruct (Housekeeping.validate_limit_request client order) as [[]|e]; [|reflexivity].
  destruct (Housekeeping.submit_limit_order client (S t) order); reflexivity.
Qed.

Lemma place_bracket_order_raises symbol qty side lp sl tp t e :
  get_account (Housekeeping.core client) t = Raise e ->
  Housekeeping.place_bracket_order client symbol qty side lp sl tp t =
    (Raise e, S t, [Housekeeping.Core GetAccount]).
Proof.
  intros Hacct.
  unfold Housekeeping.place_bracket_order, Housekeeping.bind, Housekeeping.core_run.
  rewrite (validate_trade_raises (Housekeeping.core client) symbol qty side t e Hacct).
  reflexivity.
Qed.

End HousekeepingRuns.

(** X15. [place_bracket_order] fails closed like [place_market_order]:
    with a buying power of at most 0 it returns [None] without calling the
    client again, and once the account is read it never raises.  Every
    limit order it submits is a BRACKET order, good till canceled, at the
    limit price given, whose stop and take-profit prices are the requested
    ones rounded to cents, with no minimum distance applied on either
    side. *)
Theorem bracket_order_fails_closed (client : Housekeeping.Client) (symbol : string)
    (qty : Q) (side : string) (limit_price stop_loss_price take_profit_price : Q) (t : nat) :
  let run :=
    Housekeeping.place_bracket_order client symbol qty side limit_price stop_loss_price
      take_profit_price t in
  (forall acct, get_account (Housekeeping.core client) t = Ok acct ->
     buying_power acct <= 0 ->
     Housekeeping.result_of run = Ok None
     /\ Housekeeping.requests (Housekeeping.events_of run) = [])
  /\ (forall acct, get_account (Housekeeping.core client) t = Ok acct ->
        exists response, Housekeeping.result_of run = Ok response)
  /\ (forall r, In r (Housekeeping.limit_orders (Housekeeping.events_of run)) ->
        Housekeeping.lo_order_class r = BRACKET
        /\ Housekeeping.lo_time_in_force r = GTC
        /\ Housekeeping.lo_limit_price r = limit_price
        /\ Housekeeping.sp_stop_price (Housekeeping.lo_stop_loss r) = Py.round2 stop_loss_price
        /\ stop_loss_price - (1 # 200)
             <= Housekeeping.sp_stop_price (Housekeeping.lo_stop_loss r)
        /\ Housekeeping.sp_stop_price (Housekeeping.lo_stop_loss r)
             <= stop_loss_price + (1 # 200)
        /\ tp_limit_price (Housekeeping.lo_take_profit r) = Py.round2 take_profit_price).
Proof.
  intros run. subst run.
  assert (Hcases :
    forall acct, get_account (Housekeeping.core client) t = Ok acct ->
      buying_power acct <= 0 \/ ~ buying_power acct <= 0).
  { intros acct _. destruct (Qlt_le_dec 0 (buying_power acct)) as [H|H].
    - right. apply Qlt_not_le. exact H.
    - left. exact H. }
  split; [|split].
  - intros acct Hacct Hle.
    rewrite (place_bracket_order_refused client _ _ _ _ _ _ _ acct Hacct Hle).
    split; reflexivity.
  - intros acct Hacct. destruct (Hcases acct Hacct) as [Hle|Hgt].
    + rewrite (place_bracket_order_refused client _ _ _ _ _ _ _ acct Hacct Hle).
      eexists; reflexivity.
    + rewrite (place_bracket_order_validated client _ _ _ _ _ _ _ acct Hacct Hgt).
      cbv zeta.
      destruct (Housekeeping.validate_limit_request client _) as [[]|e];
        [|eexists; reflexivity].
      destruct (Housekeeping.submit_limit_order client (S t) _); eexists; reflexivity.
  - intros r Hin.
    assert (Hr : r = Housekeeping.bracket_order_request symbol qty side limit_price
                       stop_loss_price take_profit_price).
    { destruct (get_account (Housekeeping.core client) t) as [acct|e] eqn:Hacct.
      - destruct (Hcases acct eq_refl) as [Hle|Hgt].
        + rewrite (place_bracket_order_refused client _ _ _ _ _ _ _ acct Hacct Hle) in Hin.
          destruct Hin.
        + rewrite (place_bracket_order_validated client _ _ _ _ _ _ _ acct Hacct Hgt) in Hin.
          cbv zeta in Hin.
          destruct (Housekeeping.validate_limit_request client _) as [[]|e];
            [|destruct Hin].
          destruct (Housekeeping.submit_limit_order client (S t) _);
            destruct Hin as [Hin|[]]; symmetry; exact Hin.
      - rewrite (place_bracket_order_raises client _ _ _ _ _ _ _ e Hacct) in Hin.
        destruct Hin. }
    subst r. cbn.
    destruct (round2_near stop_loss_price) as [Hlo Hhi].
    repeat split; assumption.
Qed.

(** X15 on an account without buying power, and on a funded account whose
    bracket order is acknowledged. *)
Lemma bracket_order_fails_closed_witness :
  (Housekeeping.result_of
     (Housekeeping.place_bracket_order (Housekeeping.client_of (Scenario.funded 0) true)
        "SPY" 10 "buy" 100 98 104 0%nat) = Ok None
   /\ Housekeeping.requests
        (Housekeeping.events_of
           (Housekeeping.place_bracket_order (Housekeeping.client_of (Scenario.funded 0) true)
              "SPY" 10 "buy" 100 98 104 0%nat)) = [])
  /\ (exists response,
        Housekeeping.result_of
          (Housekeeping.place_bracket_order
             (Housekeeping.client_of (Scenario.funded 5000) true)
             "SPY" 10 "buy" 100 98 104 0%nat) = Ok response)
  /\ Housekeeping.lo_order_class
       (Housekeeping.bracket_order_request "SPY" 10 "buy" 100 98 104) = BRACKET.
Proof.
  split; [|split].
  - apply (proj1 (bracket_order_fails_closed (Housekeeping.client_of (Scenario.funded 0) true)
                    "SPY" 10 "buy" 100 98 104 0%nat) {| buying_power := 0 |}).
    + reflexivity.
    + apply Qle_refl.
  - apply (proj1 (proj2 (bracket_order_fails_closed
                           (Housekeeping.client_of (Scenario.funded 5000) true)
                           "SPY" 10 "buy" 100 98 104 0%nat)) {| buying_power := 5000 |}).
    reflexivity.
  - apply (proj2 (proj2 (bracket_order_fails_closed
                           (Housekeeping.client_of (Scenario.funded 5000) true)
                           "SPY" 10 "buy" 100 98 104 0%nat))
             (Housekeeping.bracket_order_request "SPY" 10 "buy" 100 98 104)).
    left; reflexivity.
Defined.

(** X16. [get_open_orders], [close_position], [cancel_order] and
    [cancel_all_orders] never raise, whatever the client does: each makes
    one call to the client and returns; [get_open_orders] returns the
    empty list when the call fails, and [close_position] closes the whole
    position, with no request object, exactly when the percentage equals
    100. *)
Theorem housekeeping_never_raises (client : Housekeeping.Client) (t : nat) :
  Housekeeping.result_of (Housekeeping.get_open_orders client t) =
    Ok (match Housekeeping.get_orders client t with
        | Ok open_orders => open_orders
        | Raise _ => []
        end)
  /\ (forall symbol percentage,
        Housekeeping.result_of (Housekeeping.close_position client symbol percentage t)
          = Ok tt
        /\ ((percentage == 100 /\
             Housekeeping.requests
               (Housekeeping.events_of
                  (Housekeeping.close_position client symbol percentage t))
             = [Housekeeping.ClosePosition symbol None])
            \/ (~ percentage == 100 /\
                Housekeeping.requests
                  (Housekeeping.events_of
                     (Housekeeping.close_position client symbol percentage t))
                = [Housekeeping.ClosePosition symbol
                     (Some {| Housekeeping.cp_percentage := percentage |})])))
  /\ (forall order_id,
        Housekeeping.result_of (Housekeeping.cancel_order client order_id t) = Ok tt
        /\ Housekeeping.requests
             (Housekeeping.events_of (Housekeeping.cancel_order client order_id t))
           = [Housekeeping.CancelOrderById order_id])
  /\ (Housekeeping.result_of (Housekeeping.cancel_all_orders client t) = Ok tt
      /\ Housekeeping.requests
           (Housekeeping.events_of (Housekeeping.cancel_all_orders client t))
         = [Housekeeping.CancelOrders]).
Proof.
  split; [|split; [|split]].
  - unfold Housekeeping.get_open_orders, Housekeeping.try_except, Housekeeping.bind,
      Housekeeping.call, Housekeeping.say, Housekeeping.ret.
    destruct (Housekeeping.get_orders client t); reflexivity.
  - intros symbol percentage.
    unfold Housekeeping.close_position, Housekeeping.try_except, Housekeeping.bind,
      Housekeeping.call, Housekeeping.say.
    destruct (Qeq_bool percentage 100) eqn:E.
    + apply Qeq_bool_iff in E.
      destruct (Housekeeping.close_position_by_symbol client t symbol None) as [[]|e];
        (split; [reflexivity|left; split; [exact E|reflexivity]]).
    + apply Qeq_bool_neq in E. cbv zeta.
      destruct (Housekeeping.close_position_by_symbol client t symbol _) as [[]|e];
        (split; [reflexivity|right; split; [exact E|reflexivity]]).
  - intros order_id.
    unfold Housekeeping.cancel_order, Housekeeping.try_except, Housekeeping.bind,
      Housekeeping.call, Housekeeping.say.
    destruct (Housekeeping.cancel_order_by_id client t order_id) as [[]|e];
      split; reflexivity.
  - unfold Housekeeping.cancel_all_orders, Housekeeping.try_except, Housekeeping.bind,
      Housekeeping.call, Housekeeping.say.
    destruct (Housekeeping.cancel_orders client t) as [[]|e]; split; reflexivity.
Qed.

(** ** The orders of a turn and the risk parameters *)

Lemma actionable_iff trade_signal :
  actionable trade_signal = true <-> trade_signal = "BUY" \/ trade_signal = "SELL".
Proof.
  unfold actionable. cbn [existsb]. rewrite !orb_true_iff, !String.eqb_eq.
  split.
  - intros [H|[H|H]]; [left|right|discriminate H]; exact H.
  - intros [H|H]; [left|right; left]; exact H.
Qed.

(** X17. Every order of the turn for a symbol carries what the risk
    manager returned in that turn: a market order has its quantity, the
    side of the signal (BUY on "BUY", SELL on "SELL") and, when it has a
    take-profit leg, its take-profit price rounded to cents; a trailing
    stop has its trail amount as trail price. *)
Theorem turn_orders_follow_risk_parameters (env : Env) (symbol : string) (t : nat)
    (r : OrderRequest) :
  In r (submitted (events_of (process_symbol env symbol t))) ->
  exists symbol_data risk_params,
    let trade_signal := generate_trade_signal env (S t) symbol in
    fetch_historical_data env t symbol = Some symbol_data
    /\ calculate_trade_parameters env symbol_data (last_close symbol_data)
         (get_account_details env (2 + t)) (get_positions env (3 + t)) trade_signal
       = Ok risk_params
    /\ match r with
       | MarketReq m =>
           mo_qty m = inject_Z (quantity risk_params)
           /\ (trade_signal = "BUY" /\ mo_side m = BUY
               \/ trade_signal = "SELL" /\ mo_side m = SELL)
           /\ (forall leg, mo_take_profit m = Some leg ->
                 tp_limit_price leg = Py.round2 (take_profit risk_params))
       | TrailingReq s =>
           ts_trail_price s = Some (trail_amount risk_params)
           /\ (trade_signal = "BUY" /\ ts_side s = SELL
               \/ trade_signal = "SELL" /\ ts_side s = BUY)
       end.
Proof.
  intros Hin.
  destruct (process_symbol_trade_inv env symbol t)
    as [df [rp [Hfetch [_ [Hact [_ [Hcalc [_ Hsub]]]]]]]].
  { right. intro E. rewrite E in Hin. destruct Hin. }
  exists df, rp. cbv zeta in *. split; [exact Hfetch|]. split; [exact Hcalc|].
  rewrite Hsub in Hin. apply actionable_iff in Hact.
  set (trade_signal := generate_trade_signal env (S t) symbol) in *.
  destruct (execute_trade_orders env symbol trade_signal rp (4 + t))
    as [H|[H|[filled [_ H]]]]; cbv zeta in H; rewrite H in Hin.
  - destruct Hin.
  - destruct Hin as [<-|[]].
    cbn [mo_qty mo_side mo_take_profit market_order_request].
    split; [reflexivity|]. split.
    + destruct Hact as [Hs|Hs]; rewrite Hs; [left|right]; split; reflexivity.
    + intros leg Hleg. unfold take_profit_of, Py.truthy_opt in Hleg.
      destruct (Py.truthy (take_profit rp)); [|discriminate Hleg].
      cbn [option_map] in Hleg.
      destruct (Py.truthy (Py.round2 (take_profit rp))); [|discriminate Hleg].
      injection Hleg as <-. reflexivity.
  - destruct Hin as [<-|[<-|[]]].
    + cbn [mo_qty mo_side mo_take_profit market_order_request].
      split; [reflexivity|]. split.
      * destruct Hact as [Hs|Hs]; rewrite Hs; [left|right]; split; reflexivity.
      * intros leg Hleg. unfold take_profit_of, Py.truthy_opt in Hleg.
        destruct (Py.truthy (take_profit rp)); [|discriminate Hleg].
        cbn [option_map] in Hleg.
        destruct (Py.truthy (Py.round2 (take_profit rp))); [|discriminate Hleg].
        injection Hleg as <-. reflexivity.
    + cbn [ts_trail_price ts_side trailing_stop_request].
      split; [reflexivity|].
      destruct Hact as [Hs|Hs]; rewrite Hs; [left|right]; split; reflexivity.
Qed.

(** X17 on the trailing stop of a BUY of SPY that fills for 10 shares. *)
Lemma turn_orders_follow_risk_parameters_witness :
  exists symbol_data risk_params,
    fetch_historical_data (Scenario.funded 5000) 0 "SPY" = Some symbol_data
    /\ calculate_trade_parameters (Scenario.funded 5000) symbol_data
         (last_close symbol_data)
         (get_account_details (Scenario.funded 5000) (2 + 0))
         (get_positions (Scenario.funded 5000) (3 + 0))
         (generate_trade_signal (Scenario.funded 5000) 1 "SPY")
       = Ok risk_params
    /\ (ts_trail_price (trailing_stop_request "SPY" 10 "buy" (Some 2) None)
          = Some (trail_amount risk_params)
        /\ (generate_trade_signal (Scenario.funded 5000) 1 "SPY" = "BUY"
            /\ ts_side (trailing_stop_request "SPY" 10 "buy" (Some 2) None) = SELL
            \/ generate_trade_signal (Scenario.funded 5000) 1 "SPY" = "SELL"
               /\ ts_side (trailing_stop_request "SPY" 10 "buy" (Some 2) None) = BUY)).
Proof.
  apply (turn_orders_follow_risk_parameters (Scenario.funded 5000) "SPY" 0%nat
           (TrailingReq (trailing_stop_request "SPY" 10 "buy" (Some 2) None))).
  right; left; reflexivity.
Defined.

(** ** The time a trade takes *)

Lemma sleeps_app es1 es2 : sleeps (es1 ++ es2) = sleeps es1 ++ sleeps es2.
Proof. unfold sleeps. apply flat_map_app. Qed.

Lemma polls_app es1 es2 : polls (es1 ++ es2) = (polls es1 + polls es2)%nat.
Proof. unfold polls. rewrite filter_app. apply length_app. Qed.

Lemma placing_events_quiet es :
  (forall e, In e es -> placing_event e) -> sleeps es = [] /\ polls es = 0%nat.
Proof.
  induction es as [|e rest IH]; intros H; [split; reflexivity|].
  destruct IH as [IHs IHp]; [intros x Hx; apply H; right; exact Hx|].
  pose proof (H e (or_introl eq_refl)) as He.
  destruct e; cbn in He; try destruct He; split; assumption.
Qed.

Section TradeTime.

Variable env : Env.

Lemma place_market_order_placing symbol qty side sl tp :
  emits_only placing_event (place_market_order env symbol qty side sl tp).
Proof. unfold place_market_order, validate_trade, print. footprint. Qed.

Lemma place_trailing_stop_order_placing symbol qty side tp tpc :
  emits_only placing_event (place_trailing_stop_order env symbol qty side tp tpc).
Proof. unfold place_trailing_stop_order, validate_trade, print. cbv zeta. footprint. Qed.

Lemma protect_entry_time symbol trade_signal risk_params o t :
  let run := protect_entry env symbol trade_signal risk_params o t in
  let wait := wait_for_order_fill env (id o) 10 t in
  sleeps (events_of run) = sleeps (events_of wait)
  /\ polls (events_of run) = polls (events_of wait).
Proof.
  intros run wait. subst run. rewrite protect_entry_run. cbv zeta. fold wait.
  assert (Hshape : forall r t' es,
            sleeps es = [] -> polls es = 0%nat ->
            sleeps (events_of (r : Result unit, t' : nat,
                               Print (ExecutedMarketOrder o) :: events_of wait ++ es))
              = sleeps (events_of wait)
            /\ polls (events_of (r, t',
                                 Print (ExecutedMarketOrder o) :: events_of wait ++ es))
                = polls (events_of wait)).
  { intros r t' es Hs Hp. unfold events_of. cbn [snd].
    change (Print (ExecutedMarketOrder o) :: ?l)
      with ([Print (ExecutedMarketOrder o)] ++ l).
    rewrite !sleeps_app, !polls_app, Hs, Hp.
    change (sleeps [Print (ExecutedMarketOrder o)]) with (@nil Q).
    change (polls [Print (ExecutedMarketOrder o)]) with 0%nat.
    rewrite app_nil_r. split; [reflexivity|lia]. }
  destruct (result_of wait) as [[filled|]|e]; try (apply Hshape; reflexivity).
  destruct (Py.truthy filled && Py.ltb 0 filled)%bool; [|apply Hshape; reflexivity].
  destruct (placing_events_quiet _
              (place_trailing_stop_order_placing symbol filled (Py.lower trade_signal)
                 (Some (trail_amount risk_params)) None (tick_of wait))) as [Hs Hp].
  destruct (result_of (place_trailing_stop_order env symbol filled _ _ _ _)) as [[r|]|e].
  - apply Hshape; [rewrite sleeps_app, Hs|rewrite polls_app, Hp]; reflexivity.
  - apply Hshape; [rewrite sleeps_app, Hs|rewrite polls_app, Hp]; reflexivity.
  - apply Hshape; assumption.
Qed.

End TradeTime.

Lemma execute_trade_time (env : Env) symbol trade_signal risk_params t :
  let run := execute_trade env symbol trade_signal risk_params t in
  (sleeps (events_of run) = [] /\ polls (events_of run) = 0%nat)
  \/ exists o t1,
       sleeps (events_of run) = sleeps (events_of (wait_for_order_fill env (id o) 10 t1))
       /\ polls (events_of run) = polls (events_of (wait_for_order_fill env (id o) 10 t1)).
Proof.
  intros run. subst run. unfold execute_trade.
  rewrite events_try_except, result_bind, events_bind.
  set (entry := place_market_order env symbol (inject_Z (quantity risk_params))
                  (Py.lower trade_signal) None (Some (take_profit risk_params)) t).
  destruct (placing_events_quiet _
              (place_market_order_placing env symbol (inject_Z (quantity risk_params))
                 (Py.lower trade_signal) None (Some (take_profit risk_params)) t))
    as [Hs Hp].
  fold entry in Hs, Hp.
  destruct (result_of entry) as [[o|]|e].
  - right. exists o, (tick_of entry).
    destruct (protect_entry_time env symbol trade_signal risk_params o (tick_of entry))
      as [Hs' Hp'].
    rewrite !sleeps_app, !polls_app, Hs, Hp, Hs', Hp'.
    destruct (result_of (protect_entry env symbol trade_signal risk_params o (tick_of entry)));
      cbn; rewrite ?app_nil_r; split; try reflexivity; lia.
  - left. rewrite !sleeps_app, !polls_app, Hs, Hp. split; reflexivity.
  - left. rewrite !sleeps_app, !polls_app, Hs, Hp. split; reflexivity.
Qed.

(** X18. A trade polls its entry order at most 10 times and calls
    [time.sleep] at most 10 times, for one second each; placing the entry
    and the trailing stop adds neither a poll nor a sleep.  This counts the
    polls and the sleep the trade asks for; how long the calls to the
    broker take is not part of the model. *)
Theorem trade_polls_and_sleeps_at_most_ten_times (env : Env) (symbol trade_signal : string)
    (risk_params : RiskParams) (t : nat) :
  let run := execute_trade env symbol trade_signal risk_params t in
  (forall s, In s (sleeps (events_of run)) -> s = 1)
  /\ (List.length (sleeps (events_of run)) <= 10)%nat
  /\ (polls (events_of run) <= 10)%nat.
Proof.
  intros run. subst run.
  destruct (execute_trade_time env symbol trade_signal risk_params t)
    as [[Hs Hp]|[o [t1 [Hs Hp]]]]; cbv zeta in Hs, Hp; rewrite Hs, Hp.
  - split; [intros s []|]. split; cbn; lia.
  - destruct (wait_loop_bounded env (id o) 10 10 0%nat t1) as [H1 [_ [H3 H4]]].
    cbv zeta in H1, H3, H4. fold (wait_for_order_fill env (id o) 10) in H1, H3, H4.
    split; [exact H3|]. split; lia.
Qed.

(** ** What a turn looks at *)

(** X19. While the market is closed a turn of the loop only reads the
    clock, prints and sleeps: it fetches no data, asks for no signal, reads
    no account, closes no position and submits nothing. *)
Theorem no_trading_while_closed (env : Env) (symbols : list string) (t : nat) :
  is_open (get_market_clock_data env t) = false ->
  submitted (events_of (cycle env symbols t)) = []
  /\ fetched (events_of (cycle env symbols t)) = []
  /\ tick_of (cycle env symbols t) = S t
  /\ forall e, In e (events_of (cycle env symbols t)) ->
       e = GetMarketClockData \/ (exists m, e = Print m) \/ (exists s, e = Sleep s).
Proof.
  intros Hclosed. rewrite (cycle_market_closed env symbols t Hclosed). cbv zeta.
  repeat split.
  intros e [<-|[<-|[<-|[]]]].
  - left; reflexivity.
  - right; left. eexists; reflexivity.
  - right; right. eexists; reflexivity.
Qed.

(** X19 overnight, with a BUY signal waiting on both symbols. *)
Lemma no_trading_while_closed_witness :
  submitted (events_of (cycle (Scenario.at_clock Scenario.overnight) ["SPY"; "QQQ"] 0%nat)) = []
  /\ fetched (events_of (cycle (Scenario.at_clock Scenario.overnight) ["SPY"; "QQQ"] 0%nat)) = []
  /\ tick_of (cycle (Scenario.at_clock Scenario.overnight) ["SPY"; "QQQ"] 0%nat) = 1%nat
  /\ forall e,
       In e (events_of (cycle (Scenario.at_clock Scenario.overnight) ["SPY"; "QQQ"] 0%nat)) ->
       e = GetMarketClockData \/ (exists m, e = Print m) \/ (exists s, e = Sleep s).
Proof.
  apply (no_trading_while_closed (Scenario.at_clock Scenario.overnight) ["SPY"; "QQQ"] 0%nat).
  reflexivity.
Defined.

Lemma fetched_app es1 es2 : fetched (es1 ++ es2) = fetched es1 ++ fetched es2.
Proof. unfold fetched. apply flat_map_app. Qed.

Lemma fetched_none es :
  (forall e, In e es -> forall s, e <> FetchHistoricalData s) -> fetched es = [].
Proof.
  induction es as [|e rest IH]; intros H; [reflexivity|].
  pose proof (H e (or_introl eq_refl)) as He.
  assert (Hrest : fetched rest = []) by (apply IH; intros x Hx; apply H; right; exact Hx).
  destruct e; try exact Hrest. exfalso. apply (He symbol0). reflexivity.
Qed.

Section Fetches.

Variable env : Env.

Lemma act_on_signal_fetches_nothing symbol symbol_data trade_signal t :
  fetched (events_of (act_on_signal env symbol symbol_data trade_signal t)) = [].
Proof.
  rewrite act_on_signal_run. cbv zeta.
  destruct (has_position symbol _); [reflexivity|].
  destruct (calculate_trade_parameters env _ _ _ _ _) as [rp|e]; [|reflexivity].
  destruct (Z.leb (quantity rp) 0); [reflexivity|].
  unfold events_of at 1. cbn [snd]. rewrite fetched_app. cbn [app fetched flat_map].
  apply fetched_none. intros e He s ->.
  exact (execute_trade_footprint env symbol trade_signal rp _ _ He).
Qed.

Lemma process_symbol_fetches_once symbol t :
  fetched (events_of (process_symbol env symbol t)) = [symbol].
Proof.
  rewrite process_symbol_run.
  destruct (fetch_historical_data env t symbol) as [[|row rest]|]; try reflexivity.
  cbv zeta. unfold events_of at 1. cbn [snd].
  change (FetchHistoricalData symbol :: ?l) with ([FetchHistoricalData symbol] ++ l).
  rewrite !fetched_app.
  assert (Hup : fetched (map (UpdateBuffer symbol) (row :: rest)) = []).
  { apply fetched_none. intros e He s ->. apply in_map_iff in He.
    destruct He as [x [Hx _]]. discriminate Hx. }
  rewrite Hup.
  destruct (actionable _).
  - rewrite act_on_signal_fetches_nothing. reflexivity.
  - reflexivity.
Qed.

Lemma for_each_fetches_in_order symbols : forall t,
  exists n,
    fetched (events_of (for_each symbols (process_symbol env) t)) = firstn n symbols
    /\ (result_of (for_each symbols (process_symbol env) t) = Ok tt ->
        fetched (events_of (for_each symbols (process_symbol env) t)) = symbols).
Proof.
  induction symbols as [|symbol rest IH]; intros t; cbn [for_each].
  - exists 0%nat. split; reflexivity.
  - rewrite events_bind, result_bind, fetched_app, process_symbol_fetches_once.
    destruct (result_of (process_symbol env symbol t)) as [[]|e].
    + destruct (IH (tick_of (process_symbol env symbol t))) as [n [Hn Hall]].
      exists (S n). cbn [firstn app]. rewrite Hn. split; [reflexivity|].
      intros Hres. rewrite <- Hn. rewrite (Hall Hres). reflexivity.
    + exists 1%nat. cbn. split; [reflexivity|discriminate].
Qed.

End Fetches.

(** X20. In the trading phase a turn of the loop fetches the history of
    the tracked symbols one by one in the order of the list, each at most
    once; a turn that returns has fetched every symbol exactly once, also
    those without data, without a signal or whose order failed. *)
Theorem every_symbol_fetched_once (env : Env) (symbols : list string) (t : nat) :
  let clock := get_market_clock_data env t in
  is_open clock = true ->
  ~ seconds (next_close clock) - seconds (current_time clock) < 3660 ->
  (exists n, fetched (events_of (cycle env symbols t)) = firstn n symbols)
  /\ (result_of (cycle env symbols t) = Ok tt ->
      fetched (events_of (cycle env symbols t)) = symbols).
Proof.
  intros clock Hopen Hclose. subst clock.
  rewrite (cycle_trading env symbols t Hopen Hclose). cbv zeta.
  destruct (for_each_fetches_in_order env symbols (S t)) as [n [Hn Hall]].
  destruct (result_of (for_each symbols (process_symbol env) (S t))) as [[]|e];
    unfold events_of, result_of in *; cbn [fst snd]; rewrite !fetched_app;
    change (fetched [GetMarketClockData; Print _]) with (@nil string);
    cbn [app].
  - change (fetched [Print _; Sleep _]) with (@nil string). rewrite app_nil_r.
    split; [exists n; exact Hn|]. intros _. apply Hall. reflexivity.
  - split; [exists n; exact Hn|]. discriminate.
Qed.

(** X20 at 15:00 on SPY, QQQ and IWM with a broker that fails every
    submission, and with too short a history for QQQ. *)
Lemma every_symbol_fetched_once_witness :
  ((exists n,
      fetched (events_of (cycle Scenario.unreachable ["SPY"; "QQQ"; "IWM"] 0%nat))
      = firstn n ["SPY"; "QQQ"; "IWM"])
   /\ (result_of (cycle Scenario.unreachable ["SPY"; "QQQ"; "IWM"] 0%nat) = Ok tt ->
       fetched (events_of (cycle Scenario.unreachable ["SPY"; "QQQ"; "IWM"] 0%nat))
       = ["SPY"; "QQQ"; "IWM"]))
  /\ fetched (events_of (cycle (Session.short_history "QQQ") ["SPY"; "QQQ"; "IWM"] 0%nat))
     = ["SPY"; "QQQ"].
Proof.
  split.
  - apply (every_symbol_fetched_once Scenario.unreachable ["SPY"; "QQQ"; "IWM"] 0%nat).
    + reflexivity.
    + intro H. discriminate H.
  - reflexivity.
Defined.
